(** * ksebitcoin: the trading data store and its performance analyzer

    A shallow embedding of [src/database.py] (class [TradingDatabase]).

    - Python values are the inductive [pyval]; a Python exception is a value
      of [exn] and a fallible computation has type [result A].
    - Python floats are IEEE binary64 numbers: Rocq's primitive [float].
    - The SQLite file is the record [database]: one list of rows per table,
      rows in rowid order, plus the AUTOINCREMENT counter of each table.
      SQL is modelled at the level of its documented semantics: WHERE is a
      filter, ORDER BY a sort that keeps rows with equal keys in scan order,
      LIMIT a prefix, text compares byte-wise.
    - A string is the UTF-8 encoding of a Python [str].
    - The arguments that the signatures annotate as [float], [int], [str]
      and [bool] are taken at these types.  A float goes through SQLite as
      the library treats it: a NaN is bound as NULL (so a NOT NULL column
      refuses it), and a REAL column returns a zero without its sign.  The
      arguments of [save_analysis_log] and [save_reflection] are dicts read
      with [.get]: they stay dynamic.
    - Clock readings ([datetime.now()], SQL [CURRENT_TIMESTAMP]) are
      arguments of the operations that read the clock.
    - The JSON codec and two of SQLite's text/number conversions are library
      code outside the repository: they are the fields of [Runtime]. *)

From Stdlib Require Import ZArith List String Ascii Bool Lia.
From Stdlib Require Import PrimFloat SpecFloat FloatOps DecimalString.
From Stdlib Require Import Sorted Permutation.
Import ListNotations.

Set Warnings "-register-all".
Local Open Scope string_scope.
Local Open Scope Z_scope.

(** ** Exceptions and fallible computations *)

Inductive exn : Type :=
| ZeroDivisionError
| TypeError
| IndexError
| OverflowError
| AttributeError
| IntegrityError      (* sqlite3.IntegrityError: a NOT NULL constraint failed *)
| BindingError        (* sqlite3: "Error binding parameter": unsupported type *)
| JSONDecodeError
| FileNotFoundError
| OtherOSError.       (* any other failure of open(): permissions, ... *)

Definition result (A : Type) : Type := (exn + A)%type.

Definition ok {A : Type} (a : A) : result A := inr a.
Definition raise {A : Type} (e : exn) : result A := inl e.

Definition bind {A B : Type} (c : result A) (k : A -> result B) : result B :=
  match c with
  | inl e => inl e
  | inr a => k a
  end.

Notation "x <- c ;; k" := (bind c (fun x => k))
  (at level 61, c at next level, right associativity).
Notation "' p <- c ;; k" := (bind c (fun p => k))
  (at level 61, p pattern, c at next level, right associativity).

(** ** Python values *)

(** Tuples and lists are both [VList]; a dict with string keys is an
    association list in insertion order. *)
Inductive pyval : Type :=
| VNone
| VBool (b : bool)
| VInt (z : Z)
| VFloat (f : float)
| VStr (s : string)
| VList (l : list pyval)
| VDict (d : list (string * pyval)).

Definition dict : Type := list (string * pyval).

Fixpoint lookup (k : string) (d : dict) : option pyval :=
  match d with
  | [] => None
  | (k', v) :: d' => if String.eqb k k' then Some v else lookup k d'
  end.

Definition keys (d : dict) : list string := map fst d.

(** [obj.get(k, default)]: only a dict has the method. *)
Definition py_get (obj : pyval) (k : string) (default : pyval) : result pyval :=
  match obj with
  | VDict d => ok (match lookup k d with Some v => v | None => default end)
  | _ => raise AttributeError
  end.

(** [t[i]] on a tuple. *)
Definition py_item (t : list pyval) (i : nat) : result pyval :=
  match nth_error t i with
  | Some v => ok v
  | None => raise IndexError
  end.

(** [a == b] where [b] is a string literal. *)
Definition py_eq_str (a : pyval) (lit : string) : bool :=
  match a with
  | VStr s => String.eqb s lit
  | _ => false
  end.

(** ** Python arithmetic *)

(** [float(z)]: round to nearest even; too large an int raises. *)
Definition float_of_Z (z : Z) : float :=
  SF2Prim (binary_normalize 53 1024 z 0 false).

Definition float_of_int (z : Z) : result float :=
  let f := float_of_Z z in
  if is_infinity f then raise OverflowError else ok f.

Inductive num : Type :=
| NInt (z : Z)
| NFloat (f : float).

Definition as_num (v : pyval) : option num :=
  match v with
  | VBool b => Some (NInt (if b then 1 else 0))
  | VInt z => Some (NInt z)
  | VFloat f => Some (NFloat f)
  | _ => None
  end.

Definition to_float (n : num) : result float :=
  match n with
  | NInt z => float_of_int z
  | NFloat f => ok f
  end.

(** A binary operator on numbers: exact on two ints, IEEE on floats after
    converting an int operand. *)
Definition py_arith (fz : Z -> Z -> Z) (ff : float -> float -> float)
    (a b : pyval) : result pyval :=
  match as_num a, as_num b with
  | Some (NInt x), Some (NInt y) => ok (VInt (fz x y))
  | Some x, Some y =>
      fx <- to_float x ;;
      fy <- to_float y ;;
      ok (VFloat (ff fx fy))
  | _, _ => raise TypeError
  end.

Definition py_add : pyval -> pyval -> result pyval := py_arith Z.add PrimFloat.add.
Definition py_sub : pyval -> pyval -> result pyval := py_arith Z.sub PrimFloat.sub.
Definition py_mul : pyval -> pyval -> result pyval := py_arith Z.mul PrimFloat.mul.

(** [x / y] on two ints: the correctly rounded quotient.  The quotient is
    computed with 64 spare bits and a sticky bit, then rounded once. *)
Definition int_true_divide (x y : Z) : result float :=
  if y =? 0 then raise ZeroDivisionError
  else
    let negate := xorb (x <? 0) (y <? 0) in
    let ax := Z.abs x in
    let ay := Z.abs y in
    let k := 64 + Z.log2 ay + 1 in
    let q := (ax * 2 ^ k) / ay in
    let r := (ax * 2 ^ k) mod ay in
    let m := 2 * q + (if r =? 0 then 0 else 1) in
    let mag := SF2Prim (binary_normalize 53 1024 m (- k - 1) false) in
    if is_infinity mag then raise OverflowError
    else ok (if negate then PrimFloat.opp mag else mag).

(** [a / b]: true division; a zero divisor raises. *)
Definition py_truediv (a b : pyval) : result pyval :=
  match as_num a, as_num b with
  | Some (NInt x), Some (NInt y) =>
      f <- int_true_divide x y ;; ok (VFloat f)
  | Some x, Some y =>
      fx <- to_float x ;;
      fy <- to_float y ;;
      if PrimFloat.eqb fy 0%float then raise ZeroDivisionError
      else ok (VFloat (PrimFloat.div fx fy))
  | _, _ => raise TypeError
  end.

(** [a > b].  A mixed comparison converts the int operand; the source only
    compares against the literal [0], where the conversion is exact. *)
Definition py_gt (a b : pyval) : result bool :=
  match as_num a, as_num b with
  | Some (NInt x), Some (NInt y) => ok (y <? x)
  | Some x, Some y =>
      fx <- to_float x ;;
      fy <- to_float y ;;
      ok (PrimFloat.ltb fy fx)
  | _, _ => raise TypeError
  end.

(** ** Text helpers *)

Definition digit (z : Z) : ascii := ascii_of_nat (48 + Z.to_nat (z mod 10)).

(** [%0wd] for a non-negative number that fits the width. *)
Fixpoint pad (w : nat) (z : Z) : string :=
  match w with
  | O => EmptyString
  | S w' => pad w' (z / 10) ++ String (digit z) EmptyString
  end.

Definition int_to_text (z : Z) : string := NilZero.string_of_int (Z.to_int z).

(** The characters [str.strip()] removes are those of [str.isspace]:
    U+0009 to U+000D, U+001C to U+0020, U+0085, U+00A0, U+1680, U+2000 to
    U+200A, U+2028, U+2029, U+202F, U+205F and U+3000.  In UTF-8 they take
    one, two or three bytes. *)
Definition is_space (c : ascii) : bool :=
  let n := nat_of_ascii c in
  (((9 <=? n) && (n <=? 13)) || ((28 <=? n) && (n <=? 32)))%nat.

(** U+0085 is C2 85 and U+00A0 is C2 A0. *)
Definition is_space2 (c1 c2 : ascii) : bool :=
  let n1 := nat_of_ascii c1 in
  let n2 := nat_of_ascii c2 in
  ((n1 =? 194) && ((n2 =? 133) || (n2 =? 160)))%nat.

(** U+1680 is E1 9A 80; U+2000 to U+200A are E2 80 80 to E2 80 8A; U+2028,
    U+2029 and U+202F are E2 80 A8, E2 80 A9 and E2 80 AF; U+205F is
    E2 81 9F; U+3000 is E3 80 80. *)
Definition is_space3 (c1 c2 c3 : ascii) : bool :=
  let n1 := nat_of_ascii c1 in
  let n2 := nat_of_ascii c2 in
  let n3 := nat_of_ascii c3 in
  (((n1 =? 225) && (n2 =? 154) && (n3 =? 128))
   || ((n1 =? 226) && (n2 =? 128)
       && (((128 <=? n3) && (n3 <=? 138))
           || (n3 =? 168) || (n3 =? 169) || (n3 =? 175)))
   || ((n1 =? 226) && (n2 =? 129) && (n3 =? 159))
   || ((n1 =? 227) && (n2 =? 128) && (n3 =? 128)))%nat.

Fixpoint lstrip (s : string) : string :=
  match s with
  | EmptyString => EmptyString
  | String c1 s1 =>
      if is_space c1 then lstrip s1
      else
        match s1 with
        | EmptyString => s
        | String c2 s2 =>
            if is_space2 c1 c2 then lstrip s2
            else
              match s2 with
              | EmptyString => s
              | String c3 s3 => if is_space3 c1 c2 c3 then lstrip s3 else s
              end
        end
  end.

(** A string that is one whitespace character. *)
Definition one_space (s : string) : bool :=
  match s with
  | String c1 EmptyString => is_space c1
  | String c1 (String c2 EmptyString) => is_space2 c1 c2
  | String c1 (String c2 (String c3 EmptyString)) => is_space3 c1 c2 c3
  | _ => false
  end.

(** Once the rest is stripped, a whitespace character at the end can only
    be the whole of what is left. *)
Fixpoint rstrip (s : string) : string :=
  match s with
  | EmptyString => EmptyString
  | String c s' =>
      let t := String c (rstrip s') in
      if one_space t then EmptyString else t
  end.

Definition strip (s : string) : string := rstrip (lstrip s).

(** Truth value of a string. *)
Definition nonempty (s : string) : bool :=
  match s with
  | EmptyString => false
  | String _ _ => true
  end.

(** ** Dates and times (Python's [datetime], naive) *)

Record datetime : Type := mk_datetime {
  year : Z; month : Z; day : Z;
  hour : Z; minute : Z; second : Z; microsecond : Z
}.

Definition is_leap (y : Z) : bool :=
  (y mod 4 =? 0) && (negb (y mod 100 =? 0) || (y mod 400 =? 0)).

Definition days_before_year (y : Z) : Z :=
  let p := y - 1 in p * 365 + p / 4 - p / 100 + p / 400.

Definition days_in_month_common (m : Z) : Z :=
  if m =? 2 then 28
  else if (m =? 4) || (m =? 6) || (m =? 9) || (m =? 11) then 30
  else 31.

Fixpoint days_before_month_common (m : nat) : Z :=
  match m with
  | O => 0
  | S m' =>
      match m' with
      | O => 0
      | _ => days_before_month_common m' + days_in_month_common (Z.of_nat m')
      end
  end.

Definition days_before_month (y m : Z) : Z :=
  days_before_month_common (Z.to_nat m)
  + (if (2 <? m) && is_leap y then 1 else 0).

Definition ymd2ord (y m d : Z) : Z :=
  days_before_year y + days_before_month y m + d.

Definition MAXORDINAL : Z := 3652059.

(** Ordinal to (year, month, day), by 400-, 100-, 4- and 1-year cycles. *)
Definition ord2ymd (n0 : Z) : Z * Z * Z :=
  let n := n0 - 1 in
  let n400 := n / 146097 in
  let n := n mod 146097 in
  let n100 := n / 36524 in
  let n := n mod 36524 in
  let n4 := n / 1461 in
  let n := n mod 1461 in
  let n1 := n / 365 in
  let n := n mod 365 in
  let y := n400 * 400 + 1 + n100 * 100 + n4 * 4 + n1 in
  if (n1 =? 4) || (n100 =? 4) then (y - 1, 12, 31)
  else
    let leapyear := (n1 =? 3) && (negb (n4 =? 24) || (n100 =? 3)) in
    let m := Z.shiftr (n + 50) 5 in
    let preceding :=
      days_before_month_common (Z.to_nat m)
      + (if (2 <? m) && leapyear then 1 else 0) in
    if n <? preceding then
      let m' := m - 1 in
      let preceding' :=
        preceding
        - (days_in_month_common m' + (if (m' =? 2) && leapyear then 1 else 0)) in
      (y, m', n - preceding' + 1)
    else (y, m, n - preceding + 1).

(** [dt - timedelta(days=n)]. *)
Definition minus_days (dt : datetime) (n : Z) : result datetime :=
  if 999999999 <? Z.abs n then raise OverflowError
  else
    let o := ymd2ord (year dt) (month dt) (day dt) - n in
    if (0 <? o) && (o <=? MAXORDINAL) then
      let '(y, m, d) := ord2ymd o in
      ok (mk_datetime y m d (hour dt) (minute dt) (second dt) (microsecond dt))
    else raise OverflowError.

(** [dt.strftime('%Y-%m-%d')], the year in four digits as the format is
    documented. *)
Definition strftime_ymd (dt : datetime) : string :=
  pad 4 (year dt) ++ "-" ++ pad 2 (month dt) ++ "-" ++ pad 2 (day dt).

Definition hms (dt : datetime) : string :=
  pad 2 (hour dt) ++ ":" ++ pad 2 (minute dt) ++ ":" ++ pad 2 (second dt).

(** [dt.isoformat()]: the fraction is printed only when it is not zero. *)
Definition isoformat (dt : datetime) : string :=
  strftime_ymd dt ++ "T" ++ hms dt
  ++ (if microsecond dt =? 0 then "" else "." ++ pad 6 (microsecond dt)).

(** SQL [CURRENT_TIMESTAMP] at the UTC reading [dt]. *)
Definition current_timestamp (dt : datetime) : string :=
  strftime_ymd dt ++ " " ++ hms dt.

(** ** SQL helpers *)

(** [ORDER BY key]: rows with equal keys stay in scan (rowid) order. *)
Section Sorting.
Context {A : Type}.
Variable before : A -> A -> bool.

Fixpoint insert_sorted (x : A) (l : list A) : list A :=
  match l with
  | [] => [x]
  | y :: l' => if before x y then x :: l else y :: insert_sorted x l'
  end.

Definition order_by (l : list A) : list A := fold_right insert_sorted [] l.
End Sorting.

Definition asc {A : Type} (key : A -> string) (x y : A) : bool :=
  String.leb (key x) (key y).

Definition desc {A : Type} (key : A -> string) (x y : A) : bool :=
  String.leb (key y) (key x).

(** [x BETWEEN lo AND hi] on text: byte-wise comparison. *)
Definition between (x lo hi : string) : bool :=
  String.leb lo x && String.leb x hi.

(** A text parameter compared with a column of NUMERIC affinity (the
    [created_at] columns, declared DATETIME) is first read as a number when
    it is written like one: blanks, a sign, digits with an optional point,
    an optional exponent, blanks. *)
Definition is_digit (c : ascii) : bool :=
  let n := nat_of_ascii c in ((48 <=? n) && (n <=? 57))%nat.

Definition is_blank (c : ascii) : bool :=
  let n := nat_of_ascii c in (((9 <=? n) && (n <=? 13)) || (n =? 32))%nat.

Definition is_sign (c : ascii) : bool :=
  let n := nat_of_ascii c in ((n =? 43) || (n =? 45))%nat.

Definition is_point (c : ascii) : bool := (nat_of_ascii c =? 46)%nat.

Definition is_exponent (c : ascii) : bool :=
  let n := nat_of_ascii c in ((n =? 101) || (n =? 69))%nat.

Fixpoint skip (p : ascii -> bool) (s : string) : string :=
  match s with
  | EmptyString => EmptyString
  | String c s' => if p c then skip p s' else s
  end.

Definition skip_sign (s : string) : string :=
  match s with
  | EmptyString => EmptyString
  | String c s' => if is_sign c then s' else s
  end.

Definition starts_with (p : ascii -> bool) (s : string) : bool :=
  match s with
  | EmptyString => false
  | String c _ => p c
  end.

Definition is_empty (s : string) : bool :=
  match s with
  | EmptyString => true
  | String _ _ => false
  end.

Definition looks_numeric (s : string) : bool :=
  let s0 := skip is_blank s in
  if is_empty s0 then false
  else
    let s1 := skip_sign s0 in
    let int_digits := starts_with is_digit s1 in
    let s2 := skip is_digit s1 in
    let frac_digits :=
      match s2 with
      | String c r => is_point c && starts_with is_digit r
      | EmptyString => false
      end in
    let s3 :=
      match s2 with
      | String c r => if is_point c then skip is_digit r else s2
      | EmptyString => EmptyString
      end in
    let digits := int_digits || frac_digits in
    match s3 with
    | EmptyString => digits
    | String c r =>
        if is_exponent c then
          let r1 := skip_sign r in
          digits && starts_with is_digit r1
          && is_empty (skip is_blank (skip is_digit r1))
        else digits && is_empty (skip is_blank s3)
    end.

(** [column >= ?] and [column <= ?] for a NUMERIC column holding the text
    [x]: every number sorts before every text. *)
Definition column_ge (x param : string) : bool :=
  if looks_numeric param then true else String.leb param x.

Definition column_le (x param : string) : bool :=
  if looks_numeric param then false else String.leb x param.

(** A float parameter as it is bound: SQLite takes a NaN for NULL. *)
Definition bind_float (f : float) : option float :=
  if PrimFloat.is_nan f then None else Some f.

(** A number as a REAL column returns it: the record format keeps an
    integral value as an integer, so that a zero comes back without its
    sign. *)
Definition real_column (f : float) : float :=
  if PrimFloat.eqb f 0%float then 0%float else f.

(** A float argument in a REAL column that accepts NULL. *)
Definition stored_real (f : float) : option float :=
  option_map real_column (bind_float f).

(** [x NOT NULL]. *)
Definition not_null {A : Type} (o : option A) : result A :=
  match o with
  | Some a => ok a
  | None => raise IntegrityError
  end.

(** An int parameter must fit 64 bits to be bound. *)
Definition bind_int (z : Z) : result Z :=
  if (- 2 ^ 63 <=? z) && (z <? 2 ^ 63) then ok z else raise OverflowError.

(** [SELECT k, COUNT( * ) ... GROUP BY k], as the dict Python builds from
    it: one entry per value of [k], in ascending order of [k]. *)
Fixpoint bump (k : string) (d : list (string * Z)) : list (string * Z) :=
  match d with
  | [] => [(k, 1)]
  | (k', n) :: d' => if String.eqb k k' then (k', n + 1) :: d' else (k', n) :: bump k d'
  end.

Definition group_count (ks : list string) : list (string * Z) :=
  order_by (asc fst) (fold_left (fun d k => bump k d) ks []).

Fixpoint count_of (k : string) (d : list (string * Z)) : option Z :=
  match d with
  | [] => None
  | (k', n) :: d' => if String.eqb k k' then Some n else count_of k d'
  end.

(** The values of a column that are not NULL. *)
Fixpoint non_null {A : Type} (xs : list (option A)) : list A :=
  match xs with
  | [] => []
  | Some x :: xs' => x :: non_null xs'
  | None :: xs' => non_null xs'
  end.

(** A REAL result: a NaN is returned as NULL. *)
Definition real_result (f : float) : pyval :=
  if PrimFloat.is_nan f then VNone else VFloat f.

(** [SUM(x)] over a REAL column: NULL when no row has a value, else the sum
    of the values taken in scan order. *)
Definition sql_sum (xs : list (option float)) : pyval :=
  match non_null xs with
  | [] => VNone
  | ys => real_result (fold_left PrimFloat.add ys 0%float)
  end.

(** [v or 0] for [v] a float or None. *)
Definition or_zero (v : pyval) : pyval :=
  match v with
  | VFloat f => if PrimFloat.eqb f 0%float then VInt 0 else v
  | VNone => VInt 0
  | _ => v
  end.

Definition opt_text (o : option string) : pyval :=
  match o with
  | Some s => VStr s
  | None => VNone
  end.

Definition opt_real (o : option float) : pyval :=
  match o with
  | Some f => VFloat f
  | None => VNone
  end.

(** ** Tables *)

(** [trading_logs].  The TEXT columns hold text (or NULL where the schema
    allows it); a REAL column holds what SQLite's REAL affinity leaves there. *)
Record log_row : Type := mk_log {
  l_id : Z;
  l_timestamp : string;
  l_current_price : pyval;
  l_krw_balance : pyval;
  l_btc_balance : pyval;
  l_total_portfolio_value : pyval;
  l_investment_status_json : string;
  l_ai_decision : string;
  l_ai_reason : option string;
  l_ai_confidence : option string;
  l_ai_analysis_full_json : string;
  l_market_data_json : string;
  l_analysis_type : string;
  l_created_at : string
}.

(** [actual_trades]. *)
Record trade_row : Type := mk_trade {
  t_id : Z;
  t_timestamp : string;
  t_trade_type : string;
  t_price : float;
  t_amount : float;
  t_total_value : float;
  t_fee : option float;
  t_order_id : option string;
  t_success : bool;
  t_error_message : option string;
  t_created_at : string
}.

(** [portfolio_snapshots]; [date] is UNIQUE. *)
Record snapshot_row : Type := mk_snapshot {
  s_id : Z;
  s_date : string;
  s_krw_balance : float;
  s_btc_balance : float;
  s_btc_avg_price : option float;
  s_total_value : float;
  s_profit_loss : option float;
  s_profit_loss_percent : option float;
  s_created_at : string
}.

(** The database file.  Each [_seq] is the table's AUTOINCREMENT counter:
    the largest id it has handed out.  ([self_reflections] is the record
    [reflections] below.) *)
Record database : Type := mk_db {
  trading_logs : list log_row;
  trading_logs_seq : Z;
  actual_trades : list trade_row;
  actual_trades_seq : Z;
  portfolio_snapshots : list snapshot_row;
  portfolio_snapshots_seq : Z
}.

(** [init_database] on a new file. *)
Definition init_database : database := mk_db [] 0 [] 0 [] 0.

(** The tuple [SELECT * FROM actual_trades] yields for a row: the columns in
    the order of the CREATE TABLE statement, numbered from 0. *)
Definition trade_tuple (r : trade_row) : list pyval :=
  [ VInt (t_id r);                       (* 0 id *)
    VStr (t_timestamp r);                (* 1 timestamp *)
    VStr (t_trade_type r);               (* 2 trade_type *)
    VFloat (t_price r);                  (* 3 price *)
    VFloat (t_amount r);                 (* 4 amount *)
    VFloat (t_total_value r);            (* 5 total_value *)
    opt_real (t_fee r);                  (* 6 fee *)
    opt_text (t_order_id r);             (* 7 order_id *)
    VInt (if t_success r then 1 else 0); (* 8 success *)
    opt_text (t_error_message r);        (* 9 error_message *)
    VStr (t_created_at r) ].             (* 10 created_at *)

(** [dict(row)] for a row of [trading_logs]. *)
Definition log_dict (r : log_row) : dict :=
  [ ("id", VInt (l_id r));
    ("timestamp", VStr (l_timestamp r));
    ("current_price", l_current_price r);
    ("krw_balance", l_krw_balance r);
    ("btc_balance", l_btc_balance r);
    ("total_portfolio_value", l_total_portfolio_value r);
    ("investment_status_json", VStr (l_investment_status_json r));
    ("ai_decision", VStr (l_ai_decision r));
    ("ai_reason", opt_text (l_ai_reason r));
    ("ai_confidence", opt_text (l_ai_confidence r));
    ("ai_analysis_full_json", VStr (l_ai_analysis_full_json r));
    ("market_data_json", VStr (l_market_data_json r));
    ("analysis_type", VStr (l_analysis_type r));
    ("created_at", VStr (l_created_at r)) ].

(** ** Write path: trades and snapshots *)

(** [save_trade]: one INSERT; returns the new database and [lastrowid].
    [now] is [datetime.now()], [utc] the reading behind CURRENT_TIMESTAMP.
    [price], [amount] and [total_value] are REAL NOT NULL, [fee] is REAL.
    When it raises, nothing is written. *)
Definition save_trade (db : database) (now utc : datetime)
    (trade_type : string) (price amount total_value fee : float)
    (order_id : option string) (success : bool)
    (error_message : option string) (trade_time : option string)
    : result (database * Z) :=
  let trade_timestamp :=
    match trade_time with
    | Some s => if nonempty s then s else isoformat now
    | None => isoformat now
    end in
  c_price <- not_null (bind_float price) ;;
  c_amount <- not_null (bind_float amount) ;;
  c_total_value <- not_null (bind_float total_value) ;;
  let trade_id := actual_trades_seq db + 1 in
  let row :=
    mk_trade trade_id trade_timestamp trade_type
             (real_column c_price) (real_column c_amount)
             (real_column c_total_value) (stored_real fee)
             order_id success error_message (current_timestamp utc) in
  ok (mk_db (trading_logs db) (trading_logs_seq db)
            (actual_trades db ++ [row])%list trade_id
            (portfolio_snapshots db) (portfolio_snapshots_seq db),
      trade_id).

(** [save_portfolio_snapshot]: INSERT OR REPLACE.  [krw_balance],
    [btc_balance] and [total_value] are REAL NOT NULL without a default: a
    NULL there aborts the statement.  Otherwise the rows that conflict with
    the new one on the UNIQUE column [date] are deleted, then the new row is
    inserted under a fresh id. *)
Definition save_portfolio_snapshot (db : database) (utc : datetime)
    (date : string)
    (krw_balance btc_balance btc_avg_price total_value
     profit_loss profit_loss_percent : float) : result database :=
  c_krw_balance <- not_null (bind_float krw_balance) ;;
  c_btc_balance <- not_null (bind_float btc_balance) ;;
  c_total_value <- not_null (bind_float total_value) ;;
  let new_id := portfolio_snapshots_seq db + 1 in
  let row :=
    mk_snapshot new_id date
                (real_column c_krw_balance) (real_column c_btc_balance)
                (stored_real btc_avg_price) (real_column c_total_value)
                (stored_real profit_loss) (stored_real profit_loss_percent)
                (current_timestamp utc) in
  let kept :=
    filter (fun r => negb (String.eqb (s_date r) date)) (portfolio_snapshots db) in
  ok (mk_db (trading_logs db) (trading_logs_seq db)
            (actual_trades db) (actual_trades_seq db)
            (kept ++ [row])%list new_id).

(** ** Performance analyzer *)

(** [WHERE success = 1]. *)
Definition successful (rows : list trade_row) : list trade_row :=
  filter t_success rows.

(** [get_trading_stats]. *)
Definition get_trading_stats (db : database) : dict :=
  let rows := successful (actual_trades db) in
  let total_trades := Z.of_nat (List.length rows) in
  let trade_counts := group_count (map t_trade_type rows) in
  let total_fee := or_zero (sql_sum (map t_fee rows)) in
  let ai_decisions := group_count (map l_ai_decision (trading_logs db)) in
  let get k := match count_of k trade_counts with Some n => n | None => 0 end in
  [ ("total_trades", VInt total_trades);
    ("buy_count", VInt (get "buy"));
    ("sell_count", VInt (get "sell"));
    ("total_fee", total_fee);
    ("ai_decisions", VDict (map (fun kn => (fst kn, VInt (snd kn))) ai_decisions)) ].

(** The running balances and counters of the replay loop. *)
Record replay_state : Type := mk_replay {
  btc_balance : pyval;
  krw_balance : pyval;
  total_profit_loss : pyval;
  successful_trades : Z;
  failed_trades : Z
}.

Definition replay_init : replay_state :=
  mk_replay (VInt 0) (VInt 1000000) (VInt 0) 0 0.

(** One iteration of [for trade in trades], on the tuple [trade]. *)
Definition replay_step (st : replay_state) (trade : list pyval)
    : result replay_state :=
  ty <- py_item trade 2 ;;
  if py_eq_str ty "buy" then
    (* btc_bought = trade[4] / trade[3] *)
    t4 <- py_item trade 4 ;;
    t3 <- py_item trade 3 ;;
    btc_bought <- py_truediv t4 t3 ;;
    (* btc_balance += btc_bought *)
    btc' <- py_add (btc_balance st) btc_bought ;;
    (* krw_balance -= trade[4] *)
    t4' <- py_item trade 4 ;;
    krw' <- py_sub (krw_balance st) t4' ;;
    ok (mk_replay btc' krw' (total_profit_loss st)
                  (successful_trades st) (failed_trades st))
  else if py_eq_str ty "sell" then
    (* btc_sold = trade[4]; btc_balance -= btc_sold *)
    btc_sold <- py_item trade 4 ;;
    btc' <- py_sub (btc_balance st) btc_sold ;;
    (* krw_balance += trade[5] *)
    t5 <- py_item trade 5 ;;
    krw' <- py_add (krw_balance st) t5 ;;
    (* profit = trade[5] - (btc_sold * trade[3]) *)
    t5' <- py_item trade 5 ;;
    t3 <- py_item trade 3 ;;
    cost <- py_mul btc_sold t3 ;;
    profit <- py_sub t5' cost ;;
    (* total_profit_loss += profit *)
    pl' <- py_add (total_profit_loss st) profit ;;
    (* if profit > 0 *)
    win <- py_gt profit (VInt 0) ;;
    if win then
      ok (mk_replay btc' krw' pl' (successful_trades st + 1) (failed_trades st))
    else
      ok (mk_replay btc' krw' pl' (successful_trades st) (failed_trades st + 1))
  else ok st.

Fixpoint replay (st : replay_state) (trades : list (list pyval))
    : result replay_state :=
  match trades with
  | [] => ok st
  | trade :: rest => st' <- replay_step st trade ;; replay st' rest
  end.

(** The SELECT of [analyze_trading_performance]: successful trades created
    in the window, oldest first.  The two bounds are isoformat strings; they
    begin with four digits and a hyphen and so never read as numbers
    ([isoformat_is_text] below): the comparison with [created_at] is the
    one of text. *)
Definition trades_in_window (db : database) (start_date end_date : datetime)
    : list trade_row :=
  order_by (asc t_created_at)
    (filter (fun r =>
               between (t_created_at r) (isoformat start_date) (isoformat end_date)
               && t_success r)
            (actual_trades db)).

(** The body of [analyze_trading_performance] once the window is known. *)
Definition analyze_window (db : database) (start_date end_date : datetime)
    : result dict :=
  let trades := map trade_tuple (trades_in_window db start_date end_date) in
  match trades with
  | [] =>
      ok [ ("total_trades", VInt 0);
           ("total_profit_loss", VInt 0);
           ("win_rate", VInt 0);
           ("successful_trades", VInt 0);
           ("failed_trades", VInt 0);
           ("analysis_period",
            VStr (strftime_ymd start_date ++ " to " ++ strftime_ymd end_date)) ]
  | _ =>
      st <- replay replay_init trades ;;
      let total_trades := Z.of_nat (List.length trades) in
      win_rate <-
        (if 0 <? total_trades then
           q <- py_truediv (VInt (successful_trades st)) (VInt total_trades) ;;
           py_mul q (VInt 100)
         else ok (VInt 0)) ;;
      ok [ ("total_trades", VInt total_trades);
           ("successful_trades", VInt (successful_trades st));
           ("failed_trades", VInt (failed_trades st));
           ("total_profit_loss", total_profit_loss st);
           ("win_rate", win_rate);
           ("analysis_period_start", VStr (strftime_ymd start_date));
           ("analysis_period_end", VStr (strftime_ymd end_date));
           ("trades_data", VList (map VList trades)) ]
  end.

(** [analyze_trading_performance(days_back)] at the clock reading [now]. *)
Definition analyze_trading_performance (db : database) (now : datetime)
    (days_back : Z) : result dict :=
  let end_date := now in
  start_date <- minus_days end_date days_back ;;
  analyze_window db start_date end_date.

(** ** Analysis logs *)

(** Library code the store calls: [json.dumps(_, ensure_ascii=False)],
    [json.loads] ([None] when it raises), and the two conversions SQLite's
    column affinity performs between text and floating-point numbers. *)
Class Runtime : Type := {
  json_dumps : pyval -> string;
  json_loads : string -> option pyval;
  real_to_text : float -> string;
  text_to_real : string -> option float
}.

(** What the driver makes of a Python argument: None, an integer that fits
    64 bits, a float (a NaN is taken for NULL) or a string; anything else
    cannot be bound. *)
Definition sqlite_bind (v : pyval) : result pyval :=
  match v with
  | VNone => ok VNone
  | VBool b => ok (VInt (if b then 1 else 0))
  | VInt z =>
      if (- 2 ^ 63 <=? z) && (z <? 2 ^ 63) then ok (VInt z)
      else raise OverflowError
  | VFloat f => ok (opt_real (bind_float f))
  | VStr s => ok (VStr s)
  | VList _ => raise BindingError
  | VDict _ => raise BindingError
  end.

Section Logs.
Context {R : Runtime}.

(** A bound value stored in a TEXT column: numbers become text. *)
Definition text_affinity (v : pyval) : option string :=
  match v with
  | VStr s => Some s
  | VInt z => Some (int_to_text z)
  | VFloat f => Some (real_to_text f)
  | _ => None
  end.

(** A bound value stored in a REAL column: integers and text that reads
    as a number become floats; NULL and other text stay. *)
Definition real_affinity (v : pyval) : pyval :=
  match v with
  | VInt z => VFloat (float_of_Z z)
  | VFloat f => VFloat (real_column f)
  | VStr s =>
      match text_to_real s with
      | Some f => VFloat (real_column f)
      | None => VStr s
      end
  | _ => v
  end.

Definition is_none (v : pyval) : bool :=
  match v with
  | VNone => true
  | _ => false
  end.

(** [save_analysis_log]: one INSERT; returns the new database and
    [lastrowid].  When it raises, nothing is written. *)
Definition save_analysis_log (db : database) (utc : datetime)
    (market_data ai_analysis timestamp : pyval) (analysis_type : string)
    : result (database * Z) :=
  investment_status <- py_get market_data "investment_status" (VDict []) ;;
  a_price <- py_get market_data "current_price" (VInt 0) ;;
  a_krw <- py_get investment_status "krw_balance" (VInt 0) ;;
  a_btc <- py_get investment_status "btc_balance" (VInt 0) ;;
  a_total <- py_get investment_status "total_portfolio_value" (VInt 0) ;;
  let a_status_json := json_dumps investment_status in
  a_decision <- py_get ai_analysis "decision" (VStr "") ;;
  a_reason <- py_get ai_analysis "reason" (VStr "") ;;
  a_confidence <- py_get ai_analysis "confidence" (VStr "") ;;
  let a_analysis_json := json_dumps ai_analysis in
  let a_market_json := json_dumps market_data in
  (* binding the parameters *)
  b_timestamp <- sqlite_bind timestamp ;;
  b_price <- sqlite_bind a_price ;;
  b_krw <- sqlite_bind a_krw ;;
  b_btc <- sqlite_bind a_btc ;;
  b_total <- sqlite_bind a_total ;;
  b_decision <- sqlite_bind a_decision ;;
  b_reason <- sqlite_bind a_reason ;;
  b_confidence <- sqlite_bind a_confidence ;;
  (* the row, under the columns' affinities and NOT NULL constraints *)
  c_timestamp <- not_null (text_affinity b_timestamp) ;;
  c_price <- (if is_none b_price then raise IntegrityError
              else ok (real_affinity b_price)) ;;
  c_decision <- not_null (text_affinity b_decision) ;;
  let log_id := trading_logs_seq db + 1 in
  let row :=
    mk_log log_id c_timestamp c_price
           (real_affinity b_krw) (real_affinity b_btc) (real_affinity b_total)
           a_status_json c_decision
           (text_affinity b_reason) (text_affinity b_confidence)
           a_analysis_json a_market_json analysis_type
           (current_timestamp utc) in
  ok (mk_db (trading_logs db ++ [row])%list log_id
            (actual_trades db) (actual_trades_seq db)
            (portfolio_snapshots db) (portfolio_snapshots_seq db),
      log_id).

(** [LIMIT n]: a negative [n] is no limit. *)
Definition limit {A : Type} (n : Z) (l : list A) : list A :=
  if n <? 0 then l else firstn (Z.to_nat n) l.

(** [get_recent_logs]. *)
Definition get_recent_logs (db : database) (n : Z) : result (list dict) :=
  n' <- bind_int n ;;
  ok (map log_dict (limit n' (order_by (desc l_created_at) (trading_logs db)))).

(** [json.loads(v)]: only text can be decoded. *)
Definition py_json_loads (v : pyval) : result pyval :=
  match v with
  | VStr s =>
      match json_loads s with
      | Some d => ok d
      | None => raise JSONDecodeError
      end
  | _ => raise TypeError
  end.

Definition dict_get (d : dict) (k : string) (default : pyval) : pyval :=
  match lookup k d with
  | Some v => v
  | None => default
  end.

(** The [try] block of [get_market_context]. *)
Definition decode_context (log : dict) : result dict :=
  market_data <- py_json_loads (dict_get log "market_data_json" (VStr "{}")) ;;
  let price := dict_get log "current_price" (VInt 0) in
  indicators <- py_get market_data "technical_indicators" (VDict []) ;;
  fear_greed <- py_get market_data "fear_greed_index" (VList []) ;;
  ok [ ("price", price);
       ("technical_indicators", indicators);
       ("fear_greed", fear_greed);
       ("timestamp", dict_get log "timestamp" (VStr "")) ].

(** Its bare [except:] branch. *)
Definition minimal_context (log : dict) : dict :=
  [ ("price", dict_get log "current_price" (VInt 0));
    ("timestamp", dict_get log "timestamp" (VStr "")) ].

(** The SELECT of [get_market_context]. *)
Definition logs_up_to (db : database) (timestamp : string) : list log_row :=
  limit 1 (order_by (desc l_timestamp)
             (filter (fun r => String.leb (l_timestamp r) timestamp)
                     (trading_logs db))).

(** [get_market_context]. *)
Definition get_market_context (db : database) (timestamp : string) : dict :=
  match logs_up_to db timestamp with
  | row :: _ =>
      let log := log_dict row in
      match decode_context log with
      | inr d => d
      | inl _ => minimal_context log
      end
  | [] => []
  end.

(** ** Migration importer *)

(** What [migrate_from_json] prints. *)
Inductive event : Type :=
| LogSaved (log_id : Z)                 (* printed by save_analysis_log *)
| Migrated (path : string)
| FileNotFound (path : string)
| MigrationError (e : exn).

(** The body of the loop for one non-blank line: [now] is what
    [datetime.now()] reads while the arguments are evaluated. *)
Definition import_line (db : database) (now utc : datetime) (text : string)
    : result (database * Z) :=
  data <- py_json_loads (VStr text) ;;
  market_data <- py_get data "market_data" (VDict []) ;;
  ai_analysis <- py_get data "ai_analysis" (VDict []) ;;
  timestamp <- py_get data "timestamp" (VStr (isoformat now)) ;;
  save_analysis_log db utc market_data ai_analysis timestamp "enhanced".

(** [for line in f], from line number [i]: the database and the output so
    far, and the exception that ended the loop, if any. *)
Fixpoint migrate_lines (clock : nat -> datetime * datetime) (i : nat)
    (db : database) (lines : list string)
    : database * list event * option exn :=
  match lines with
  | [] => (db, [], None)
  | line :: rest =>
      if nonempty (strip line) then
        match import_line db (fst (clock i)) (snd (clock i)) (strip line) with
        | inl e => (db, [], Some e)
        | inr (db', log_id) =>
            let '(db'', out, r) := migrate_lines clock (S i) db' rest in
            (db'', LogSaved log_id :: out, r)
        end
      else migrate_lines clock (S i) db rest
  end.

(** The two [except] clauses. *)
Definition migration_handler (path : string) (e : exn) : event :=
  match e with
  | FileNotFoundError => FileNotFound path
  | _ => MigrationError e
  end.

(** [migrate_from_json]: [file] is the outcome of [open]: the exception it
    raises, or the lines the file then yields; [clock i] gives the local and
    UTC readings while line [i] is imported. *)
Definition migrate_from_json (db : database) (path : string)
    (file : result (list string)) (clock : nat -> datetime * datetime)
    : database * list event :=
  match file with
  | inl e => (db, [migration_handler path e])
  | inr lines =>
      let '(db', out, r) := migrate_lines clock 0 db lines in
      match r with
      | None => (db', out ++ [Migrated path])%list
      | Some e => (db', out ++ [migration_handler path e])%list
      end
  end.

End Logs.

(** ** Vocabulary of the statements *)

(** The float a number stands for in mixed arithmetic. *)
Definition float_value (v : pyval) : result float :=
  match as_num v with
  | Some n => to_float n
  | None => raise TypeError
  end.

(** The WHERE clause of [analyze_trading_performance]. *)
Definition in_window (start_date end_date : datetime) (r : trade_row) : bool :=
  between (t_created_at r) (isoformat start_date) (isoformat end_date)
  && t_success r.

Definition is_sell (r : trade_row) : bool := String.eqb (t_trade_type r) "sell".
Definition is_buy (r : trade_row) : bool := String.eqb (t_trade_type r) "buy".

(** The profit the replay assigns to a sell. *)
Definition sell_profit (r : trade_row) : float :=
  PrimFloat.sub (t_total_value r) (PrimFloat.mul (t_amount r) (t_price r)).

(** The balances and the cumulative profit are numbers. *)
Definition numeric (st : replay_state) : Prop :=
  (exists b, float_value (btc_balance st) = ok b)
  /\ (exists k, float_value (krw_balance st) = ok k)
  /\ (exists p, float_value (total_profit_loss st) = ok p).

(** What the trades of a window are replayed to. *)
Definition replay_window (db : database) (start_date end_date : datetime)
    : result replay_state :=
  replay replay_init (map trade_tuple (trades_in_window db start_date end_date)).

(** The state the replay would reach on one buy from the initial balances if
    it used the trade's total value: 500,000 / 1,000,000 BTC for 500,000 KRW. *)
Definition one_buy_by_total_value : replay_state :=
  mk_replay (VFloat (PrimFloat.add 0 (PrimFloat.div 500000 1000000)))
            (VFloat (PrimFloat.sub 1000000 500000)) (VInt 0) 0 0.

(** The keys of the two results of [analyze_trading_performance]. *)
Definition empty_window_keys : list string :=
  [ "total_trades"; "total_profit_loss"; "win_rate"; "successful_trades";
    "failed_trades"; "analysis_period" ].

Definition traded_window_keys : list string :=
  [ "total_trades"; "successful_trades"; "failed_trades"; "total_profit_loss";
    "win_rate"; "analysis_period_start"; "analysis_period_end"; "trades_data" ].

(** The context [get_market_context] builds from the row [r]. *)
Definition context_of {R : Runtime} (r : log_row) : dict :=
  match json_loads (l_market_data_json r) with
  | Some (VDict market_data) =>
      [ ("price", l_current_price r);
        ("technical_indicators",
         dict_get market_data "technical_indicators" (VDict []));
        ("fear_greed", dict_get market_data "fear_greed_index" (VList []));
        ("timestamp", VStr (l_timestamp r)) ]
  | _ =>
      [ ("price", l_current_price r);
        ("timestamp", VStr (l_timestamp r)) ]
  end.

(** The importer as the specification words it.  A line that decodes to a
    mapping is forwarded to [save_analysis_log] with its market_data,
    ai_analysis and timestamp, an absent one replaced by an empty mapping or
    by the current local time; a line that does not decode, or decodes to
    something else, is an error. *)
Definition forward_line {R : Runtime} (db : database) (now utc : datetime)
    (text : string) : result (database * Z) :=
  match json_loads text with
  | Some (VDict d) =>
      save_analysis_log db utc
        (dict_get d "market_data" (VDict []))
        (dict_get d "ai_analysis" (VDict []))
        (dict_get d "timestamp" (VStr (isoformat now)))
        "enhanced"
  | Some _ => raise AttributeError
  | None => raise JSONDecodeError
  end.

(** [forwarded clock i db lines db' out]: from line number [i] on, every
    line of [lines] is blank or is forwarded and stored; [db'] is the
    database this leaves and [out] the ids of the stored logs, in order. *)
Inductive forwarded {R : Runtime} (clock : nat -> datetime * datetime)
    : nat -> database -> list string -> database -> list event -> Prop :=
| forwarded_end (i : nat) (db : database) :
    forwarded clock i db [] db []
| forwarded_blank (i : nat) (db : database) (line : string)
    (rest : list string) (db' : database) (out : list event) :
    strip line = "" ->
    forwarded clock (S i) db rest db' out ->
    forwarded clock i db (line :: rest) db' out
| forwarded_line (i : nat) (db : database) (line : string)
    (rest : list string) (db1 : database) (log_id : Z)
    (db' : database) (out : list event) :
    strip line <> "" ->
    forward_line db (fst (clock i)) (snd (clock i)) (strip line)
    = ok (db1, log_id) ->
    forwarded clock (S i) db1 rest db' out ->
    forwarded clock i db (line :: rest) db' (LogSaved log_id :: out).

(** The database without its failed trades. *)
Definition without_failed (db : database) : database :=
  mk_db (trading_logs db) (trading_logs_seq db)
        (filter t_success (actual_trades db)) (actual_trades_seq db)
        (portfolio_snapshots db) (portfolio_snapshots_seq db).

(** ** Example data *)

Definition noon (d : Z) : datetime := mk_datetime 2024 3 d 12 0 0 0.

(** The database a write leaves; the one it found when it raised. *)
Definition db_after {A : Type} (db : database) (c : result (database * A))
    : database :=
  match c with
  | inr (db', _) => db'
  | inl _ => db
  end.

(** One successful buy: price 1,000,000, amount 0.5, total value 500,000. *)
Definition one_buy : database :=
  db_after init_database
    (save_trade init_database (noon 5) (noon 5)
       "buy" 1000000 0.5 500000 0 None true None None).

(** What the analysis of the week up to March 8 reports on [one_buy]. *)
Definition one_buy_report : dict :=
  [ ("total_trades", VInt 1);
    ("successful_trades", VInt 0);
    ("failed_trades", VInt 0);
    ("total_profit_loss", VInt 0);
    ("win_rate", VFloat 0);
    ("analysis_period_start", VStr "2024-03-01");
    ("analysis_period_end", VStr "2024-03-08");
    ("trades_data", VList (map VList (map trade_tuple (actual_trades one_buy)))) ].

(** The buy above, then a successful sell of 0.5 at 1,200,000 for 600,001. *)
Definition buy_then_sell : database :=
  db_after one_buy
    (save_trade one_buy (noon 6) (noon 6)
       "sell" 1200000 0.5 600001 0 None true None None).

(** A runtime to run the examples with.  Its serializer covers None, bools,
    ints, strings without escapes, lists and dicts; its parser knows the
    three documents the examples read.  The examples put no float in a JSON
    document or in a TEXT column, and no text in a REAL column. *)
Definition quote : string := String (ascii_of_nat 34) EmptyString.

Fixpoint example_dumps (v : pyval) : string :=
  match v with
  | VNone => "null"
  | VBool b => if b then "true" else "false"
  | VInt z => int_to_text z
  | VFloat _ => "NaN"
  | VStr s => quote ++ s ++ quote
  | VList l =>
      "[" ++ (fix items (l : list pyval) : string :=
                match l with
                | [] => ""
                | [x] => example_dumps x
                | x :: l' => example_dumps x ++ ", " ++ items l'
                end) l ++ "]"
  | VDict d =>
      "{" ++ (fix items (d : list (string * pyval)) : string :=
                match d with
                | [] => ""
                | [(k, x)] => quote ++ k ++ quote ++ ": " ++ example_dumps x
                | (k, x) :: d' =>
                    quote ++ k ++ quote ++ ": " ++ example_dumps x ++ ", " ++ items d'
                end) d ++ "}"
  end.

Definition example_loads (s : string) : option pyval :=
  if String.eqb s "{}" then Some (VDict [])
  else if String.eqb s "[]" then Some (VList [])
  else if String.eqb s "null" then Some VNone
  else None.

Definition example_runtime : Runtime :=
  {| json_dumps := example_dumps;
     json_loads := example_loads;
     real_to_text := fun _ => "NaN";
     text_to_real := fun _ => None |}.

(** Two analysis logs written within the same second: a buy, then a sell. *)
Definition two_logs_in_a_second : result (database * Z) :=
  '(db1, _) <- save_analysis_log (R := example_runtime) init_database (noon 5)
                 (VDict []) (VDict [("decision", VStr "buy")])
                 (VStr "2024-03-05T12:00:00") "enhanced" ;;
  save_analysis_log (R := example_runtime) db1 (noon 5)
    (VDict []) (VDict [("decision", VStr "sell")])
    (VStr "2024-03-05T12:00:00") "enhanced".

(** One analysis log, written on March 5. *)
Definition one_log : result (database * Z) :=
  save_analysis_log (R := example_runtime) init_database (noon 5)
    (VDict []) (VDict [("decision", VStr "buy"); ("reason", VStr "dip")])
    (VStr "2024-03-05T12:00:00") "enhanced".

(** A line that holds a no-break space (U+00A0) and a line feed. *)
Definition nbsp_line : string :=
  String (ascii_of_nat 194) (String (ascii_of_nat 160)
    (String (ascii_of_nat 10) EmptyString)).

(** The clock while a legacy file is imported: one second per line. *)
Definition example_clock (i : nat) : datetime * datetime :=
  (mk_datetime 2024 3 9 21 0 (Z.of_nat i) 0, mk_datetime 2024 3 9 12 0 (Z.of_nat i) 0).

(** The database after [one_log], and after a second log a day later. *)
Definition log_db1 : database := db_after init_database one_log.

Definition log_db2 : database :=
  db_after log_db1
    (save_analysis_log (R := example_runtime) log_db1 (noon 6)
       (VDict []) (VDict [("decision", VStr "sell")])
       (VStr "2024-03-06T12:00:00") "enhanced").

(** The database after a legacy file's first line, the record [{}]. *)
Definition legacy_db1 : database :=
  db_after init_database
    (import_line (R := example_runtime) init_database
       (fst (example_clock 0)) (snd (example_clock 0)) "{}").

(** ** Further queries *)

(** [dict(row)] for a row of [actual_trades]. *)
Definition trade_dict (r : trade_row) : dict :=
  [ ("id", VInt (t_id r));
    ("timestamp", VStr (t_timestamp r));
    ("trade_type", VStr (t_trade_type r));
    ("price", VFloat (t_price r));
    ("amount", VFloat (t_amount r));
    ("total_value", VFloat (t_total_value r));
    ("fee", opt_real (t_fee r));
    ("order_id", opt_text (t_order_id r));
    ("success", VInt (if t_success r then 1 else 0));
    ("error_message", opt_text (t_error_message r));
    ("created_at", VStr (t_created_at r)) ].

(** [dict(row)] for a row of [portfolio_snapshots]. *)
Definition snapshot_dict (r : snapshot_row) : dict :=
  [ ("id", VInt (s_id r));
    ("date", VStr (s_date r));
    ("krw_balance", VFloat (s_krw_balance r));
    ("btc_balance", VFloat (s_btc_balance r));
    ("btc_avg_price", opt_real (s_btc_avg_price r));
    ("total_value", VFloat (s_total_value r));
    ("profit_loss", opt_real (s_profit_loss r));
    ("profit_loss_percent", opt_real (s_profit_loss_percent r));
    ("created_at", VStr (s_created_at r)) ].

(** [DATE(created_at)] of a CURRENT_TIMESTAMP value: its calendar date, the
    first ten characters. *)
Definition sql_date (s : string) : string := substring 0 10 s.

(** Truth value of an optional string argument. *)
Definition given (o : option string) : bool :=
  match o with
  | Some s => nonempty s
  | None => false
  end.

(** [get_logs_by_date_range]: [created_at BETWEEN ? AND ?] is
    [created_at >= ? AND created_at <= ?] on a NUMERIC column. *)
Definition get_logs_by_date_range (db : database) (start_date end_date : string)
    : list dict :=
  map log_dict
    (order_by (asc l_created_at)
       (filter (fun r => column_ge (l_created_at r) start_date
                         && column_le (l_created_at r) end_date)
               (trading_logs db))).

(** The rows [get_trades_by_date] selects, before ORDER BY. *)
Definition trades_by_date (db : database) (start_date : string)
    (end_date : option string) : list trade_row :=
  match end_date with
  | Some e =>
      if nonempty e then
        filter (fun r => between (sql_date (t_created_at r)) start_date e)
               (actual_trades db)
      else
        filter (fun r => String.eqb (sql_date (t_created_at r)) start_date)
               (actual_trades db)
  | None =>
      filter (fun r => String.eqb (sql_date (t_created_at r)) start_date)
             (actual_trades db)
  end.

(** [get_trades_by_date]. *)
Definition get_trades_by_date (db : database) (start_date : string)
    (end_date : option string) : list dict :=
  map trade_dict (order_by (desc t_created_at) (trades_by_date db start_date end_date)).

(** [get_portfolio_history]. *)
Definition get_portfolio_history (db : database) (days : Z) : result (list dict) :=
  days' <- bind_int days ;;
  ok (map snapshot_dict
        (limit days' (order_by (desc s_date) (portfolio_snapshots db)))).

(** ** Reflections *)

(** [self_reflections].  An INTEGER or REAL column holds what the column's
    affinity leaves there. *)
Record reflection_row : Type := mk_reflection {
  r_id : Z;
  r_reflection_date : string;
  r_analysis_period_start : string;
  r_analysis_period_end : string;
  r_total_trades_analyzed : pyval;
  r_successful_trades : pyval;
  r_failed_trades : pyval;
  r_total_profit_loss : pyval;
  r_win_rate : pyval;
  r_market_conditions_then : option string;
  r_market_conditions_now : option string;
  r_reflection_content : string;
  r_lessons_learned : option string;
  r_improvement_suggestions : option string;
  r_confidence_adjustment : pyval;
  r_strategy_modifications : option string;
  r_created_at : string
}.

(** The fourth table of the file and its AUTOINCREMENT counter.  No
    operation reads or writes both this table and one of [database]. *)
Record reflections : Type := mk_reflections {
  self_reflections : list reflection_row;
  self_reflections_seq : Z
}.

Definition no_reflections : reflections := mk_reflections [] 0.

(** The integer a float is, when it is one strictly between -2^63 and 2^63. *)
Definition float_to_int (f : float) : option Z :=
  let in_range (z : Z) := if (- 2 ^ 63 <? z) && (z <? 2 ^ 63) then Some z else None in
  match Prim2SF f with
  | S754_zero _ => Some 0
  | S754_finite s m e =>
      let sign (z : Z) := if s then - z else z in
      if 0 <=? e then in_range (sign (Zpos m * 2 ^ e))
      else if Zpos m mod 2 ^ (- e) =? 0 then in_range (sign (Zpos m / 2 ^ (- e)))
      else None
  | _ => None
  end.

(** SQLite's reading of a text as a 64-bit integer, when it is one. *)
Class IntegerText : Type := {
  text_to_integer : string -> option Z
}.

(** [dict(row)] for a row of [self_reflections]. *)
Definition reflection_dict (r : reflection_row) : dict :=
  [ ("id", VInt (r_id r));
    ("reflection_date", VStr (r_reflection_date r));
    ("analysis_period_start", VStr (r_analysis_period_start r));
    ("analysis_period_end", VStr (r_analysis_period_end r));
    ("total_trades_analyzed", r_total_trades_analyzed r);
    ("successful_trades", r_successful_trades r);
    ("failed_trades", r_failed_trades r);
    ("total_profit_loss", r_total_profit_loss r);
    ("win_rate", r_win_rate r);
    ("market_conditions_then", opt_text (r_market_conditions_then r));
    ("market_conditions_now", opt_text (r_market_conditions_now r));
    ("reflection_content", VStr (r_reflection_content r));
    ("lessons_learned", opt_text (r_lessons_learned r));
    ("improvement_suggestions", opt_text (r_improvement_suggestions r));
    ("confidence_adjustment", r_confidence_adjustment r);
    ("strategy_modifications", opt_text (r_strategy_modifications r));
    ("created_at", VStr (r_created_at r)) ].

Section Reflections.
Context {R : Runtime} {N : IntegerText}.

(** A bound value stored in an INTEGER column: a float or a text that is an
    integer becomes that integer; other numeric text becomes a float. *)
Definition integer_affinity (v : pyval) : pyval :=
  match v with
  | VFloat f =>
      match float_to_int f with
      | Some z => VInt z
      | None => VFloat f
      end
  | VStr s =>
      match text_to_integer s with
      | Some z => VInt z
      | None =>
          match text_to_real s with
          | Some f =>
              match float_to_int f with
              | Some z => VInt z
              | None => VFloat f
              end
          | None => VStr s
          end
      end
  | _ => v
  end.

(** [save_reflection]: one INSERT; returns the new table and [lastrowid]. *)
Definition save_reflection (tbl : reflections) (now utc : datetime)
    (reflection_data : pyval) : result (reflections * Z) :=
  a_date <- py_get reflection_data "reflection_date" (VStr (isoformat now)) ;;
  a_start <- py_get reflection_data "analysis_period_start" (VStr "") ;;
  a_end <- py_get reflection_data "analysis_period_end" (VStr "") ;;
  a_total <- py_get reflection_data "total_trades_analyzed" (VInt 0) ;;
  a_wins <- py_get reflection_data "successful_trades" (VInt 0) ;;
  a_losses <- py_get reflection_data "failed_trades" (VInt 0) ;;
  a_pl <- py_get reflection_data "total_profit_loss" (VInt 0) ;;
  a_rate <- py_get reflection_data "win_rate" (VInt 0) ;;
  a_then <- py_get reflection_data "market_conditions_then" (VStr "") ;;
  a_now <- py_get reflection_data "market_conditions_now" (VStr "") ;;
  a_content <- py_get reflection_data "reflection_content" (VStr "") ;;
  a_lessons <- py_get reflection_data "lessons_learned" (VStr "") ;;
  a_improve <- py_get reflection_data "improvement_suggestions" (VStr "") ;;
  a_adjust <- py_get reflection_data "confidence_adjustment" (VInt 0) ;;
  a_strategy <- py_get reflection_data "strategy_modifications" (VStr "") ;;
  (* binding the parameters *)
  b_date <- sqlite_bind a_date ;;
  b_start <- sqlite_bind a_start ;;
  b_end <- sqlite_bind a_end ;;
  b_total <- sqlite_bind a_total ;;
  b_wins <- sqlite_bind a_wins ;;
  b_losses <- sqlite_bind a_losses ;;
  b_pl <- sqlite_bind a_pl ;;
  b_rate <- sqlite_bind a_rate ;;
  b_then <- sqlite_bind a_then ;;
  b_now <- sqlite_bind a_now ;;
  b_content <- sqlite_bind a_content ;;
  b_lessons <- sqlite_bind a_lessons ;;
  b_improve <- sqlite_bind a_improve ;;
  b_adjust <- sqlite_bind a_adjust ;;
  b_strategy <- sqlite_bind a_strategy ;;
  (* the row, under the columns' affinities and NOT NULL constraints *)
  c_date <- not_null (text_affinity b_date) ;;
  c_start <- not_null (text_affinity b_start) ;;
  c_end <- not_null (text_affinity b_end) ;;
  c_content <- not_null (text_affinity b_content) ;;
  let reflection_id := self_reflections_seq tbl + 1 in
  let row :=
    mk_reflection reflection_id c_date c_start c_end
      (integer_affinity b_total) (integer_affinity b_wins)
      (integer_affinity b_losses)
      (real_affinity b_pl) (real_affinity b_rate)
      (text_affinity b_then) (text_affinity b_now) c_content
      (text_affinity b_lessons) (text_affinity b_improve)
      (real_affinity b_adjust) (text_affinity b_strategy)
      (current_timestamp utc) in
  ok (mk_reflections (self_reflections tbl ++ [row])%list reflection_id,
      reflection_id).

(** [get_recent_reflections]. *)
Definition get_recent_reflections (tbl : reflections) (n : Z) : result (list dict) :=
  n' <- bind_int n ;;
  ok (map reflection_dict
        (limit n' (order_by (desc r_created_at) (self_reflections tbl)))).

End Reflections.

(** ** Histories of the store *)

(** The databases the write operations build from a new file. *)
Inductive reachable {R : Runtime} : database -> Prop :=
| reach_init : reachable init_database
| reach_trade (db : database) (now utc : datetime) (trade_type : string)
    (price amount total_value fee : float) (order_id : option string)
    (success : bool) (error_message trade_time : option string)
    (db' : database) (trade_id : Z) :
    reachable db ->
    save_trade db now utc trade_type price amount total_value fee order_id
      success error_message trade_time = ok (db', trade_id) ->
    reachable db'
| reach_snapshot (db : database) (utc : datetime) (date : string)
    (krw btc avg total pl plp : float) (db' : database) :
    reachable db ->
    save_portfolio_snapshot db utc date krw btc avg total pl plp = ok db' ->
    reachable db'
| reach_log (db : database) (utc : datetime)
    (market_data ai_analysis timestamp : pyval) (analysis_type : string)
    (db' : database) (log_id : Z) :
    reachable db ->
    save_analysis_log db utc market_data ai_analysis timestamp analysis_type
    = ok (db', log_id) ->
    reachable db'.

(** Ids handed out so far: positive, at most the counter, growing along the
    table. *)
Definition ids_ok (ids : list Z) (seq : Z) : Prop :=
  0 <= seq /\ StronglySorted Z.lt ids /\ Forall (fun i => 0 < i <= seq) ids.

(** A list sorted for ORDER BY. *)
Definition sorted_by {A : Type} (before : A -> A -> bool) (l : list A) : Prop :=
  StronglySorted (fun x y => before x y = true) l.

(** How often [k] occurs. *)
Definition occurrences (k : string) (ks : list string) : Z :=
  Z.of_nat (List.length (filter (String.eqb k) ks)).

(** The profits of the sells of a list of trades, in order. *)
Definition profits (rows : list trade_row) : list float :=
  map sell_profit (filter is_sell rows).

(** A buy at price zero. *)
Definition zero_price_buy (r : trade_row) : bool :=
  is_buy r && PrimFloat.eqb (t_price r) 0%float.

(** The runtime of the examples reads no text as an integer. *)
Definition example_integer_text : IntegerText :=
  {| text_to_integer := fun _ => None |}.

(** What the analysis of the week up to March 8 reports on [buy_then_sell]. *)
Definition buy_then_sell_report : dict :=
  match analyze_trading_performance buy_then_sell (noon 8) 7 with
  | inr d => d
  | inl _ => []
  end.

(** One successful buy recorded at price zero. *)
Definition free_buy : database :=
  db_after init_database
    (save_trade init_database (noon 5) (noon 5)
       "buy" 0 0.5 0 0 None true None None).

(** The buy of [one_buy], then a sell the exchange rejected. *)
Definition rejected_sell : database :=
  db_after one_buy
    (save_trade one_buy (noon 6) (noon 6)
       "sell" 1200000 0.5 600000 0 None false (Some "rejected") None).

(** The snapshot of March 5. *)
Definition march5_snapshot : database :=
  match save_portfolio_snapshot init_database (noon 5) "2024-03-05"
          1 2 3 4 5 6 with
  | inr db => db
  | inl _ => init_database
  end.

(** The keys [save_reflection] reads. *)
Definition reflection_keys : list string :=
  [ "reflection_date"; "analysis_period_start"; "analysis_period_end";
    "total_trades_analyzed"; "successful_trades"; "failed_trades";
    "total_profit_loss"; "win_rate"; "market_conditions_then";
    "market_conditions_now"; "reflection_content"; "lessons_learned";
    "improvement_suggestions"; "confidence_adjustment";
    "strategy_modifications" ].

(** A reflection written on March 9, and the table after a second one a day
    later. *)
Definition reflections1 : reflections :=
  match save_reflection (R := example_runtime) (N := example_integer_text)
          no_reflections (noon 9) (noon 9)
          (VDict [("reflection_content", VStr "sold too early")]) with
  | inr (tbl, _) => tbl
  | inl _ => no_reflections
  end.

Definition reflections2 : reflections :=
  match save_reflection (R := example_runtime) (N := example_integer_text)
          reflections1 (noon 10) (noon 10)
          (VDict [("reflection_content", VStr "held"); ("win_rate", VInt 50);
                  ("total_trades_analyzed", VInt 2)]) with
  | inr (tbl, _) => tbl
  | inl _ => no_reflections
  end.

(** * Properties *)

(** ** The error monad *)

Lemma bind_ok_inv {A B : Type} (c : result A) (k : A -> result B) (b : B) :
  bind c k = ok b -> exists a, c = ok a /\ k a = ok b.
Proof.
  destruct c as [e | a]; simpl; intro H.
  - discriminate H.
  - exists a. split; [reflexivity | exact H].
Qed.

Ltac has_value := eexists; first [eassumption | reflexivity].

Ltac bind_inv H :=
  let a := fresh "a" in
  let Ha := fresh "Ha" in
  apply bind_ok_inv in H; destruct H as (a & Ha & H).

(** ** Arithmetic on a running balance *)

Lemma float_of_Z_0 : float_of_Z 0 = 0%float.
Proof. vm_compute. reflexivity. Qed.

Lemma float_value_init :
  float_value (VInt 0) = ok 0%float
  /\ float_value (VInt 1000000) = ok 1000000%float.
Proof. split; vm_compute; reflexivity. Qed.

Lemma py_arith_float_r fz ff (v : pyval) (b a : float) :
  float_value v = ok b ->
  py_arith fz ff v (VFloat a) = ok (VFloat (ff b a)).
Proof.
  unfold float_value, py_arith.
  destruct v as [ | c | z | f | s | l | d]; simpl; intro H;
    try discriminate H.
  - rewrite H. reflexivity.
  - rewrite H. reflexivity.
  - injection H as ->. reflexivity.
Qed.

Lemma py_arith_floats fz ff (a b : float) :
  py_arith fz ff (VFloat a) (VFloat b) = ok (VFloat (ff a b)).
Proof. reflexivity. Qed.

Lemma py_truediv_floats (a b : float) :
  py_truediv (VFloat a) (VFloat b) =
  if PrimFloat.eqb b 0%float then raise ZeroDivisionError
  else ok (VFloat (PrimFloat.div a b)).
Proof. reflexivity. Qed.

(** ** One step of the replay on a row of [actual_trades] *)

Lemma replay_step_sell (st : replay_state) (r : trade_row) (b k p : float) :
  t_trade_type r = "sell" ->
  float_value (btc_balance st) = ok b ->
  float_value (krw_balance st) = ok k ->
  float_value (total_profit_loss st) = ok p ->
  replay_step st (trade_tuple r) =
  ok (mk_replay
        (VFloat (PrimFloat.sub b (t_amount r)))
        (VFloat (PrimFloat.add k (t_total_value r)))
        (VFloat (PrimFloat.add p (sell_profit r)))
        (if PrimFloat.ltb 0%float (sell_profit r)
         then successful_trades st + 1 else successful_trades st)
        (if PrimFloat.ltb 0%float (sell_profit r)
         then failed_trades st else failed_trades st + 1)).
Proof.
  intros Hty Hb Hk Hp.
  unfold replay_step, trade_tuple, py_item. simpl. rewrite Hty. simpl.
  unfold py_sub at 1. rewrite (py_arith_float_r _ _ _ _ _ Hb). simpl.
  unfold py_add at 1. rewrite (py_arith_float_r _ _ _ _ _ Hk). simpl.
  unfold py_add. rewrite (py_arith_float_r _ _ _ _ _ Hp). simpl.
  rewrite float_of_Z_0. unfold sell_profit.
  destruct (PrimFloat.ltb 0%float _); reflexivity.
Qed.

Lemma replay_step_buy (st : replay_state) (r : trade_row) (b k : float) :
  t_trade_type r = "buy" ->
  float_value (btc_balance st) = ok b ->
  float_value (krw_balance st) = ok k ->
  replay_step st (trade_tuple r) =
  if PrimFloat.eqb (t_price r) 0%float then raise ZeroDivisionError
  else
    ok (mk_replay
          (VFloat (PrimFloat.add b (PrimFloat.div (t_amount r) (t_price r))))
          (VFloat (PrimFloat.sub k (t_amount r)))
          (total_profit_loss st) (successful_trades st) (failed_trades st)).
Proof.
  intros Hty Hb Hk.
  unfold replay_step, trade_tuple, py_item. simpl. rewrite Hty. simpl.
  rewrite py_truediv_floats.
  destruct (PrimFloat.eqb (t_price r) 0%float); simpl; [reflexivity | ].
  unfold py_add. rewrite (py_arith_float_r _ _ _ _ _ Hb). simpl.
  unfold py_sub. rewrite (py_arith_float_r _ _ _ _ _ Hk). reflexivity.
Qed.

Lemma replay_step_other (st : replay_state) (r : trade_row) :
  is_buy r = false -> is_sell r = false ->
  replay_step st (trade_tuple r) = ok st.
Proof.
  unfold is_buy, is_sell. intros Hb Hs.
  unfold replay_step, trade_tuple, py_item. simpl. rewrite Hb, Hs. reflexivity.
Qed.

(** ** The replay loop *)

Lemma replay_app (st : replay_state) (l1 l2 : list (list pyval)) :
  replay st (l1 ++ l2) = (st' <- replay st l1 ;; replay st' l2).
Proof.
  revert st. induction l1 as [ | t l1 IH]; intro st; simpl.
  - reflexivity.
  - destruct (replay_step st t) as [e | st1]; simpl.
    + reflexivity.
    + apply IH.
Qed.

Lemma numeric_init : numeric replay_init.
Proof.
  destruct float_value_init as [H0 H1].
  split; [ | split]; simpl; has_value.
Qed.

Lemma replay_step_numeric (st st' : replay_state) (r : trade_row) :
  numeric st -> replay_step st (trade_tuple r) = ok st' -> numeric st'.
Proof.
  intros (Hb & Hk & Hp) H.
  destruct Hb as [b Hb], Hk as [k Hk], Hp as [p Hp].
  destruct (String.eqb_spec (t_trade_type r) "buy") as [Hbuy | Hbuy].
  - rewrite (replay_step_buy st r b k Hbuy Hb Hk) in H.
    destruct (PrimFloat.eqb (t_price r) 0%float); [discriminate H | ].
    injection H as <-. split; [ | split]; simpl; has_value.
  - destruct (String.eqb_spec (t_trade_type r) "sell") as [Hsell | Hsell].
    + rewrite (replay_step_sell st r b k p Hsell Hb Hk Hp) in H.
      injection H as <-. split; [ | split]; simpl; has_value.
    + rewrite replay_step_other in H.
      * injection H as <-. split; [ | split]; has_value.
      * apply String.eqb_neq. exact Hbuy.
      * apply String.eqb_neq. exact Hsell.
Qed.

Lemma replay_numeric (rows : list trade_row) :
  forall st st', numeric st ->
    replay st (map trade_tuple rows) = ok st' -> numeric st'.
Proof.
  induction rows as [ | r rows IH]; intros st st' Hn H; simpl in H.
  - injection H as <-. exact Hn.
  - bind_inv H. eapply IH; [ | exact H].
    eapply replay_step_numeric; eassumption.
Qed.

(** Every sell, and nothing else, moves one of the two counters by one. *)
Lemma replay_counters (rows : list trade_row) :
  forall st st', numeric st ->
    replay st (map trade_tuple rows) = ok st' ->
    successful_trades st' + failed_trades st' =
    successful_trades st + failed_trades st
    + Z.of_nat (List.length (filter is_sell rows)).
Proof.
  induction rows as [ | r rows IH]; intros st st' Hn H; simpl in H.
  - injection H as <-. simpl. lia.
  - bind_inv H.
    assert (Hn1 : numeric a) by (eapply replay_step_numeric; eassumption).
    rewrite (IH _ _ Hn1 H). clear IH H.
    destruct Hn as ([b Hb] & [k Hk] & [p Hp]).
    simpl filter.
    destruct (String.eqb_spec (t_trade_type r) "buy") as [Hbuy | Hbuy].
    + rewrite (replay_step_buy st r b k Hbuy Hb Hk) in Ha.
      destruct (PrimFloat.eqb (t_price r) 0%float); [discriminate Ha | ].
      injection Ha as <-.
      replace (is_sell r) with false by (unfold is_sell; rewrite Hbuy; reflexivity).
      simpl. lia.
    + destruct (String.eqb_spec (t_trade_type r) "sell") as [Hsell | Hsell].
      * rewrite (replay_step_sell st r b k p Hsell Hb Hk Hp) in Ha.
        injection Ha as <-.
        replace (is_sell r) with true by (unfold is_sell; rewrite Hsell; reflexivity).
        cbn [List.length successful_trades failed_trades].
        rewrite Nat2Z.inj_succ.
        destruct (PrimFloat.ltb 0%float (sell_profit r)); lia.
      * rewrite replay_step_other in Ha.
        -- injection Ha as <-.
           apply String.eqb_neq in Hsell. fold (is_sell r) in Hsell.
           rewrite Hsell. lia.
        -- apply String.eqb_neq. exact Hbuy.
        -- apply String.eqb_neq. exact Hsell.
Qed.

(** C3: when the replay reaches a sell row, the BTC balance goes down by the
    row's amount, the KRW balance goes up by its total value, the profit
    total value - amount * price is added to the cumulative profit, and the
    row counts as a win exactly when that profit is greater than 0, as a
    loss otherwise (also when the profit is 0). *)
Theorem sell_replay_effect (pre : list trade_row) (r : trade_row)
    (st : replay_state) :
  t_trade_type r = "sell" ->
  replay replay_init (map trade_tuple pre) = ok st ->
  exists b k p,
    float_value (btc_balance st) = ok b
    /\ float_value (krw_balance st) = ok k
    /\ float_value (total_profit_loss st) = ok p
    /\ replay replay_init (map trade_tuple (pre ++ [r])) =
       ok (mk_replay
             (VFloat (PrimFloat.sub b (t_amount r)))
             (VFloat (PrimFloat.add k (t_total_value r)))
             (VFloat (PrimFloat.add p
                        (PrimFloat.sub (t_total_value r)
                           (PrimFloat.mul (t_amount r) (t_price r)))))
             (if PrimFloat.ltb 0%float
                   (PrimFloat.sub (t_total_value r)
                      (PrimFloat.mul (t_amount r) (t_price r)))
              then successful_trades st + 1 else successful_trades st)
             (if PrimFloat.ltb 0%float
                   (PrimFloat.sub (t_total_value r)
                      (PrimFloat.mul (t_amount r) (t_price r)))
              then failed_trades st else failed_trades st + 1)).
Proof.
  intros Hsell Hpre.
  destruct (replay_numeric pre _ _ numeric_init Hpre)
    as ([b Hb] & [k Hk] & [p Hp]).
  exists b, k, p. split; [exact Hb | ]. split; [exact Hk | ]. split; [exact Hp | ].
  rewrite map_app, replay_app, Hpre. simpl.
  rewrite (replay_step_sell st r b k p Hsell Hb Hk Hp). reflexivity.
Qed.

Lemma sell_replay_effect_witness :
  exists b k p,
    float_value (btc_balance replay_init) = ok b
    /\ float_value (krw_balance replay_init) = ok k
    /\ float_value (total_profit_loss replay_init) = ok p
    /\ replay replay_init
         (map trade_tuple
            ([] ++ [mk_trade 1 "t" "sell" 1200000 0.5 600001 (Some 0%float) None true None "c"])) =
       ok (mk_replay
             (VFloat (PrimFloat.sub b 0.5))
             (VFloat (PrimFloat.add k 600001))
             (VFloat (PrimFloat.add p
                        (PrimFloat.sub 600001 (PrimFloat.mul 0.5 1200000))))
             (if PrimFloat.ltb 0%float
                   (PrimFloat.sub 600001 (PrimFloat.mul 0.5 1200000))
              then 0 + 1 else 0)
             (if PrimFloat.ltb 0%float
                   (PrimFloat.sub 600001 (PrimFloat.mul 0.5 1200000))
              then 0 else 0 + 1)).
Proof.
  apply (sell_replay_effect []
           (mk_trade 1 "t" "sell" 1200000 0.5 600001 (Some 0%float) None true None "c")
           replay_init).
  - reflexivity.
  - reflexivity.
Defined.

(** C1: on the database holding one successful buy (price 1,000,000,
    amount 0.5, total value 500,000) the replay adds amount / price to the
    BTC balance and takes the amount off the KRW balance; it does not reach
    the balances that total value / price and total value would give. *)
Theorem buy_replay_uses_amount :
  map t_total_value (trades_in_window one_buy (noon 1) (noon 8)) = [500000%float]
  /\ replay_window one_buy (noon 1) (noon 8) =
     ok (mk_replay (VFloat (PrimFloat.add 0 (PrimFloat.div 0.5 1000000)))
                   (VFloat (PrimFloat.sub 1000000 0.5)) (VInt 0) 0 0)
  /\ replay_window one_buy (noon 1) (noon 8) <> ok one_buy_by_total_value.
Proof.
  split; [vm_compute; reflexivity | ].
  split; [vm_compute; reflexivity | ].
  intro H.
  apply (f_equal (fun c : result replay_state =>
                    match c with
                    | inr st =>
                        match krw_balance st with
                        | VFloat x => PrimFloat.eqb x 500000%float
                        | _ => false
                        end
                    | inl _ => false
                    end)) in H.
  vm_compute in H. discriminate H.
Qed.

(** ** ORDER BY *)

Section SortingFacts.
Context {A : Type}.
Variable before : A -> A -> bool.

Lemma insert_sorted_length (x : A) (l : list A) :
  List.length (insert_sorted before x l) = S (List.length l).
Proof.
  induction l as [ | y l IH]; simpl.
  - reflexivity.
  - destruct (before x y); simpl; [reflexivity | rewrite IH; reflexivity].
Qed.

Lemma order_by_length (l : list A) :
  List.length (order_by before l) = List.length l.
Proof.
  induction l as [ | x l IH]; simpl.
  - reflexivity.
  - rewrite insert_sorted_length, IH. reflexivity.
Qed.

Lemma order_by_nil_iff (l : list A) : order_by before l = [] <-> l = [].
Proof.
  split; intro H.
  - apply length_zero_iff_nil. rewrite <- order_by_length, H. reflexivity.
  - subst l. reflexivity.
Qed.

Lemma insert_sorted_count (p : A -> bool) (x : A) (l : list A) :
  List.length (filter p (insert_sorted before x l)) =
  List.length (filter p (x :: l)).
Proof.
  induction l as [ | y l IH]; simpl.
  - reflexivity.
  - destruct (before x y); simpl.
    + reflexivity.
    + simpl in IH. destruct (p y), (p x); simpl in *; rewrite IH; reflexivity.
Qed.

Lemma order_by_count (p : A -> bool) (l : list A) :
  List.length (filter p (order_by before l)) = List.length (filter p l).
Proof.
  induction l as [ | x l IH]; simpl.
  - reflexivity.
  - rewrite insert_sorted_count. simpl.
    destruct (p x); simpl; rewrite IH; reflexivity.
Qed.

Lemma insert_sorted_In (x y : A) (l : list A) :
  In y (insert_sorted before x l) <-> y = x \/ In y l.
Proof.
  induction l as [ | z l IH]; simpl.
  - intuition congruence.
  - destruct (before x z); simpl.
    + intuition congruence.
    + rewrite IH. intuition congruence.
Qed.

Lemma order_by_In (y : A) (l : list A) : In y (order_by before l) <-> In y l.
Proof.
  induction l as [ | x l IH]; simpl.
  - reflexivity.
  - rewrite insert_sorted_In, IH. intuition congruence.
Qed.

End SortingFacts.

Lemma trades_in_window_filter (db : database) (s e : datetime) :
  trades_in_window db s e =
  order_by (asc t_created_at) (filter (in_window s e) (actual_trades db)).
Proof. reflexivity. Qed.

(** ** Text *)

Lemma string_length_append (s t : string) :
  String.length (s ++ t) = (String.length s + String.length t)%nat.
Proof.
  induction s as [ | c s IH]; simpl.
  - reflexivity.
  - rewrite IH. reflexivity.
Qed.

Lemma pad_length (w : nat) (z : Z) : String.length (pad w z) = w.
Proof.
  revert z. induction w as [ | w IH]; intro z; simpl.
  - reflexivity.
  - rewrite string_length_append, IH. simpl. lia.
Qed.

Lemma strftime_ymd_length (dt : datetime) :
  String.length (strftime_ymd dt) = 10%nat.
Proof.
  unfold strftime_ymd.
  rewrite !string_length_append, !pad_length. reflexivity.
Qed.

(** ** The result of the analysis *)

Lemma float_of_int_100 : float_of_int 100 = ok 100%float.
Proof. vm_compute. reflexivity. Qed.

Lemma analyze_empty (db : database) (s e : datetime) :
  trades_in_window db s e = [] ->
  analyze_window db s e =
  ok [ ("total_trades", VInt 0);
       ("total_profit_loss", VInt 0);
       ("win_rate", VInt 0);
       ("successful_trades", VInt 0);
       ("failed_trades", VInt 0);
       ("analysis_period", VStr (strftime_ymd s ++ " to " ++ strftime_ymd e)) ].
Proof.
  intro H. unfold analyze_window. rewrite H. reflexivity.
Qed.

Lemma analyze_traded (db : database) (s e : datetime) (d : dict) :
  trades_in_window db s e <> [] ->
  analyze_window db s e = ok d ->
  exists st q,
    replay_window db s e = ok st
    /\ int_true_divide (successful_trades st)
         (Z.of_nat (List.length (trades_in_window db s e))) = ok q
    /\ d =
       [ ("total_trades", VInt (Z.of_nat (List.length (trades_in_window db s e))));
         ("successful_trades", VInt (successful_trades st));
         ("failed_trades", VInt (failed_trades st));
         ("total_profit_loss", total_profit_loss st);
         ("win_rate", VFloat (PrimFloat.mul q 100));
         ("analysis_period_start", VStr (strftime_ymd s));
         ("analysis_period_end", VStr (strftime_ymd e));
         ("trades_data",
          VList (map VList (map trade_tuple (trades_in_window db s e)))) ].
Proof.
  intros Hne H. unfold analyze_window, replay_window in *.
  destruct (trades_in_window db s e) as [ | r rest] eqn:E; [congruence | ].
  set (trades := r :: rest) in *.
  change (map trade_tuple trades) with (trade_tuple r :: map trade_tuple rest) in H at 1.
  cbv beta iota in H.
  change (trade_tuple r :: map trade_tuple rest) with (map trade_tuple trades) in H.
  bind_inv H. rename a into st. bind_inv H. rename a into wr.
  rewrite length_map in Ha0, H.
  replace (0 <? Z.of_nat (List.length trades)) with true in Ha0
    by (symmetry; apply Z.ltb_lt; subst trades; simpl List.length; lia).
  bind_inv Ha0. rename a into qv.
  unfold py_truediv in Ha1. cbn [as_num] in Ha1.
  bind_inv Ha1. rename a into q. injection Ha1 as <-.
  unfold py_mul, py_arith in Ha0. cbn [as_num to_float bind ok] in Ha0.
  rewrite float_of_int_100 in Ha0. cbn [bind ok] in Ha0.
  injection Ha0 as <-.
  exists st, q. split; [exact Ha | ]. split; [exact Ha2 | ].
  injection H as <-. reflexivity.
Qed.

(** C7: when no successful trade was created inside the window, the
    analysis returns the zero-filled result, and the two window bounds it
    prints are ten-character calendar dates. *)
Theorem empty_window_result (db : database) (now : datetime) (days_back : Z)
    (start_date : datetime) :
  minus_days now days_back = ok start_date ->
  (forall r, In r (actual_trades db) -> t_success r = true ->
     between (t_created_at r) (isoformat start_date) (isoformat now) = false) ->
  analyze_trading_performance db now days_back =
  ok [ ("total_trades", VInt 0);
       ("total_profit_loss", VInt 0);
       ("win_rate", VInt 0);
       ("successful_trades", VInt 0);
       ("failed_trades", VInt 0);
       ("analysis_period",
        VStr (strftime_ymd start_date ++ " to " ++ strftime_ymd now)) ]
  /\ String.length (strftime_ymd start_date) = 10%nat
  /\ String.length (strftime_ymd now) = 10%nat.
Proof.
  intros Hstart Hnone.
  split; [ | split; apply strftime_ymd_length].
  unfold analyze_trading_performance. rewrite Hstart. simpl bind.
  apply analyze_empty.
  rewrite trades_in_window_filter. apply order_by_nil_iff.
  assert (G : forall rows : list trade_row,
             (forall r, In r rows -> in_window start_date now r = false) ->
             filter (in_window start_date now) rows = []).
  { induction rows as [ | r rows IH]; intro Hall; simpl.
    - reflexivity.
    - rewrite (Hall r (or_introl eq_refl)). apply IH.
      intros r' Hin. apply Hall. right. exact Hin. }
  apply G. intros r Hin. unfold in_window.
  destruct (t_success r) eqn:Hs.
  - rewrite (Hnone r Hin Hs). reflexivity.
  - apply andb_false_r.
Qed.

Lemma empty_window_result_witness :
  analyze_trading_performance buy_then_sell (noon 20) 7 =
  ok [ ("total_trades", VInt 0);
       ("total_profit_loss", VInt 0);
       ("win_rate", VInt 0);
       ("successful_trades", VInt 0);
       ("failed_trades", VInt 0);
       ("analysis_period",
        VStr (strftime_ymd (noon 13) ++ " to " ++ strftime_ymd (noon 20))) ]
  /\ String.length (strftime_ymd (noon 13)) = 10%nat
  /\ String.length (strftime_ymd (noon 20)) = 10%nat.
Proof.
  apply (empty_window_result buy_then_sell (noon 20) 7 (noon 13)).
  - vm_compute. reflexivity.
  - intros r Hin _. simpl in Hin.
    destruct Hin as [<- | [<- | []]]; vm_compute; reflexivity.
Defined.

(** C10: the two results have different keys.  Over a window without
    trades the bounds are under the one key analysis_period, and there is
    no trades_data; over a window with trades they are under
    analysis_period_start and analysis_period_end, next to trades_data, and
    analysis_period is absent. *)
Theorem result_key_shapes (db : database) (now : datetime) (days_back : Z)
    (d : dict) :
  analyze_trading_performance db now days_back = ok d ->
  exists start_date,
    minus_days now days_back = ok start_date
    /\ ((trades_in_window db start_date now = []
         /\ keys d = empty_window_keys
         /\ lookup "analysis_period" d =
            Some (VStr (strftime_ymd start_date ++ " to " ++ strftime_ymd now))
         /\ lookup "analysis_period_start" d = None
         /\ lookup "analysis_period_end" d = None
         /\ lookup "trades_data" d = None)
        \/ (trades_in_window db start_date now <> []
            /\ keys d = traded_window_keys
            /\ lookup "analysis_period" d = None
            /\ lookup "analysis_period_start" d = Some (VStr (strftime_ymd start_date))
            /\ lookup "analysis_period_end" d = Some (VStr (strftime_ymd now))
            /\ lookup "trades_data" d =
               Some (VList (map VList
                              (map trade_tuple
                                   (trades_in_window db start_date now)))))).
Proof.
  intro H. unfold analyze_trading_performance in H.
  bind_inv H. rename a into start_date.
  exists start_date. split; [exact Ha | ].
  destruct (trades_in_window db start_date now) as [ | r rest] eqn:E.
  - left. rewrite (analyze_empty _ _ _ E) in H. injection H as <-.
    repeat split; reflexivity.
  - right.
    assert (Hne : trades_in_window db start_date now <> []) by congruence.
    destruct (analyze_traded _ _ _ _ Hne H) as (st & q & _ & _ & ->).
    split; [congruence | ]. rewrite E.
    repeat split; reflexivity.
Qed.

Lemma result_key_shapes_witness :
  exists start_date,
    minus_days (noon 8) 7 = ok start_date
    /\ ((trades_in_window one_buy start_date (noon 8) = []
         /\ keys one_buy_report
            = empty_window_keys
         /\ lookup "analysis_period" one_buy_report =
            Some (VStr (strftime_ymd start_date ++ " to " ++ strftime_ymd (noon 8)))
         /\ lookup "analysis_period_start" one_buy_report = None
         /\ lookup "analysis_period_end" one_buy_report = None
         /\ lookup "trades_data" one_buy_report = None)
        \/ (trades_in_window one_buy start_date (noon 8) <> []
            /\ keys one_buy_report
               = traded_window_keys
            /\ lookup "analysis_period" one_buy_report = None
            /\ lookup "analysis_period_start" one_buy_report =
               Some (VStr (strftime_ymd start_date))
            /\ lookup "analysis_period_end" one_buy_report =
               Some (VStr (strftime_ymd (noon 8)))
            /\ lookup "trades_data" one_buy_report =
               Some (VList (map VList
                              (map trade_tuple
                                   (trades_in_window one_buy start_date (noon 8))))))).
Proof.
  apply (result_key_shapes one_buy (noon 8) 7).
  vm_compute. reflexivity.
Defined.

(** C2, as stated, fails: over a window holding one successful buy and one
    successful sell the analysis reports total_trades = 2, not 1, and a win
    rate of 50 over both trades, although the sell is the only trade it
    classified (as a win). *)
Lemma total_trades_counts_the_buy :
  map t_trade_type (trades_in_window buy_then_sell (noon 1) (noon 8)) = ["buy"; "sell"]
  /\ exists d,
       analyze_trading_performance buy_then_sell (noon 8) 7 = ok d
       /\ lookup "total_trades" d = Some (VInt 2)
       /\ lookup "total_trades" d <> Some (VInt 1)
       /\ lookup "successful_trades" d = Some (VInt 1)
       /\ lookup "failed_trades" d = Some (VInt 0)
       /\ lookup "win_rate" d = Some (VFloat 50).
Proof.
  split; [vm_compute; reflexivity | ].
  eexists. split; [vm_compute; reflexivity | ].
  repeat split; try reflexivity.
  simpl. intro H. discriminate H.
Qed.

(** C2, amended: over a window that holds trades, total_trades is the
    number of all successful trades of the window, buys included; the two
    counters successful_trades and failed_trades add up to the number of its
    sells; and win_rate is successful_trades / total_trades * 100. *)
Theorem total_trades_counts_every_trade (db : database) (now : datetime)
    (days_back : Z) (start_date : datetime) (d : dict) :
  minus_days now days_back = ok start_date ->
  filter (in_window start_date now) (actual_trades db) <> [] ->
  analyze_trading_performance db now days_back = ok d ->
  exists wins losses q,
    lookup "total_trades" d =
      Some (VInt (Z.of_nat
                    (List.length
                       (filter (in_window start_date now) (actual_trades db)))))
    /\ lookup "successful_trades" d = Some (VInt wins)
    /\ lookup "failed_trades" d = Some (VInt losses)
    /\ wins + losses =
       Z.of_nat
         (List.length
            (filter is_sell
               (filter (in_window start_date now) (actual_trades db))))
    /\ int_true_divide wins
         (Z.of_nat
            (List.length
               (filter (in_window start_date now) (actual_trades db)))) = ok q
    /\ lookup "win_rate" d = Some (VFloat (PrimFloat.mul q 100)).
Proof.
  intros Hstart Hne H.
  unfold analyze_trading_performance in H. rewrite Hstart in H. simpl bind in H.
  assert (Hne' : trades_in_window db start_date now <> []).
  { rewrite trades_in_window_filter. intro E.
    apply order_by_nil_iff in E. contradiction. }
  destruct (analyze_traded _ _ _ _ Hne' H) as (st & q & Hst & Hq & ->).
  pose proof (replay_counters _ _ _ numeric_init Hst) as Hc.
  rewrite trades_in_window_filter in Hc, Hq.
  rewrite order_by_count in Hc. rewrite order_by_length in Hq.
  exists (successful_trades st), (failed_trades st), q.
  cbn [lookup String.eqb Ascii.eqb Bool.eqb].
  rewrite trades_in_window_filter, order_by_length.
  repeat split; try reflexivity.
  - simpl in Hc. lia.
  - exact Hq.
Qed.

Lemma total_trades_counts_every_trade_witness :
  exists wins losses q,
    lookup "total_trades" one_buy_report =
      Some (VInt (Z.of_nat
                    (List.length
                       (filter (in_window (noon 1) (noon 8)) (actual_trades one_buy)))))
    /\ lookup "successful_trades" one_buy_report = Some (VInt wins)
    /\ lookup "failed_trades" one_buy_report = Some (VInt losses)
    /\ wins + losses =
       Z.of_nat
         (List.length
            (filter is_sell
               (filter (in_window (noon 1) (noon 8)) (actual_trades one_buy))))
    /\ int_true_divide wins
         (Z.of_nat
            (List.length
               (filter (in_window (noon 1) (noon 8)) (actual_trades one_buy)))) = ok q
    /\ lookup "win_rate" one_buy_report = Some (VFloat (PrimFloat.mul q 100)).
Proof.
  apply (total_trades_counts_every_trade one_buy (noon 8) 7 (noon 1) one_buy_report).
  - vm_compute. reflexivity.
  - vm_compute. intro H. discriminate H.
  - vm_compute. reflexivity.
Defined.

(** ** Floats on their way into a REAL column *)

Lemma not_null_bind_float (f g : float) :
  not_null (bind_float f) = ok g -> PrimFloat.is_nan f = false /\ g = f.
Proof.
  unfold bind_float. destruct (PrimFloat.is_nan f); simpl; intro H.
  - discriminate H.
  - injection H as <-. split; reflexivity.
Qed.

Lemma bind_float_number (f : float) :
  PrimFloat.is_nan f = false -> bind_float f = Some f.
Proof. unfold bind_float. intros ->. reflexivity. Qed.




(** ** Writing a trade *)

Lemma save_trade_inv (db : database) (now utc : datetime) (trade_type : string)
    (price amount total_value fee : float) (order_id : option string)
    (success : bool) (error_message trade_time : option string)
    (db' : database) (trade_id : Z) :
  save_trade db now utc trade_type price amount total_value fee order_id
    success error_message trade_time = ok (db', trade_id) ->
  PrimFloat.is_nan price = false
  /\ PrimFloat.is_nan amount = false
  /\ PrimFloat.is_nan total_value = false
  /\ trade_id = actual_trades_seq db + 1
  /\ exists timestamp,
       db' = mk_db (trading_logs db) (trading_logs_seq db)
               (actual_trades db ++
                [ mk_trade (actual_trades_seq db + 1) timestamp trade_type
                    (real_column price) (real_column amount)
                    (real_column total_value) (stored_real fee)
                    order_id success error_message (current_timestamp utc) ])%list
               (actual_trades_seq db + 1)
               (portfolio_snapshots db) (portfolio_snapshots_seq db).
Proof.
  intro H. unfold save_trade in H.
  do 3 (cbv beta zeta in H; bind_inv H).
  cbv beta zeta in H. injection H as <- <-.
  apply not_null_bind_float in Ha, Ha0, Ha1.
  destruct Ha as [H1 ->], Ha0 as [H2 ->], Ha1 as [H3 ->].
  repeat (split; [assumption || reflexivity | ]).
  eexists. reflexivity.
Qed.

Lemma save_trade_returns (db : database) (now utc : datetime)
    (trade_type : string) (price amount total_value fee : float)
    (order_id : option string) (success : bool)
    (error_message trade_time : option string) :
  PrimFloat.is_nan price = false ->
  PrimFloat.is_nan amount = false ->
  PrimFloat.is_nan total_value = false ->
  exists db',
    save_trade db now utc trade_type price amount total_value fee order_id
      success error_message trade_time = ok (db', actual_trades_seq db + 1).
Proof.
  intros H1 H2 H3. unfold save_trade.
  rewrite (bind_float_number _ H1), (bind_float_number _ H2),
    (bind_float_number _ H3).
  eexists. reflexivity.
Qed.

(** ** Failed trades *)

Lemma successful_app_failed (rows : list trade_row) (r : trade_row) :
  t_success r = false -> successful (rows ++ [r]) = successful rows.
Proof.
  intro H. unfold successful. rewrite filter_app. simpl. rewrite H.
  apply app_nil_r.
Qed.

Lemma in_window_app_failed (s e : datetime) (rows : list trade_row)
    (r : trade_row) :
  t_success r = false ->
  filter (in_window s e) (rows ++ [r]) = filter (in_window s e) rows.
Proof.
  intro H. rewrite filter_app. simpl. unfold in_window at 2. rewrite H.
  rewrite andb_false_r. apply app_nil_r.
Qed.

Lemma filter_twice {A : Type} (p : A -> bool) (l : list A) :
  filter p (filter p l) = filter p l.
Proof.
  induction l as [ | x l IH]; simpl.
  - reflexivity.
  - destruct (p x) eqn:E; simpl; [rewrite E, IH; reflexivity | exact IH].
Qed.

Lemma in_window_of_successful (s e : datetime) (rows : list trade_row) :
  filter (in_window s e) (filter t_success rows) = filter (in_window s e) rows.
Proof.
  induction rows as [ | r rows IH]; simpl.
  - reflexivity.
  - unfold in_window at 2 3. destruct (t_success r) eqn:Hs; simpl.
    + unfold in_window at 1. rewrite Hs, IH. reflexivity.
    + rewrite andb_false_r. exact IH.
Qed.

(** The analysis reads the trades table through [trades_in_window] only. *)
Lemma analysis_of_window (db db' : database) :
  (forall s e, trades_in_window db' s e = trades_in_window db s e) ->
  forall now days_back,
    analyze_trading_performance db' now days_back =
    analyze_trading_performance db now days_back.
Proof.
  intros Hw now days_back. unfold analyze_trading_performance.
  destruct (minus_days now days_back) as [e | s]; [reflexivity | ].
  simpl bind. unfold analyze_window. rewrite Hw. reflexivity.
Qed.

(** C5: a trade saved with success = False is stored, and changes neither
    the statistics (total_trades, buy_count, sell_count, total_fee) nor the
    trades the analysis loads, counts and replays.  Wherever failed trades
    stand in the table, the statistics and the analysis are those of the
    table without them. *)
Theorem failed_trade_is_excluded (db : database) (now utc : datetime)
    (trade_type : string) (price amount total_value fee : float)
    (order_id error_message trade_time : option string)
    (db' : database) (trade_id : Z) :
  save_trade db now utc trade_type price amount total_value fee order_id
    false error_message trade_time = ok (db', trade_id) ->
  (exists r, In r (actual_trades db') /\ t_success r = false
             /\ t_id r = trade_id)
  /\ get_trading_stats db' = get_trading_stats db
  /\ (forall s e, trades_in_window db' s e = trades_in_window db s e)
  /\ (forall now' days_back,
        analyze_trading_performance db' now' days_back =
        analyze_trading_performance db now' days_back)
  /\ (forall db0 : database,
        get_trading_stats (without_failed db0) = get_trading_stats db0
        /\ (forall s e,
              trades_in_window (without_failed db0) s e
              = trades_in_window db0 s e)
        /\ (forall now' days_back,
              analyze_trading_performance (without_failed db0) now' days_back =
              analyze_trading_performance db0 now' days_back)).
Proof.
  intro Hsave.
  destruct (save_trade_inv _ _ _ _ _ _ _ _ _ _ _ _ _ _ Hsave)
    as (_ & _ & _ & -> & timestamp & ->).
  set (row := mk_trade _ _ _ _ _ _ _ _ false _ _).
  assert (Hrow : t_success row = false) by reflexivity.
  split.
  { exists row. split; [ | split; reflexivity].
    cbn [actual_trades]. apply in_or_app. right. left. reflexivity. }
  assert (Hw : forall s e,
             trades_in_window
               (mk_db (trading_logs db) (trading_logs_seq db)
                      (actual_trades db ++ [row]) (actual_trades_seq db + 1)
                      (portfolio_snapshots db) (portfolio_snapshots_seq db)) s e
             = trades_in_window db s e).
  { intros s e. rewrite !trades_in_window_filter. cbn [actual_trades].
    rewrite (in_window_app_failed s e _ _ Hrow). reflexivity. }
  split; [ | split; [exact Hw | split; [apply analysis_of_window; exact Hw | ]]].
  - unfold get_trading_stats. cbn [actual_trades trading_logs].
    rewrite (successful_app_failed _ _ Hrow). reflexivity.
  - intro db0.
    assert (Hw0 : forall s e,
               trades_in_window (without_failed db0) s e
               = trades_in_window db0 s e).
    { intros s e. rewrite !trades_in_window_filter.
      unfold without_failed. cbn [actual_trades].
      rewrite in_window_of_successful. reflexivity. }
    split; [ | split; [exact Hw0 | apply analysis_of_window; exact Hw0]].
    unfold get_trading_stats, without_failed, successful.
    cbn [actual_trades trading_logs]. rewrite filter_twice. reflexivity.
Qed.

Lemma failed_trade_is_excluded_witness :
  (exists r, In r (actual_trades rejected_sell) /\ t_success r = false
             /\ t_id r = 2)
  /\ get_trading_stats rejected_sell = get_trading_stats one_buy
  /\ (forall s e, trades_in_window rejected_sell s e = trades_in_window one_buy s e)
  /\ (forall now' days_back,
        analyze_trading_performance rejected_sell now' days_back =
        analyze_trading_performance one_buy now' days_back)
  /\ (forall db0 : database,
        get_trading_stats (without_failed db0) = get_trading_stats db0
        /\ (forall s e,
              trades_in_window (without_failed db0) s e
              = trades_in_window db0 s e)
        /\ (forall now' days_back,
              analyze_trading_performance (without_failed db0) now' days_back =
              analyze_trading_performance db0 now' days_back)).
Proof.
  apply (failed_trade_is_excluded one_buy (noon 6) (noon 6) "sell"
           1200000 0.5 600000 0 None (Some "rejected") None rejected_sell 2).
  vm_compute. reflexivity.
Defined.

(** ** Snapshots *)

Lemma filter_none_of_rest {A : Type} (p : A -> bool) (l : list A) :
  filter p (filter (fun x => negb (p x)) l) = [].
Proof.
  induction l as [ | x l IH]; simpl.
  - reflexivity.
  - destruct (p x) eqn:E; simpl; [ | rewrite E]; exact IH.
Qed.

Lemma save_portfolio_snapshot_inv (db : database) (utc : datetime)
    (date : string) (krw btc avg total pl plp : float) (db' : database) :
  save_portfolio_snapshot db utc date krw btc avg total pl plp = ok db' ->
  PrimFloat.is_nan krw = false
  /\ PrimFloat.is_nan btc = false
  /\ PrimFloat.is_nan total = false
  /\ db' = mk_db (trading_logs db) (trading_logs_seq db)
             (actual_trades db) (actual_trades_seq db)
             (filter (fun r => negb (String.eqb (s_date r) date))
                     (portfolio_snapshots db) ++
              [ mk_snapshot (portfolio_snapshots_seq db + 1) date
                  (real_column krw) (real_column btc) (stored_real avg)
                  (real_column total) (stored_real pl) (stored_real plp)
                  (current_timestamp utc) ])%list
             (portfolio_snapshots_seq db + 1).
Proof.
  intro H. unfold save_portfolio_snapshot in H.
  do 3 (cbv beta zeta in H; bind_inv H).
  cbv beta zeta in H. injection H as <-.
  apply not_null_bind_float in Ha, Ha0, Ha1.
  destruct Ha as [H1 ->], Ha0 as [H2 ->], Ha1 as [H3 ->].
  repeat (split; [assumption | ]). reflexivity.
Qed.

Lemma save_portfolio_snapshot_returns (db : database) (utc : datetime)
    (date : string) (krw btc avg total pl plp : float) :
  PrimFloat.is_nan krw = false ->
  PrimFloat.is_nan btc = false ->
  PrimFloat.is_nan total = false ->
  exists db',
    save_portfolio_snapshot db utc date krw btc avg total pl plp = ok db'.
Proof.
  intros H1 H2 H3. unfold save_portfolio_snapshot.
  rewrite (bind_float_number _ H1), (bind_float_number _ H2),
    (bind_float_number _ H3).
  eexists. reflexivity.
Qed.

(** A NaN balance or total value is refused: the three columns are NOT NULL. *)
Lemma save_portfolio_snapshot_refuses (db : database) (utc : datetime)
    (date : string) (krw btc avg total pl plp : float) :
  PrimFloat.is_nan krw || PrimFloat.is_nan btc || PrimFloat.is_nan total = true ->
  save_portfolio_snapshot db utc date krw btc avg total pl plp
  = raise IntegrityError.
Proof.
  intro H. unfold save_portfolio_snapshot, bind_float.
  destruct (PrimFloat.is_nan krw); [reflexivity | ].
  destruct (PrimFloat.is_nan btc); [reflexivity | ].
  destruct (PrimFloat.is_nan total); [reflexivity | discriminate H].
Qed.

(** After any write the table holds exactly one row for the written date:
    the new one. *)
Lemma snapshot_rows_of_date (db : database) (utc : datetime) (date : string)
    (krw btc avg total pl plp : float) (db' : database) :
  save_portfolio_snapshot db utc date krw btc avg total pl plp = ok db' ->
  filter (fun r => String.eqb (s_date r) date) (portfolio_snapshots db') =
  [ mk_snapshot (portfolio_snapshots_seq db + 1) date
      (real_column krw) (real_column btc) (stored_real avg)
      (real_column total) (stored_real pl) (stored_real plp)
      (current_timestamp utc) ].
Proof.
  intro H. apply save_portfolio_snapshot_inv in H.
  destruct H as (_ & _ & _ & ->). cbn [portfolio_snapshots].
  rewrite filter_app.
  rewrite (filter_none_of_rest (fun r => String.eqb (s_date r) date)).
  simpl. rewrite String.eqb_refl. reflexivity.
Qed.

(** The rows of the other dates stay. *)
Lemma snapshot_rows_of_other_dates (db : database) (utc : datetime)
    (date : string) (krw btc avg total pl plp : float) (db' : database) :
  save_portfolio_snapshot db utc date krw btc avg total pl plp = ok db' ->
  filter (fun r => negb (String.eqb (s_date r) date)) (portfolio_snapshots db')
  = filter (fun r => negb (String.eqb (s_date r) date)) (portfolio_snapshots db).
Proof.
  intro H. apply save_portfolio_snapshot_inv in H.
  destruct H as (_ & _ & _ & ->). cbn [portfolio_snapshots].
  rewrite filter_app, filter_twice. simpl. rewrite String.eqb_refl. simpl.
  apply app_nil_r.
Qed.

(** The dates of the table stay pairwise different. *)
Lemma snapshot_dates_unique (db : database) (utc : datetime) (date : string)
    (krw btc avg total pl plp : float) (db' : database) :
  save_portfolio_snapshot db utc date krw btc avg total pl plp = ok db' ->
  NoDup (map s_date (portfolio_snapshots db)) ->
  NoDup (map s_date (portfolio_snapshots db')).
Proof.
  intros Hsave H. apply save_portfolio_snapshot_inv in Hsave.
  destruct Hsave as (_ & _ & _ & ->). cbn [portfolio_snapshots].
  set (keep := fun r => negb (String.eqb (s_date r) date)).
  rewrite map_app. simpl.
  assert (Hk : NoDup (map s_date (filter keep (portfolio_snapshots db)))).
  { induction (portfolio_snapshots db) as [ | r rows IH]; simpl.
    - constructor.
    - inversion H as [ | x l Hnotin Hrest]; subst.
      destruct (keep r); [ | exact (IH Hrest)].
      simpl. constructor; [ | exact (IH Hrest)].
      intro Hin. apply Hnotin. apply in_map_iff in Hin.
      destruct Hin as (r' & Hd & Hin). apply filter_In in Hin.
      apply in_map_iff. exists r'. tauto. }
  apply NoDup_app; [exact Hk | repeat constructor; intros [] | ].
  intros d Hin [<- | []].
  apply in_map_iff in Hin. destruct Hin as (r & Hd & Hin).
  apply filter_In in Hin. destruct Hin as [_ Hkeep].
  unfold keep in Hkeep. rewrite Hd, String.eqb_refl in Hkeep. discriminate Hkeep.
Qed.

(** C4, as stated, fails for a second call that carries a NaN.  When the
    NaN is the krw_balance (or the btc_balance, or the total_value) the call
    raises IntegrityError and the row of that date still holds the values of
    the first call; when it is the btc_avg_price (or one of the two
    profit_loss values) the call goes through and the row holds NULL there,
    not the argument. *)
Lemma snapshot_with_nan_is_not_stored :
  save_portfolio_snapshot march5_snapshot (noon 5) "2024-03-05"
    PrimFloat.nan 5 4 3 2 1 = raise IntegrityError
  /\ map s_krw_balance
       (filter (fun r => String.eqb (s_date r) "2024-03-05")
               (portfolio_snapshots march5_snapshot)) = [1%float]
  /\ exists db2,
       save_portfolio_snapshot march5_snapshot (noon 5) "2024-03-05"
         6 5 PrimFloat.nan 3 2 1 = ok db2
       /\ map snapshot_dict
            (filter (fun r => String.eqb (s_date r) "2024-03-05")
                    (portfolio_snapshots db2))
          = [ [ ("id", VInt 2); ("date", VStr "2024-03-05");
                ("krw_balance", VFloat 6); ("btc_balance", VFloat 5);
                ("btc_avg_price", VNone); ("total_value", VFloat 3);
                ("profit_loss", VFloat 2); ("profit_loss_percent", VFloat 1);
                ("created_at", VStr "2024-03-05 12:00:00") ] ].
Proof.
  split; [vm_compute; reflexivity | ].
  split; [vm_compute; reflexivity | ].
  eexists. split; vm_compute; reflexivity.
Qed.

(** C4, amended: when the balances and total values of two writes for the
    same date are numbers, both writes go through, and after them the table
    holds exactly one row with that date.  It carries the six values of the
    second write as a REAL column returns them: the balances and the total
    value with a zero unsigned, each of the other three likewise or NULL
    when it is a NaN.  The second write leaves the number of rows and the
    rows of other dates as the first write left them. *)
Theorem snapshot_upsert (db : database) (utc1 utc2 : datetime) (date : string)
    (krw1 btc1 avg1 total1 pl1 plp1 krw2 btc2 avg2 total2 pl2 plp2 : float) :
  PrimFloat.is_nan krw1 = false ->
  PrimFloat.is_nan btc1 = false ->
  PrimFloat.is_nan total1 = false ->
  PrimFloat.is_nan krw2 = false ->
  PrimFloat.is_nan btc2 = false ->
  PrimFloat.is_nan total2 = false ->
  exists db1 db2,
    save_portfolio_snapshot db utc1 date krw1 btc1 avg1 total1 pl1 plp1 = ok db1
    /\ save_portfolio_snapshot db1 utc2 date krw2 btc2 avg2 total2 pl2 plp2
       = ok db2
    /\ filter (fun r => String.eqb (s_date r) date) (portfolio_snapshots db2) =
       [ mk_snapshot (portfolio_snapshots_seq db + 2) date
           (real_column krw2) (real_column btc2) (stored_real avg2)
           (real_column total2) (stored_real pl2) (stored_real plp2)
           (current_timestamp utc2) ]
    /\ List.length (portfolio_snapshots db2) = List.length (portfolio_snapshots db1)
    /\ filter (fun r => negb (String.eqb (s_date r) date)) (portfolio_snapshots db2) =
       filter (fun r => negb (String.eqb (s_date r) date)) (portfolio_snapshots db1).
Proof.
  intros Hk1 Hb1 Ht1 Hk2 Hb2 Ht2.
  destruct (save_portfolio_snapshot_returns db utc1 date krw1 btc1 avg1 total1
              pl1 plp1 Hk1 Hb1 Ht1) as [db1 H1].
  destruct (save_portfolio_snapshot_returns db1 utc2 date krw2 btc2 avg2 total2
              pl2 plp2 Hk2 Hb2 Ht2) as [db2 H2].
  exists db1, db2. split; [exact H1 | ]. split; [exact H2 | ].
  pose proof (snapshot_rows_of_date _ _ _ _ _ _ _ _ _ _ H2) as Hrow.
  pose proof (snapshot_rows_of_other_dates _ _ _ _ _ _ _ _ _ _ H2) as Hrest.
  pose proof (snapshot_rows_of_date _ _ _ _ _ _ _ _ _ _ H1) as Hrow1.
  assert (Hseq : portfolio_snapshots_seq db1 = portfolio_snapshots_seq db + 1).
  { apply save_portfolio_snapshot_inv in H1. destruct H1 as (_ & _ & _ & ->).
    reflexivity. }
  split.
  { rewrite Hrow, Hseq.
    replace (portfolio_snapshots_seq db + 1 + 1)
      with (portfolio_snapshots_seq db + 2) by lia.
    reflexivity. }
  split; [ | exact Hrest].
  apply save_portfolio_snapshot_inv in H2. destruct H2 as (_ & _ & _ & ->).
  cbn [portfolio_snapshots]. rewrite length_app. cbn [List.length].
  rewrite <- (filter_length (fun r => String.eqb (s_date r) date)
                (portfolio_snapshots db1)).
  rewrite Hrow1. cbn [List.length]. lia.
Qed.

Lemma snapshot_upsert_witness :
  exists db1 db2,
    save_portfolio_snapshot init_database (noon 5) "2024-03-05" 1 2 3 4 5 6
    = ok db1
    /\ save_portfolio_snapshot db1 (noon 6) "2024-03-05" 6 5 4 3 2 1 = ok db2
    /\ filter (fun r => String.eqb (s_date r) "2024-03-05")
              (portfolio_snapshots db2) =
       [ mk_snapshot (portfolio_snapshots_seq init_database + 2) "2024-03-05"
           (real_column 6) (real_column 5) (stored_real 4)
           (real_column 3) (stored_real 2) (stored_real 1)
           (current_timestamp (noon 6)) ]
    /\ List.length (portfolio_snapshots db2) = List.length (portfolio_snapshots db1)
    /\ filter (fun r => negb (String.eqb (s_date r) "2024-03-05"))
              (portfolio_snapshots db2) =
       filter (fun r => negb (String.eqb (s_date r) "2024-03-05"))
              (portfolio_snapshots db1).
Proof.
  apply (snapshot_upsert init_database (noon 5) (noon 6) "2024-03-05"
           1 2 3 4 5 6 6 5 4 3 2 1); reflexivity.
Defined.

(** ** Text order *)

Lemma ascii_compare_refl (a : ascii) : Ascii.compare a a = Eq.
Proof. unfold Ascii.compare. apply N.compare_refl. Qed.

Lemma ascii_compare_lt_trans (a b c : ascii) :
  Ascii.compare a b = Lt -> Ascii.compare b c = Lt -> Ascii.compare a c = Lt.
Proof.
  unfold Ascii.compare. rewrite !N.compare_lt_iff. apply N.lt_trans.
Qed.

Lemma string_compare_trans (s1 : string) :
  forall s2 s3,
    String.compare s1 s2 <> Gt -> String.compare s2 s3 <> Gt ->
    String.compare s1 s3 <> Gt.
Proof.
  induction s1 as [ | a s1 IH]; intros [ | b s2] [ | c s3]; simpl;
    try congruence.
  destruct (Ascii.compare a b) eqn:Eab; try congruence;
    destruct (Ascii.compare b c) eqn:Ebc; try congruence; intros H1 H2.
  - apply Ascii.compare_eq_iff in Eab, Ebc. subst.
    rewrite ascii_compare_refl. eapply IH; eassumption.
  - apply Ascii.compare_eq_iff in Eab. subst. rewrite Ebc. congruence.
  - apply Ascii.compare_eq_iff in Ebc. subst. rewrite Eab. congruence.
  - rewrite (ascii_compare_lt_trans _ _ _ Eab Ebc). congruence.
Qed.

Lemma leb_iff_not_gt (s t : string) :
  String.leb s t = true <-> String.compare s t <> Gt.
Proof.
  unfold String.leb. destruct (String.compare s t); split; congruence.
Qed.

Lemma string_leb_trans (s1 s2 s3 : string) :
  String.leb s1 s2 = true -> String.leb s2 s3 = true -> String.leb s1 s3 = true.
Proof.
  rewrite !leb_iff_not_gt. apply string_compare_trans.
Qed.

Lemma string_ltb_not_leb (s t : string) :
  String.ltb s t = true -> String.leb t s = false.
Proof.
  unfold String.ltb, String.leb. rewrite (String.compare_antisym s t).
  destruct (String.compare t s); simpl; congruence.
Qed.

(** ** The first row of a sorted result *)

Section FirstRow.
Context {A : Type}.
Variable before : A -> A -> bool.
Hypothesis before_total : forall x y, before x y = true \/ before y x = true.
Hypothesis before_trans :
  forall x y z, before x y = true -> before y z = true -> before x z = true.

Lemma order_by_first (l : list A) :
  forall r rest, order_by before l = r :: rest ->
    forall x, In x l -> before r x = true.
Proof.
  induction l as [ | x0 l IH]; intros r rest H x Hin.
  - destruct Hin.
  - simpl in H. destruct (order_by before l) as [ | y s] eqn:E.
    + apply order_by_nil_iff in E. subst l. simpl in H.
      injection H as <- _. destruct Hin as [<- | []].
      destruct (before_total x0 x0); assumption.
    + simpl in H. destruct (before x0 y) eqn:Hxy.
      * injection H as <- _. destruct Hin as [<- | Hin].
        -- destruct (before_total x0 x0); assumption.
        -- eapply before_trans; [exact Hxy | ].
           eapply IH; [reflexivity | exact Hin].
      * injection H as <- _. destruct Hin as [<- | Hin].
        -- destruct (before_total x0 y) as [T | T]; [congruence | exact T].
        -- eapply IH; [reflexivity | exact Hin].
Qed.

End FirstRow.

(** A row appended with a key beyond every other row's comes first. *)
Lemma order_by_newest {A : Type} (before : A -> A -> bool) (l : list A) (x : A) :
  (forall y, In y l -> before y x = false) ->
  exists rest, order_by before (l ++ [x]) = x :: rest.
Proof.
  induction l as [ | y l IH]; intro H; simpl.
  - exists []. reflexivity.
  - destruct IH as [rest E].
    + intros z Hz. apply H. right. exact Hz.
    + rewrite E. simpl. rewrite (H y (or_introl eq_refl)).
      eexists. reflexivity.
Qed.

Lemma desc_total {A : Type} (key : A -> string) (x y : A) :
  desc key x y = true \/ desc key y x = true.
Proof. unfold desc. apply String.leb_total. Qed.

Lemma desc_trans {A : Type} (key : A -> string) (x y z : A) :
  desc key x y = true -> desc key y z = true -> desc key x z = true.
Proof.
  unfold desc. intros H1 H2. eapply string_leb_trans; eassumption.
Qed.

(** ** Market context *)

Section LogFacts.
Context {R : Runtime}.

Lemma context_of_row (r : log_row) :
  match decode_context (log_dict r) with
  | inr d => d
  | inl _ => minimal_context (log_dict r)
  end = context_of r.
Proof.
  unfold decode_context, minimal_context, context_of, dict_get, py_json_loads.
  cbn [log_dict lookup String.eqb Ascii.eqb Bool.eqb].
  destruct (json_loads (l_market_data_json r)) as [[ | b | z | f | s | l | d] | ];
    reflexivity.
Qed.

Lemma limit_one {A : Type} (l : list A) :
  limit 1 l = match l with [] => [] | x :: _ => [x] end.
Proof. destruct l; reflexivity. Qed.

(** C6: [get_market_context] returns the empty mapping when no log has a
    timestamp at or before the query; otherwise it picks a log whose
    timestamp is at or before the query and not before that of any other
    such log, and returns its price, technical indicators, fear/greed
    series and timestamp when the market-data blob decodes to a mapping,
    and just its price and timestamp when it does not.  The function is
    total: it has no raising outcome. *)
Theorem market_context_cases (db : database) (timestamp : string) :
  (get_market_context db timestamp = []
   /\ forall r, In r (trading_logs db) ->
        String.leb (l_timestamp r) timestamp = false)
  \/ exists r,
       In r (trading_logs db)
       /\ String.leb (l_timestamp r) timestamp = true
       /\ (forall r', In r' (trading_logs db) ->
             String.leb (l_timestamp r') timestamp = true ->
             String.leb (l_timestamp r') (l_timestamp r) = true)
       /\ get_market_context db timestamp =
          match json_loads (l_market_data_json r) with
          | Some (VDict market_data) =>
              [ ("price", l_current_price r);
                ("technical_indicators",
                 dict_get market_data "technical_indicators" (VDict []));
                ("fear_greed",
                 dict_get market_data "fear_greed_index" (VList []));
                ("timestamp", VStr (l_timestamp r)) ]
          | _ =>
              [ ("price", l_current_price r);
                ("timestamp", VStr (l_timestamp r)) ]
          end.
Proof.
  unfold get_market_context, logs_up_to. rewrite limit_one.
  set (hits := filter (fun r => String.leb (l_timestamp r) timestamp)
                      (trading_logs db)).
  destruct (order_by (desc l_timestamp) hits) as [ | r rest] eqn:E.
  - left. split; [reflexivity | ].
    apply order_by_nil_iff in E. intros r Hin.
    destruct (String.leb (l_timestamp r) timestamp) eqn:Hle; [ | reflexivity].
    assert (Hr : In r hits) by (apply filter_In; split; assumption).
    rewrite E in Hr. destruct Hr.
  - right. exists r.
    assert (Hr : In r hits).
    { apply (order_by_In (desc l_timestamp)). rewrite E. left. reflexivity. }
    apply filter_In in Hr. destruct Hr as [Hin Hle].
    split; [exact Hin | ]. split; [exact Hle | ]. split.
    + intros r' Hin' Hle'.
      apply (order_by_first (desc l_timestamp)
               (desc_total l_timestamp) (desc_trans l_timestamp) hits r rest E).
      apply filter_In. split; assumption.
    + apply context_of_row.
Qed.

End LogFacts.

(** ** Writing and reading back an analysis log *)

Section RoundTrip.
Context {R : Runtime}.

Lemma save_analysis_log_inv (db : database) (utc : datetime)
    (market_data ai_analysis timestamp : pyval) (analysis_type : string)
    (db' : database) (log_id : Z) :
  save_analysis_log db utc market_data ai_analysis timestamp analysis_type
  = ok (db', log_id) ->
  exists status a_dec a_rea a_con b_dec b_rea b_con row,
    py_get market_data "investment_status" (VDict []) = ok status
    /\ py_get ai_analysis "decision" (VStr "") = ok a_dec
    /\ py_get ai_analysis "reason" (VStr "") = ok a_rea
    /\ py_get ai_analysis "confidence" (VStr "") = ok a_con
    /\ sqlite_bind a_dec = ok b_dec
    /\ sqlite_bind a_rea = ok b_rea
    /\ sqlite_bind a_con = ok b_con
    /\ text_affinity b_dec = Some (l_ai_decision row)
    /\ l_ai_reason row = text_affinity b_rea
    /\ l_ai_confidence row = text_affinity b_con
    /\ l_investment_status_json row = json_dumps status
    /\ l_ai_analysis_full_json row = json_dumps ai_analysis
    /\ l_market_data_json row = json_dumps market_data
    /\ l_created_at row = current_timestamp utc
    /\ l_id row = log_id
    /\ trading_logs db' = (trading_logs db ++ [row])%list.
Proof.
  intro H. unfold save_analysis_log in H.
  do 19 (cbv beta zeta in H; bind_inv H).
  cbv beta zeta in H. injection H as <- <-.
  match goal with
  | G : py_get _ "decision" _ = ok ?a, B : sqlite_bind ?a = ok ?b,
    N : not_null (text_affinity ?b) = ok _ |- _ =>
      unfold not_null in N; destruct (text_affinity b) eqn:Hdec;
      [injection N as -> | discriminate N]
  end.
  do 7 eexists.
  exists (mk_log (trading_logs_seq db + 1) a15 a16
                 (real_affinity a9) (real_affinity a10) (real_affinity a11)
                 (json_dumps a) a17 (text_affinity a13) (text_affinity a14)
                 (json_dumps ai_analysis) (json_dumps market_data)
                 analysis_type (current_timestamp utc)).
  cbn [l_ai_decision l_ai_reason l_ai_confidence l_investment_status_json
       l_ai_analysis_full_json l_market_data_json l_created_at l_id].
  repeat match goal with
         | |- _ /\ _ => split
         end; try eassumption; reflexivity.
Qed.

Lemma bind_int_fits (n : Z) :
  - 2 ^ 63 <= n < 2 ^ 63 -> bind_int n = ok n.
Proof.
  intro H. unfold bind_int.
  replace (- 2 ^ 63 <=? n) with true by (symmetry; apply Z.leb_le; lia).
  replace (n <? 2 ^ 63) with true by (symmetry; apply Z.ltb_lt; lia).
  reflexivity.
Qed.

Lemma bind_int_one : bind_int 1 = ok 1.
Proof. reflexivity. Qed.

Lemma stored_text (s : string) (b : pyval) :
  sqlite_bind (VStr s) = ok b -> text_affinity b = Some s.
Proof. simpl. intro H. injection H as <-. reflexivity. Qed.

(** C8, amended: when [save_analysis_log] returns and the new row's
    creation second is later than that of every log already stored,
    [get_recent_logs(1)] yields exactly the written record: it carries the
    returned id, its three blobs are the serialized investment status,
    analysis and market data, and its decision, reason and confidence are
    the input's fields whenever these are strings (the empty string when
    the field is absent). *)
Theorem analysis_log_round_trip (db : database) (utc : datetime)
    (market_data ai_analysis timestamp : pyval) (analysis_type : string)
    (db' : database) (log_id : Z) :
  save_analysis_log db utc market_data ai_analysis timestamp analysis_type
  = ok (db', log_id) ->
  (forall r, In r (trading_logs db) ->
     String.ltb (l_created_at r) (current_timestamp utc) = true) ->
  exists status record,
    py_get market_data "investment_status" (VDict []) = ok status
    /\ get_recent_logs db' 1 = ok [record]
    /\ lookup "id" record = Some (VInt log_id)
    /\ lookup "investment_status_json" record = Some (VStr (json_dumps status))
    /\ lookup "ai_analysis_full_json" record = Some (VStr (json_dumps ai_analysis))
    /\ lookup "market_data_json" record = Some (VStr (json_dumps market_data))
    /\ (forall s, py_get ai_analysis "decision" (VStr "") = ok (VStr s) ->
          lookup "ai_decision" record = Some (VStr s))
    /\ (forall s, py_get ai_analysis "reason" (VStr "") = ok (VStr s) ->
          lookup "ai_reason" record = Some (VStr s))
    /\ (forall s, py_get ai_analysis "confidence" (VStr "") = ok (VStr s) ->
          lookup "ai_confidence" record = Some (VStr s)).
Proof.
  intros Hsave Hfresh.
  destruct (save_analysis_log_inv _ _ _ _ _ _ _ _ Hsave)
    as (status & a_dec & a_rea & a_con & b_dec & b_rea & b_con & row
        & Hstatus & Hdec & Hrea & Hcon & Bdec & Brea & Bcon
        & Tdec & Trea & Tcon & Jstatus & Jai & Jmd & Hcreated & Hid & Hlogs).
  destruct (order_by_newest (desc l_created_at) (trading_logs db) row)
    as [rest Hfirst].
  { intros y Hy. unfold desc. apply string_ltb_not_leb.
    rewrite Hcreated. apply Hfresh. exact Hy. }
  exists status, (log_dict row).
  split; [exact Hstatus | ].
  split.
  { unfold get_recent_logs. rewrite bind_int_one, Hlogs. cbn [bind ok].
    rewrite Hfirst. reflexivity. }
  cbn [log_dict lookup String.eqb Ascii.eqb Bool.eqb].
  rewrite Hid, Jstatus, Jai, Jmd.
  do 4 (split; [reflexivity | ]).
  split; [ | split]; intros s Hs.
  - rewrite Hs in Hdec. injection Hdec as <-.
    rewrite (stored_text _ _ Bdec) in Tdec. injection Tdec as <-. reflexivity.
  - rewrite Hs in Hrea. injection Hrea as <-.
    rewrite Trea, (stored_text _ _ Brea). reflexivity.
  - rewrite Hs in Hcon. injection Hcon as <-.
    rewrite Tcon, (stored_text _ _ Bcon). reflexivity.
Qed.

End RoundTrip.

(** C8, as stated, fails: of two logs written within one second,
    [get_recent_logs(1)] after the second write returns the first one, since
    both carry the same created_at and the scan meets the older row first.
    The log just written said sell; the record read back says buy. *)
Lemma recent_log_is_not_the_last_written :
  exists db2 record,
    two_logs_in_a_second = ok (db2, 2)
    /\ get_recent_logs db2 1 = ok [record]
    /\ lookup "id" record = Some (VInt 1)
    /\ lookup "ai_decision" record = Some (VStr "buy")
    /\ lookup "ai_decision" record <> Some (VStr "sell").
Proof.
  eexists. eexists.
  split; [vm_compute; reflexivity | ].
  split; [vm_compute; reflexivity | ].
  split; [reflexivity | ]. split; [reflexivity | ].
  simpl. intro H. discriminate H.
Qed.

(** A null decision is refused by the NOT NULL constraint: there is then no
    record to read back. *)
Lemma null_decision_is_refused :
  save_analysis_log (R := example_runtime) init_database (noon 5)
    (VDict []) (VDict [("decision", VNone)]) (VStr "2024-03-05T12:00:00")
    "enhanced" = raise IntegrityError.
Proof. vm_compute. reflexivity. Qed.

Lemma analysis_log_round_trip_witness :
  exists status record,
    py_get (VDict []) "investment_status" (VDict []) = ok status
    /\ get_recent_logs log_db2 1 = ok [record]
    /\ lookup "id" record = Some (VInt 2)
    /\ lookup "investment_status_json" record =
       Some (VStr (json_dumps (Runtime := example_runtime) status))
    /\ lookup "ai_analysis_full_json" record =
       Some (VStr (json_dumps (Runtime := example_runtime)
                     (VDict [("decision", VStr "sell")])))
    /\ lookup "market_data_json" record =
       Some (VStr (json_dumps (Runtime := example_runtime) (VDict [])))
    /\ (forall s, py_get (VDict [("decision", VStr "sell")]) "decision" (VStr "")
                  = ok (VStr s) ->
          lookup "ai_decision" record = Some (VStr s))
    /\ (forall s, py_get (VDict [("decision", VStr "sell")]) "reason" (VStr "")
                  = ok (VStr s) ->
          lookup "ai_reason" record = Some (VStr s))
    /\ (forall s, py_get (VDict [("decision", VStr "sell")]) "confidence" (VStr "")
                  = ok (VStr s) ->
          lookup "ai_confidence" record = Some (VStr s)).
Proof.
  apply (analysis_log_round_trip (R := example_runtime) log_db1 (noon 6)
           (VDict []) (VDict [("decision", VStr "sell")])
           (VStr "2024-03-06T12:00:00") "enhanced" log_db2 2).
  - vm_compute. reflexivity.
  - intros r Hin. simpl in Hin. destruct Hin as [<- | []].
    vm_compute. reflexivity.
Defined.

(** ** Migration *)

Lemma bind_raise_inv {A B : Type} (c : result A) (k : A -> result B) (e : exn) :
  bind c k = raise e -> c = raise e \/ exists a, c = ok a /\ k a = raise e.
Proof.
  destruct c as [e' | a]; simpl; intro H.
  - left. injection H as ->. reflexivity.
  - right. exists a. split; [reflexivity | exact H].
Qed.

Lemma py_get_raises (obj : pyval) (k : string) (default : pyval) (e : exn) :
  py_get obj k default = raise e -> e = AttributeError.
Proof.
  destruct obj; simpl; intro H; try discriminate H;
    injection H as <-; reflexivity.
Qed.

Lemma sqlite_bind_raises (v : pyval) (e : exn) :
  sqlite_bind v = raise e -> e = OverflowError \/ e = BindingError.
Proof.
  destruct v; simpl; intro H; try discriminate H.
  - match type of H with
    | context [if ?c then _ else _] => destruct c
    end; [discriminate H | ].
    injection H as <-. left. reflexivity.
  - injection H as <-. right. reflexivity.
  - injection H as <-. right. reflexivity.
Qed.

Lemma not_null_raises {A : Type} (o : option A) (e : exn) :
  not_null o = raise e -> e = IntegrityError.
Proof.
  destruct o; simpl; intro H; [discriminate H | ].
  injection H as <-. reflexivity.
Qed.

Section MigrationFacts.
Context {R : Runtime}.

Lemma py_json_loads_raises (v : pyval) (e : exn) :
  py_json_loads v = raise e -> e = JSONDecodeError \/ e = TypeError.
Proof.
  destruct v; simpl; intro H; try (injection H as <-; right; reflexivity).
  destruct (json_loads s); [discriminate H | ].
  injection H as <-. left. reflexivity.
Qed.

Ltac raise_leaf H :=
  first
    [ apply py_get_raises in H; subst; discriminate
    | apply sqlite_bind_raises in H; destruct H; subst; discriminate
    | apply not_null_raises in H; subst; discriminate
    | apply py_json_loads_raises in H; destruct H; subst; discriminate ].

Ltac raise_inv H :=
  cbv beta zeta in H;
  apply bind_raise_inv in H;
  destruct H as [H | (? & ? & H)]; [raise_leaf H | ].

(** Nothing raised while a line is imported is a FileNotFoundError. *)
Lemma import_line_error (db : database) (now utc : datetime) (text : string)
    (e : exn) :
  import_line db now utc text = raise e -> e <> FileNotFoundError.
Proof.
  intro H. unfold import_line in H.
  do 4 raise_inv H.
  unfold save_analysis_log in H.
  do 17 raise_inv H.
  cbv beta zeta in H. apply bind_raise_inv in H.
  destruct H as [H | (? & ? & H)].
  { destruct (is_none _); [ | discriminate H].
    injection H as <-. discriminate. }
  raise_inv H.
  discriminate H.
Qed.

Lemma migrate_lines_stops (clock : nat -> datetime * datetime)
    (pre : list string) (line : string) (post : list string) (e : exn) :
  forall (i : nat) (db db1 : database) (out1 : list event),
    migrate_lines clock i db pre = (db1, out1, None) ->
    nonempty (strip line) = true ->
    import_line db1 (fst (clock (i + List.length pre)%nat))
                (snd (clock (i + List.length pre)%nat)) (strip line) = raise e ->
    migrate_lines clock i db (pre ++ line :: post) = (db1, out1, Some e).
Proof.
  induction pre as [ | l pre IH]; intros i db db1 out1 Hpre Hline Hfail.
  - simpl in *. injection Hpre as <- <-.
    rewrite Nat.add_0_r in Hfail. rewrite Hline, Hfail. reflexivity.
  - simpl in Hpre |- *.
    replace (i + List.length (l :: pre))%nat
      with (S i + List.length pre)%nat in Hfail by (simpl; lia).
    destruct (nonempty (strip l)).
    + destruct (import_line db (fst (clock i)) (snd (clock i)) (strip l))
        as [e' | [db' log_id]]; [discriminate Hpre | ].
      destruct (migrate_lines clock (S i) db' pre) as [[db'' out] r] eqn:E.
      injection Hpre as <- <- ->.
      rewrite (IH (S i) db' db'' out E Hline Hfail). reflexivity.
    + apply IH; assumption.
Qed.

Lemma nonempty_true (s : string) : nonempty s = true <-> s <> "".
Proof.
  destruct s; simpl; split; intro H.
  - discriminate H.
  - contradiction H. reflexivity.
  - discriminate.
  - reflexivity.
Qed.

Lemma nonempty_false (s : string) : nonempty s = false <-> s = "".
Proof. destruct s; simpl; split; intro H; try reflexivity; discriminate H. Qed.

(** The loop body does to a line what the specification says. *)
Lemma import_line_forward (db : database) (now utc : datetime) (text : string) :
  import_line db now utc text = forward_line db now utc text.
Proof.
  unfold import_line, forward_line, py_json_loads.
  destruct (json_loads text) as [[ | b | z | f | s | l | d] | ]; reflexivity.
Qed.

Lemma migrate_lines_forwarded (clock : nat -> datetime * datetime)
    (i : nat) (db : database) (lines : list string)
    (db' : database) (out : list event) :
  forwarded clock i db lines db' out ->
  migrate_lines clock i db lines = (db', out, None).
Proof.
  induction 1 as [i db | i db line rest db' out Hblank _ IH
                  | i db line rest db1 log_id db' out Hline Hsave _ IH]; simpl.
  - reflexivity.
  - apply nonempty_false in Hblank. rewrite Hblank. exact IH.
  - apply nonempty_true in Hline. rewrite Hline.
    rewrite import_line_forward, Hsave. unfold ok. cbv beta iota.
    rewrite IH. reflexivity.
Qed.

Lemma migrate_lines_completed (clock : nat -> datetime * datetime)
    (lines : list string) :
  forall (i : nat) (db db' : database) (out : list event),
    migrate_lines clock i db lines = (db', out, None) ->
    forwarded clock i db lines db' out.
Proof.
  induction lines as [ | line rest IH]; intros i db db' out H; simpl in H.
  - injection H as <- <-. constructor.
  - destruct (nonempty (strip line)) eqn:Hline.
    + rewrite import_line_forward in H.
      destruct (forward_line db (fst (clock i)) (snd (clock i)) (strip line))
        as [e | [db1 log_id]] eqn:Hsave; [discriminate H | ].
      destruct (migrate_lines clock (S i) db1 rest) as [[db2 out2] r] eqn:E.
      injection H as <- <- ->.
      apply forwarded_line with (db1 := db1).
      * apply nonempty_true. exact Hline.
      * exact Hsave.
      * apply IH. exact E.
    + apply forwarded_blank.
      * apply nonempty_false. exact Hline.
      * apply IH. exact H.
Qed.

(** C9: a missing file is reported and the call returns, the database
    untouched.  When every line of the file is blank or decodes to a
    mapping that [save_analysis_log] stores, given its market_data,
    ai_analysis and timestamp with the missing ones replaced by empty
    mappings and by the current local time, the call leaves the database
    these writes build and reports their ids and the completion; and a call
    that reports completion has forwarded every line that is not blank in
    this way.  When a later line that is not blank fails (it does not
    decode, is not a mapping, or the store refuses it), the call returns
    with the database as the lines before it left it and reports that error
    last; nothing of the lines after it is read. *)
Theorem migrate_from_json_outcomes (db : database) (path : string)
    (clock : nat -> datetime * datetime)
    (pre : list string) (line : string) (post : list string)
    (db1 : database) (out1 : list event) (e : exn) :
  forwarded clock 0 db pre db1 out1 ->
  strip line <> "" ->
  forward_line db1 (fst (clock (List.length pre))) (snd (clock (List.length pre)))
               (strip line) = raise e ->
  migrate_from_json db path (raise FileNotFoundError) clock
    = (db, [FileNotFound path])
  /\ migrate_from_json db path (ok pre) clock
     = (db1, (out1 ++ [Migrated path])%list)
  /\ migrate_from_json db path (ok (pre ++ line :: post)%list) clock
     = (db1, (out1 ++ [MigrationError e])%list)
  /\ (forall lines db' out,
        migrate_from_json db path (ok lines) clock
        = (db', (out ++ [Migrated path])%list) ->
        forwarded clock 0 db lines db' out).
Proof.
  intros Hpre Hline Hfail.
  pose proof (migrate_lines_forwarded _ _ _ _ _ _ Hpre) as Hrun.
  split; [reflexivity | ].
  split.
  { unfold migrate_from_json, ok. rewrite Hrun. reflexivity. }
  split.
  { unfold migrate_from_json, ok.
    apply nonempty_true in Hline. rewrite <- import_line_forward in Hfail.
    rewrite (migrate_lines_stops clock pre line post e 0 db db1 out1 Hrun Hline Hfail).
    pose proof (import_line_error _ _ _ _ _ Hfail) as Hne.
    destruct e; try reflexivity. contradiction Hne. reflexivity. }
  intros lines db' out H. unfold migrate_from_json, ok in H.
  destruct (migrate_lines clock 0 db lines) as [[db2 out2] r] eqn:E.
  destruct r as [e' | ].
  - injection H as _ H. apply app_inj_tail in H. destruct H as [_ H].
    destruct e'; discriminate H.
  - injection H as <- H. apply app_inj_tail in H. destruct H as [<- _].
    apply migrate_lines_completed. exact E.
Qed.

End MigrationFacts.

Lemma migrate_from_json_outcomes_witness :
  migrate_from_json (R := example_runtime) init_database "legacy.jsonl"
    (raise FileNotFoundError) example_clock
    = (init_database, [FileNotFound "legacy.jsonl"])
  /\ migrate_from_json (R := example_runtime) init_database "legacy.jsonl"
       (ok ["{}"; nbsp_line]) example_clock
     = (legacy_db1, ([LogSaved 1] ++ [Migrated "legacy.jsonl"])%list)
  /\ migrate_from_json (R := example_runtime) init_database "legacy.jsonl"
       (ok (["{}"; nbsp_line] ++ "[]" :: ["{}"])%list) example_clock
     = (legacy_db1, ([LogSaved 1] ++ [MigrationError AttributeError])%list)
  /\ (forall lines db' out,
        migrate_from_json (R := example_runtime) init_database "legacy.jsonl"
          (ok lines) example_clock
        = (db', (out ++ [Migrated "legacy.jsonl"])%list) ->
        forwarded (R := example_runtime) example_clock 0 init_database lines
          db' out).
Proof.
  apply (migrate_from_json_outcomes (R := example_runtime) init_database
           "legacy.jsonl" example_clock ["{}"; nbsp_line] "[]" ["{}"]
           legacy_db1 [LogSaved 1] AttributeError).
  - apply forwarded_line with (db1 := legacy_db1).
    + vm_compute. intro H. discriminate H.
    + vm_compute. reflexivity.
    + apply forwarded_blank.
      * vm_compute. reflexivity.
      * apply forwarded_end.
  - vm_compute. intro H. discriminate H.
  - vm_compute. reflexivity.
Defined.

(** * Further properties *)

(** ** Sorted results *)

Section SortedResults.
Context {A : Type}.
Variable before : A -> A -> bool.
Hypothesis before_total : forall x y, before x y = true \/ before y x = true.
Hypothesis before_trans :
  forall x y z, before x y = true -> before y z = true -> before x z = true.

Lemma insert_sorted_sorted (x : A) (l : list A) :
  sorted_by before l -> sorted_by before (insert_sorted before x l).
Proof.
  unfold sorted_by. induction l as [ | y l IH]; intro H; simpl.
  - repeat constructor.
  - inversion H as [ | y' l' Hl Hy]; subst.
    destruct (before x y) eqn:Hxy.
    + constructor; [exact H | ].
      constructor; [exact Hxy | ].
      rewrite Forall_forall in Hy |- *. intros z Hz.
      eapply before_trans; [exact Hxy | apply Hy; exact Hz].
    + constructor; [apply IH; exact Hl | ].
      rewrite Forall_forall in Hy |- *. intros z Hz.
      apply insert_sorted_In in Hz. destruct Hz as [-> | Hz].
      * destruct (before_total x y) as [T | T]; [congruence | exact T].
      * apply Hy. exact Hz.
Qed.

Lemma order_by_sorted (l : list A) : sorted_by before (order_by before l).
Proof.
  induction l as [ | x l IH]; simpl.
  - constructor.
  - apply insert_sorted_sorted. exact IH.
Qed.

End SortedResults.

Lemma asc_total {A : Type} (key : A -> string) (x y : A) :
  asc key x y = true \/ asc key y x = true.
Proof. unfold asc. apply String.leb_total. Qed.

Lemma asc_trans {A : Type} (key : A -> string) (x y z : A) :
  asc key x y = true -> asc key y z = true -> asc key x z = true.
Proof.
  unfold asc. intros H1 H2. eapply string_leb_trans; eassumption.
Qed.

Lemma firstn_In {A : Type} (n : nat) (l : list A) (x : A) :
  In x (firstn n l) -> In x l.
Proof.
  revert l. induction n as [ | n IH]; intros [ | y l]; simpl; try tauto.
  intros [-> | H]; [left; reflexivity | right; apply IH; exact H].
Qed.

Lemma sorted_firstn {A : Type} (before : A -> A -> bool) (n : nat) (l : list A) :
  sorted_by before l -> sorted_by before (firstn n l).
Proof.
  unfold sorted_by. revert l. induction n as [ | n IH]; intros l H; simpl.
  - constructor.
  - destruct l as [ | x l]; [constructor | ].
    inversion H as [ | x' l' Hl Hx]; subst.
    constructor; [apply IH; exact Hl | ].
    rewrite Forall_forall in Hx |- *. intros z Hz.
    apply Hx. eapply firstn_In; exact Hz.
Qed.

Lemma sorted_limit {A : Type} (before : A -> A -> bool) (n : Z) (l : list A) :
  sorted_by before l -> sorted_by before (limit n l).
Proof.
  intro H. unfold limit. destruct (n <? 0); [exact H | ].
  apply sorted_firstn. exact H.
Qed.

Lemma limit_length {A : Type} (n : Z) (l : list A) :
  0 <= n ->
  Z.of_nat (List.length (limit n l)) = Z.min n (Z.of_nat (List.length l)).
Proof.
  intro Hn. unfold limit.
  replace (n <? 0) with false by (symmetry; apply Z.ltb_ge; exact Hn).
  rewrite length_firstn. lia.
Qed.

Lemma limit_In {A : Type} (n : Z) (l : list A) (x : A) :
  In x (limit n l) -> In x l.
Proof.
  unfold limit. destruct (n <? 0); [trivial | ].
  apply firstn_In.
Qed.

(** ** The trades of a window *)

Lemma trades_in_window_iff (db : database) (start_date end_date : datetime)
    (r : trade_row) :
  In r (trades_in_window db start_date end_date) <->
  In r (actual_trades db)
  /\ t_success r = true
  /\ String.leb (isoformat start_date) (t_created_at r) = true
  /\ String.leb (t_created_at r) (isoformat end_date) = true.
Proof.
  rewrite trades_in_window_filter, order_by_In, filter_In.
  unfold in_window, between. rewrite !andb_true_iff. tauto.
Qed.

(** X1: the analysis loads exactly the successful trades whose creation
    time lies between the two bounds, each once, oldest first. *)
Theorem trades_in_window_spec (db : database) (start_date end_date : datetime) :
  (forall r, In r (trades_in_window db start_date end_date) <->
             In r (actual_trades db)
             /\ t_success r = true
             /\ String.leb (isoformat start_date) (t_created_at r) = true
             /\ String.leb (t_created_at r) (isoformat end_date) = true)
  /\ List.length (trades_in_window db start_date end_date) =
     List.length (filter (in_window start_date end_date) (actual_trades db))
  /\ sorted_by (asc t_created_at) (trades_in_window db start_date end_date).
Proof.
  split; [ | split].
  - intro r. apply trades_in_window_iff.
  - rewrite trades_in_window_filter. apply order_by_length.
  - apply order_by_sorted.
    + apply asc_total.
    + apply asc_trans.
Qed.

(** ** What the replay computes *)

Lemma profits_cons_sell (r : trade_row) (rows : list trade_row) :
  is_sell r = true -> profits (r :: rows) = sell_profit r :: profits rows.
Proof. intro H. unfold profits. simpl. rewrite H. reflexivity. Qed.

Lemma profits_cons_other (r : trade_row) (rows : list trade_row) :
  is_sell r = false -> profits (r :: rows) = profits rows.
Proof. intro H. unfold profits. simpl. rewrite H. reflexivity. Qed.

(** On rows of the table the replay has two outcomes: it raises
    ZeroDivisionError when a buy at price zero is among them, and otherwise
    returns the folded profits and the two counts. *)
Lemma replay_outcome (rows : list trade_row) :
  forall (st : replay_state) (p : float),
    numeric st ->
    float_value (total_profit_loss st) = ok p ->
    (existsb zero_price_buy rows = true
     /\ replay st (map trade_tuple rows) = raise ZeroDivisionError)
    \/ (existsb zero_price_buy rows = false
        /\ exists b k,
             replay st (map trade_tuple rows) =
             ok (mk_replay b k
                   (match profits rows with
                    | [] => total_profit_loss st
                    | ps => VFloat (fold_left PrimFloat.add ps p)
                    end)
                   (successful_trades st
                    + Z.of_nat (List.length
                                  (filter (PrimFloat.ltb 0%float) (profits rows))))
                   (failed_trades st
                    + Z.of_nat (List.length
                                  (filter (fun x => negb (PrimFloat.ltb 0%float x))
                                          (profits rows)))))).
Proof.
  induction rows as [ | r rows IH]; intros st p Hn Hp.
  - right. split; [reflexivity | ].
    exists (btc_balance st), (krw_balance st). simpl.
    rewrite !Z.add_0_r. destruct st; reflexivity.
  - destruct Hn as ([b Hb] & [k Hk] & _).
    simpl map. simpl replay. simpl existsb. unfold zero_price_buy at 1 3.
    destruct (String.eqb_spec (t_trade_type r) "buy") as [Hbuy | Hbuy].
    + (* a buy *)
      assert (Hisbuy : is_buy r = true)
        by (unfold is_buy; rewrite Hbuy; reflexivity).
      assert (Hnot : is_sell r = false)
        by (unfold is_sell; rewrite Hbuy; reflexivity).
      rewrite (replay_step_buy st r b k Hbuy Hb Hk), Hisbuy. simpl andb.
      destruct (PrimFloat.eqb (t_price r) 0%float).
      * left. split; reflexivity.
      * simpl orb. simpl bind. rewrite (profits_cons_other _ _ Hnot).
        apply (IH (mk_replay _ _ (total_profit_loss st) _ _) p).
        -- split; [ | split]; simpl; has_value.
        -- exact Hp.
    + assert (Hisbuy : is_buy r = false)
        by (unfold is_buy; apply String.eqb_neq; exact Hbuy).
      rewrite Hisbuy. simpl andb. simpl orb.
      destruct (String.eqb_spec (t_trade_type r) "sell") as [Hsell | Hsell].
      * (* a sell *)
        assert (Hissell : is_sell r = true)
          by (unfold is_sell; rewrite Hsell; reflexivity).
        rewrite (replay_step_sell st r b k p Hsell Hb Hk Hp). simpl bind.
        rewrite (profits_cons_sell _ _ Hissell).
        match goal with
        | |- context [replay ?s _] =>
            destruct (IH s (PrimFloat.add p (sell_profit r))) as [[E1 E2] | [E1 (b' & k' & E2)]];
              [split; [ | split]; simpl; has_value | reflexivity | | ]
        end.
        -- left. split; assumption.
        -- right. split; [exact E1 | ]. exists b', k'. rewrite E2.
           cbn [total_profit_loss successful_trades failed_trades filter].
           f_equal. f_equal.
           ++ destruct (profits rows); reflexivity.
           ++ destruct (PrimFloat.ltb 0%float (sell_profit r));
                cbn [negb List.length]; lia.
           ++ destruct (PrimFloat.ltb 0%float (sell_profit r));
                cbn [negb List.length]; lia.
      * (* neither *)
        assert (Hnot : is_sell r = false)
          by (unfold is_sell; apply String.eqb_neq; exact Hsell).
        rewrite (replay_step_other st r Hisbuy Hnot). simpl bind.
        rewrite (profits_cons_other _ _ Hnot).
        apply IH; [ | exact Hp].
        split; [ | split]; has_value.
Qed.

(** X2: over a window that holds trades, the reported total_profit_loss is
    the sum, taken oldest first from 0, of total_value - amount * price over
    the window's sells (the integer 0 when it has no sell); successful_trades
    counts the sells whose profit is above 0 and failed_trades the others.
    Buys contribute nothing to the three figures. *)
Theorem report_closed_form (db : database) (now : datetime) (days_back : Z)
    (start_date : datetime) (d : dict) :
  minus_days now days_back = ok start_date ->
  trades_in_window db start_date now <> [] ->
  analyze_trading_performance db now days_back = ok d ->
  lookup "total_profit_loss" d =
    Some (match profits (trades_in_window db start_date now) with
          | [] => VInt 0
          | ps => VFloat (fold_left PrimFloat.add ps 0%float)
          end)
  /\ lookup "successful_trades" d =
     Some (VInt (Z.of_nat
                   (List.length
                      (filter (PrimFloat.ltb 0%float)
                              (profits (trades_in_window db start_date now))))))
  /\ lookup "failed_trades" d =
     Some (VInt (Z.of_nat
                   (List.length
                      (filter (fun x => negb (PrimFloat.ltb 0%float x))
                              (profits (trades_in_window db start_date now)))))).
Proof.
  intros Hstart Hne H.
  unfold analyze_trading_performance in H. rewrite Hstart in H. simpl bind in H.
  destruct (analyze_traded _ _ _ _ Hne H) as (st & q & Hst & _ & ->).
  unfold replay_window in Hst.
  destruct float_value_init as [H0 _].
  destruct (replay_outcome (trades_in_window db start_date now)
              replay_init 0%float numeric_init H0)
    as [[_ E] | [_ (b & k & E)]]; rewrite E in Hst; [discriminate Hst | ].
  injection Hst as <-.
  cbn [lookup String.eqb Ascii.eqb Bool.eqb
       total_profit_loss successful_trades failed_trades replay_init].
  rewrite ?Z.add_0_l. repeat split; reflexivity.
Qed.

Lemma report_closed_form_witness :
  lookup "total_profit_loss" buy_then_sell_report =
    Some (match profits (trades_in_window buy_then_sell (noon 1) (noon 8)) with
          | [] => VInt 0
          | ps => VFloat (fold_left PrimFloat.add ps 0%float)
          end)
  /\ lookup "successful_trades" buy_then_sell_report =
     Some (VInt (Z.of_nat
                   (List.length
                      (filter (PrimFloat.ltb 0%float)
                              (profits (trades_in_window buy_then_sell (noon 1) (noon 8)))))))
  /\ lookup "failed_trades" buy_then_sell_report =
     Some (VInt (Z.of_nat
                   (List.length
                      (filter (fun x => negb (PrimFloat.ltb 0%float x))
                              (profits (trades_in_window buy_then_sell (noon 1) (noon 8))))))).
Proof.
  apply (report_closed_form buy_then_sell (noon 8) 7 (noon 1) buy_then_sell_report).
  - vm_compute. reflexivity.
  - vm_compute. intro H. discriminate H.
  - vm_compute. reflexivity.
Defined.

(** X3: a successful buy recorded at price 0 inside the window makes the
    analysis raise ZeroDivisionError, wherever it stands among the trades. *)
Theorem zero_price_buy_raises (db : database) (now : datetime) (days_back : Z)
    (start_date : datetime) :
  minus_days now days_back = ok start_date ->
  existsb zero_price_buy (trades_in_window db start_date now) = true ->
  analyze_trading_performance db now days_back = raise ZeroDivisionError.
Proof.
  intros Hstart Hzero.
  unfold analyze_trading_performance. rewrite Hstart. simpl bind.
  unfold analyze_window.
  destruct float_value_init as [H0 _].
  destruct (replay_outcome (trades_in_window db start_date now)
              replay_init 0%float numeric_init H0)
    as [[_ E] | [E _]]; [ | congruence].
  destruct (trades_in_window db start_date now) as [ | r rest];
    [discriminate Hzero | ].
  change (map trade_tuple (r :: rest))
    with (trade_tuple r :: map trade_tuple rest) in *.
  cbv beta iota. rewrite E. reflexivity.
Qed.

Lemma zero_price_buy_raises_witness :
  analyze_trading_performance free_buy (noon 8) 7 = raise ZeroDivisionError.
Proof.
  apply (zero_price_buy_raises free_buy (noon 8) 7 (noon 1)).
  - vm_compute. reflexivity.
  - vm_compute. reflexivity.
Defined.

(** ** The bounds of the window *)

Lemma compare_append_prefix (p a b : string) :
  String.compare (p ++ a) (p ++ b) = String.compare a b.
Proof.
  induction p as [ | c p IH]; simpl.
  - reflexivity.
  - rewrite ascii_compare_refl. exact IH.
Qed.

Lemma compare_append_lt (p1 : string) :
  forall p2 a b,
    String.length p1 = String.length p2 ->
    String.compare p1 p2 = Lt ->
    String.compare (p1 ++ a) (p2 ++ b) = Lt.
Proof.
  induction p1 as [ | c1 p1 IH]; intros [ | c2 p2] a b Hlen Hlt; simpl in *;
    try discriminate.
  destruct (Ascii.compare c1 c2); try congruence.
  apply IH; [congruence | exact Hlt].
Qed.

Lemma created_before_iso_same_day (utc dt : datetime) :
  strftime_ymd utc = strftime_ymd dt ->
  String.compare (current_timestamp utc) (isoformat dt) = Lt.
Proof.
  intro H. unfold current_timestamp, isoformat. rewrite H.
  rewrite compare_append_prefix. reflexivity.
Qed.

Lemma created_after_iso_earlier_day (utc dt : datetime) :
  String.ltb (strftime_ymd dt) (strftime_ymd utc) = true ->
  String.compare (isoformat dt) (current_timestamp utc) = Lt.
Proof.
  intro H. unfold current_timestamp, isoformat.
  apply compare_append_lt.
  - rewrite !strftime_ymd_length. reflexivity.
  - unfold String.ltb in H.
    destruct (String.compare (strftime_ymd dt) (strftime_ymd utc));
      [discriminate H | reflexivity | discriminate H].
Qed.

(** X4: on the two boundary days of the window the time of day plays no
    role.  A successful trade stored on the calendar day on which the window
    starts is never loaded, even when it was stored after the starting time;
    one stored on the calendar day of the upper bound is always loaded (when
    the window starts on an earlier day), even when stored after that
    bound's time.  The stored creation time separates date and time by a
    space, the bounds by the letter T. *)
Theorem window_boundary_days (db : database) (start_date end_date utc : datetime)
    (r : trade_row) :
  In r (actual_trades db) ->
  t_success r = true ->
  t_created_at r = current_timestamp utc ->
  (strftime_ymd utc = strftime_ymd start_date ->
   ~ In r (trades_in_window db start_date end_date))
  /\ (strftime_ymd utc = strftime_ymd end_date ->
      String.ltb (strftime_ymd start_date) (strftime_ymd end_date) = true ->
      In r (trades_in_window db start_date end_date)).
Proof.
  intros Hin Hok Hcreated.
  pose proof (trades_in_window_iff db start_date end_date) as Hspec.
  split.
  - intros Hday Hr. apply Hspec in Hr. destruct Hr as (_ & _ & Hlo & _).
    rewrite Hcreated in Hlo. unfold String.leb in Hlo.
    rewrite String.compare_antisym in Hlo.
    rewrite (created_before_iso_same_day utc start_date Hday) in Hlo.
    discriminate Hlo.
  - intros Hday Hearlier. apply Hspec.
    split; [exact Hin | ]. split; [exact Hok | ].
    rewrite Hcreated. unfold String.leb. split.
    + rewrite created_after_iso_earlier_day; [reflexivity | ].
      rewrite Hday. exact Hearlier.
    + rewrite (created_before_iso_same_day utc end_date Hday). reflexivity.
Qed.

Lemma window_boundary_days_witness :
  (strftime_ymd (mk_datetime 2024 3 5 12 0 0 0)
   = strftime_ymd (mk_datetime 2024 3 5 0 0 0 0) ->
   ~ In (mk_trade 1 "2024-03-05T12:00:00" "buy" 1000000 0.5 500000
                  (Some 0%float) None true None "2024-03-05 12:00:00")
        (trades_in_window one_buy (mk_datetime 2024 3 5 0 0 0 0) (noon 8)))
  /\ (strftime_ymd (mk_datetime 2024 3 5 12 0 0 0) = strftime_ymd (noon 8) ->
      String.ltb (strftime_ymd (mk_datetime 2024 3 5 0 0 0 0))
                 (strftime_ymd (noon 8)) = true ->
      In (mk_trade 1 "2024-03-05T12:00:00" "buy" 1000000 0.5 500000
                   (Some 0%float) None true None "2024-03-05 12:00:00")
         (trades_in_window one_buy (mk_datetime 2024 3 5 0 0 0 0) (noon 8))).
Proof.
  apply (window_boundary_days one_buy (mk_datetime 2024 3 5 0 0 0 0) (noon 8)
           (mk_datetime 2024 3 5 12 0 0 0)).
  - left. reflexivity.
  - reflexivity.
  - reflexivity.
Defined.

(** ** Statistics *)

Lemma count_of_bump (k k' : string) (d : list (string * Z)) :
  count_of k (bump k' d) =
  if String.eqb k k' then
    Some (match count_of k d with Some n => n + 1 | None => 1 end)
  else count_of k d.
Proof.
  induction d as [ | [k0 n] d IH]; simpl.
  - destruct (String.eqb k k'); reflexivity.
  - destruct (String.eqb_spec k' k0) as [-> | Hne]; simpl.
    + destruct (String.eqb k k0); reflexivity.
    + destruct (String.eqb_spec k k0) as [-> | Hk].
      * apply not_eq_sym in Hne. apply String.eqb_neq in Hne.
        rewrite Hne. reflexivity.
      * exact IH.
Qed.

Lemma count_of_fold (k : string) (ks : list string) :
  forall d,
    count_of k (fold_left (fun d k' => bump k' d) ks d) =
    match count_of k d with
    | Some n => Some (n + occurrences k ks)
    | None => if occurrences k ks =? 0 then None else Some (occurrences k ks)
    end.
Proof.
  unfold occurrences.
  induction ks as [ | k' ks IH]; intro d; simpl.
  - destruct (count_of k d); [rewrite Z.add_0_r | ]; reflexivity.
  - rewrite IH, count_of_bump.
    destruct (String.eqb k k'); cbn [List.length].
    + rewrite Nat2Z.inj_succ.
      destruct (count_of k d) as [n | ].
      * f_equal. lia.
      * replace (Z.succ _ =? 0) with false by (symmetry; apply Z.eqb_neq; lia).
        f_equal. lia.
    + reflexivity.
Qed.

Lemma bump_keys (k k' : string) (d : list (string * Z)) :
  In k' (map fst (bump k d)) <-> k' = k \/ In k' (map fst d).
Proof.
  induction d as [ | [k0 n] d IH]; simpl.
  - intuition congruence.
  - destruct (String.eqb_spec k k0) as [-> | Hne]; simpl.
    + intuition congruence.
    + rewrite IH. intuition congruence.
Qed.

Lemma bump_nodup (k : string) (d : list (string * Z)) :
  NoDup (map fst d) -> NoDup (map fst (bump k d)).
Proof.
  induction d as [ | [k0 n] d IH]; simpl; intro H.
  - repeat constructor. intros [].
  - inversion H as [ | x l Hnotin Hrest]; subst.
    destruct (String.eqb_spec k k0) as [-> | Hne]; simpl.
    + constructor; assumption.
    + constructor; [ | apply IH; exact Hrest].
      rewrite bump_keys. intros [E | Hin]; [congruence | contradiction].
Qed.

Lemma fold_bump_nodup (ks : list string) :
  forall d, NoDup (map fst d) ->
    NoDup (map fst (fold_left (fun d k => bump k d) ks d)).
Proof.
  induction ks as [ | k ks IH]; intros d H; simpl.
  - exact H.
  - apply IH. apply bump_nodup. exact H.
Qed.

Lemma count_of_some (k : string) (n : Z) (d : list (string * Z)) :
  NoDup (map fst d) -> (count_of k d = Some n <-> In (k, n) d).
Proof.
  induction d as [ | [k0 m] d IH]; simpl; intro H.
  - split; [discriminate | tauto].
  - inversion H as [ | x l Hnotin Hrest]; subst.
    destruct (String.eqb_spec k k0) as [-> | Hne].
    + split.
      * intro E. injection E as ->. left. reflexivity.
      * intros [E | Hin]; [congruence | ].
        exfalso. apply Hnotin. apply in_map_iff. exists (k0, n). tauto.
    + rewrite (IH Hrest). split; [tauto | ].
      intros [E | Hin]; [congruence | exact Hin].
Qed.

Lemma count_of_none (k : string) (d : list (string * Z)) :
  count_of k d = None <-> ~ In k (map fst d).
Proof.
  induction d as [ | [k0 m] d IH]; simpl.
  - tauto.
  - destruct (String.eqb_spec k k0) as [-> | Hne].
    + split; [discriminate | ]. intro H. exfalso. apply H. left. reflexivity.
    + rewrite IH. intuition congruence.
Qed.

Lemma insert_sorted_perm {A : Type} (before : A -> A -> bool) (x : A)
    (l : list A) :
  Permutation (insert_sorted before x l) (x :: l).
Proof.
  induction l as [ | y l IH]; simpl.
  - apply Permutation_refl.
  - destruct (before x y).
    + apply Permutation_refl.
    + eapply Permutation_trans; [apply perm_skip; exact IH | apply perm_swap].
Qed.

Lemma order_by_perm {A : Type} (before : A -> A -> bool) (l : list A) :
  Permutation (order_by before l) l.
Proof.
  induction l as [ | x l IH]; simpl.
  - apply Permutation_refl.
  - eapply Permutation_trans; [apply insert_sorted_perm | ].
    apply perm_skip. exact IH.
Qed.

(** The order of the groups does not matter to what a key is mapped to. *)
Lemma count_of_perm (k : string) (d d' : list (string * Z)) :
  Permutation d' d -> NoDup (map fst d) -> count_of k d' = count_of k d.
Proof.
  intros Hp Hd.
  assert (Hd' : NoDup (map fst d')).
  { eapply Permutation_NoDup; [ | exact Hd].
    apply Permutation_map. apply Permutation_sym. exact Hp. }
  destruct (count_of k d) as [n | ] eqn:E.
  - apply (count_of_some k n d' Hd'). apply (count_of_some k n d Hd) in E.
    eapply Permutation_in; [apply Permutation_sym; exact Hp | exact E].
  - apply count_of_none. apply count_of_none in E. intro Hin. apply E.
    eapply Permutation_in; [apply Permutation_map; exact Hp | exact Hin].
Qed.

Lemma count_of_group_count (k : string) (ks : list string) :
  count_of k (group_count ks) =
  if occurrences k ks =? 0 then None else Some (occurrences k ks).
Proof.
  unfold group_count.
  rewrite (count_of_perm k (fold_left (fun d k' => bump k' d) ks [])).
  - rewrite count_of_fold. reflexivity.
  - apply order_by_perm.
  - apply fold_bump_nodup. constructor.
Qed.

(** The groups come in ascending order of their key. *)
Lemma group_count_sorted (ks : list string) :
  sorted_by (asc fst) (group_count ks).
Proof.
  unfold group_count. apply order_by_sorted.
  - apply asc_total.
  - apply asc_trans.
Qed.

Lemma lookup_counts (k : string) (d : list (string * Z)) :
  lookup k (map (fun kn => (fst kn, VInt (snd kn))) d) =
  option_map VInt (count_of k d).
Proof.
  induction d as [ | [k' n] d IH]; simpl.
  - reflexivity.
  - destruct (String.eqb k k'); [reflexivity | exact IH].
Qed.

Lemma occurrences_filter {A : Type} (key : A -> string) (k : string)
    (l : list A) :
  occurrences k (map key l) =
  Z.of_nat (List.length (filter (fun x => String.eqb (key x) k) l)).
Proof.
  unfold occurrences. induction l as [ | x l IH]; simpl.
  - reflexivity.
  - rewrite (String.eqb_sym k (key x)).
    destruct (String.eqb (key x) k); cbn [List.length];
      rewrite ?Nat2Z.inj_succ, IH; reflexivity.
Qed.

Lemma occurrences_nonneg (k : string) (ks : list string) : 0 <= occurrences k ks.
Proof. unfold occurrences. lia. Qed.

(** X5: ai_decisions maps each decision label that occurs in trading_logs
    to the number of logs carrying it, and has no entry for a label that
    does not occur; the trades table plays no part in it. *)
Theorem ai_decisions_frequency (db : database) (decision : string) :
  exists m,
    lookup "ai_decisions" (get_trading_stats db) = Some (VDict m)
    /\ lookup decision m =
       if existsb (fun r => String.eqb (l_ai_decision r) decision) (trading_logs db)
       then Some (VInt (Z.of_nat
                          (List.length
                             (filter (fun r => String.eqb (l_ai_decision r) decision)
                                     (trading_logs db)))))
       else None.
Proof.
  eexists. split; [reflexivity | ].
  rewrite lookup_counts, count_of_group_count, occurrences_filter.
  set (hits := filter _ (trading_logs db)).
  assert (E : existsb (fun r => String.eqb (l_ai_decision r) decision)
                (trading_logs db) = negb (Z.of_nat (List.length hits) =? 0)).
  { subst hits. induction (trading_logs db) as [ | r rows IH]; simpl.
    - reflexivity.
    - destruct (String.eqb (l_ai_decision r) decision); simpl.
      + reflexivity.
      + exact IH. }
  rewrite E. destruct (Z.of_nat (List.length hits) =? 0); reflexivity.
Qed.

(** X6: total_trades is the number of successful trades, buy_count and
    sell_count the numbers of successful trades of type buy and sell; so
    buy_count + sell_count never exceeds total_trades, and falls short of it
    by the successful trades of any other type. *)
Theorem trade_counts (db : database) :
  let rows := successful (actual_trades db) in
  lookup "total_trades" (get_trading_stats db)
    = Some (VInt (Z.of_nat (List.length rows)))
  /\ lookup "buy_count" (get_trading_stats db)
     = Some (VInt (Z.of_nat (List.length (filter is_buy rows))))
  /\ lookup "sell_count" (get_trading_stats db)
     = Some (VInt (Z.of_nat (List.length (filter is_sell rows))))
  /\ Z.of_nat (List.length (filter is_buy rows))
     + Z.of_nat (List.length (filter is_sell rows))
     + Z.of_nat (List.length
                   (filter (fun r => negb (is_buy r) && negb (is_sell r)) rows))
     = Z.of_nat (List.length rows).
Proof.
  intro rows. unfold get_trading_stats. fold rows.
  cbn [lookup String.eqb Ascii.eqb Bool.eqb].
  rewrite !count_of_group_count, !occurrences_filter.
  fold is_buy. fold is_sell.
  change (fun x : trade_row => String.eqb (t_trade_type x) "buy") with is_buy.
  change (fun x : trade_row => String.eqb (t_trade_type x) "sell") with is_sell.
  split; [reflexivity | ].
  split.
  { destruct (Z.of_nat (List.length (filter is_buy rows)) =? 0) eqn:E.
    - apply Z.eqb_eq in E. rewrite E. reflexivity.
    - reflexivity. }
  split.
  { destruct (Z.of_nat (List.length (filter is_sell rows)) =? 0) eqn:E.
    - apply Z.eqb_eq in E. rewrite E. reflexivity.
    - reflexivity. }
  induction rows as [ | r rows' IH]; [reflexivity | ].
  cbn [filter].
  assert (Hx : is_buy r = true -> is_sell r = false).
  { unfold is_buy, is_sell. intro H. apply String.eqb_eq in H.
    rewrite H. reflexivity. }
  destruct (is_buy r); [rewrite (Hx eq_refl) | destruct (is_sell r)];
    cbn [negb andb List.length]; rewrite !Nat2Z.inj_succ; lia.
Qed.

(** ** Ids and dates along the histories of the store *)

Lemma ids_ok_append (ids : list Z) (seq : Z) :
  ids_ok ids seq -> ids_ok (ids ++ [seq + 1]) (seq + 1).
Proof.
  intros (Hseq & Hsorted & Hall). split; [lia | ]. split.
  - induction ids as [ | i ids IH]; simpl.
    + repeat constructor.
    + inversion Hsorted as [ | i' ids' Hs Hi]; subst.
      inversion Hall as [ | i' ids' Hb Hrest]; subst.
      constructor; [apply IH; assumption | ].
      apply Forall_app. split; [exact Hi | ].
      constructor; [lia | constructor].
  - apply Forall_app. split.
    + eapply Forall_impl; [ | exact Hall]. simpl. intros i Hi. lia.
    + constructor; [lia | constructor].
Qed.

Lemma ids_ok_filter {A : Type} (id : A -> Z) (keep : A -> bool) (rows : list A)
    (seq : Z) :
  ids_ok (map id rows) seq -> ids_ok (map id (filter keep rows)) seq.
Proof.
  intros (Hseq & Hsorted & Hall). split; [exact Hseq | ].
  induction rows as [ | r rows IH]; simpl in *.
  - split; constructor.
  - inversion Hsorted as [ | i ids Hs Hi]; subst.
    inversion Hall as [ | i ids Hb Hrest]; subst.
    destruct (IH Hs Hrest) as [IHs IHa].
    destruct (keep r); simpl; [ | split; assumption].
    split; [ | constructor; assumption].
    constructor; [exact IHs | ].
    rewrite Forall_forall in Hi |- *. intros j Hj.
    apply Hi. apply in_map_iff in Hj. destruct Hj as (x & <- & Hx).
    apply filter_In in Hx. apply in_map. tauto.
Qed.

Section Histories.
Context {R : Runtime}.

Lemma save_analysis_log_frame (db : database) (utc : datetime)
    (market_data ai_analysis timestamp : pyval) (analysis_type : string)
    (db' : database) (log_id : Z) :
  save_analysis_log db utc market_data ai_analysis timestamp analysis_type
  = ok (db', log_id) ->
  log_id = trading_logs_seq db + 1
  /\ trading_logs_seq db' = log_id
  /\ map l_id (trading_logs db') = (map l_id (trading_logs db) ++ [log_id])%list
  /\ List.length (trading_logs db') = S (List.length (trading_logs db))
  /\ actual_trades db' = actual_trades db
  /\ actual_trades_seq db' = actual_trades_seq db
  /\ portfolio_snapshots db' = portfolio_snapshots db
  /\ portfolio_snapshots_seq db' = portfolio_snapshots_seq db.
Proof.
  intro H. unfold save_analysis_log in H.
  do 19 (cbv beta zeta in H; bind_inv H).
  cbv beta zeta in H. injection H as <- <-.
  cbn [trading_logs trading_logs_seq actual_trades actual_trades_seq
       portfolio_snapshots portfolio_snapshots_seq].
  rewrite map_app, length_app. cbn [map l_id List.length].
  repeat split; try reflexivity. lia.
Qed.

(** X7: in every database the write operations build from a new file, the
    ids of each table are positive, grow strictly in insertion order (so no
    two rows share one) and never exceed the table's counter, from which
    the next id is taken; and no two snapshots share a date. *)
Theorem reachable_ids_and_dates (db : database) :
  reachable db ->
  ids_ok (map l_id (trading_logs db)) (trading_logs_seq db)
  /\ ids_ok (map t_id (actual_trades db)) (actual_trades_seq db)
  /\ ids_ok (map s_id (portfolio_snapshots db)) (portfolio_snapshots_seq db)
  /\ NoDup (map s_date (portfolio_snapshots db)).
Proof.
  induction 1 as [ | db now utc ty price amount total fee oid success msg tt
                     db' trade_id _ IH Hsave
                   | db utc date krw btc avg total pl plp db' _ IH Hsave
                   | db utc md ai ts ty db' log_id _ IH Hsave].
  - repeat split; simpl; try lia; constructor.
  - destruct IH as (Hl & Ht & Hs & Hd).
    destruct (save_trade_inv _ _ _ _ _ _ _ _ _ _ _ _ _ _ Hsave)
      as (_ & _ & _ & _ & timestamp & ->).
    cbn [trading_logs trading_logs_seq actual_trades actual_trades_seq
         portfolio_snapshots portfolio_snapshots_seq].
    split; [exact Hl | ]. split; [ | split; assumption].
    rewrite map_app. cbn [map t_id]. apply ids_ok_append. exact Ht.
  - destruct IH as (Hl & Ht & Hs & Hd).
    pose proof (snapshot_dates_unique _ _ _ _ _ _ _ _ _ _ Hsave Hd) as Hd'.
    destruct (save_portfolio_snapshot_inv _ _ _ _ _ _ _ _ _ _ Hsave)
      as (_ & _ & _ & ->).
    split; [exact Hl | ]. split; [exact Ht | ].
    split; [ | exact Hd'].
    cbn [portfolio_snapshots portfolio_snapshots_seq].
    rewrite map_app. cbn [map s_id].
    destruct (ids_ok_append _ _ (ids_ok_filter s_id
                (fun r => negb (String.eqb (s_date r) date)) _ _ Hs))
      as (H1 & H2 & H3).
    split; [exact H1 | split; assumption].
  - destruct IH as (Hl & Ht & Hs & Hd).
    destruct (save_analysis_log_frame _ _ _ _ _ _ _ _ Hsave)
      as (Hid & Hseq & Hids & _ & Etr & Etrs & Esn & Esns).
    rewrite Etr, Etrs, Esn, Esns, Hids, Hseq, Hid.
    split; [apply ids_ok_append; exact Hl | ]. tauto.
Qed.

End Histories.

Lemma reachable_ids_and_dates_witness :
  ids_ok (map l_id (trading_logs buy_then_sell)) (trading_logs_seq buy_then_sell)
  /\ ids_ok (map t_id (actual_trades buy_then_sell)) (actual_trades_seq buy_then_sell)
  /\ ids_ok (map s_id (portfolio_snapshots buy_then_sell))
            (portfolio_snapshots_seq buy_then_sell)
  /\ NoDup (map s_date (portfolio_snapshots buy_then_sell)).
Proof.
  apply (reachable_ids_and_dates (R := example_runtime) buy_then_sell).
  apply (reach_trade one_buy (noon 6) (noon 6) "sell" 1200000 0.5 600001 0
           None true None None buy_then_sell 2).
  - apply (reach_trade init_database (noon 5) (noon 5) "buy" 1000000 0.5
             500000 0 None true None None one_buy 1).
    + apply reach_init.
    + vm_compute. reflexivity.
  - vm_compute. reflexivity.
Defined.

(** ** ORDER BY ... LIMIT *)

Section TopRows.
Context {A : Type}.
Variable before : A -> A -> bool.
Hypothesis before_total : forall x y, before x y = true \/ before y x = true.
Hypothesis before_trans :
  forall x y z, before x y = true -> before y z = true -> before x z = true.

Lemma sorted_firstn_skipn (n : nat) (l : list A) :
  sorted_by before l ->
  forall x y, In x (firstn n l) -> In y (skipn n l) -> before x y = true.
Proof.
  unfold sorted_by. revert l. induction n as [ | n IH]; intros l H x y Hx Hy.
  - destruct Hx.
  - destruct l as [ | z l]; [destruct Hx | ].
    inversion H as [ | z' l' Hl Hz]; subst. simpl in Hx, Hy.
    destruct Hx as [<- | Hx].
    + rewrite Forall_forall in Hz. apply Hz.
      rewrite <- (firstn_skipn n l). apply in_or_app. right. exact Hy.
    + eapply IH; eassumption.
Qed.

(** The rows an ORDER BY ... LIMIT query returns. *)
Lemma top_rows (n : Z) (l : list A) :
  Z.of_nat (List.length (limit n (order_by before l)))
    = (if n <? 0 then Z.of_nat (List.length l)
       else Z.min n (Z.of_nat (List.length l)))
  /\ sorted_by before (limit n (order_by before l))
  /\ (forall x, In x (limit n (order_by before l)) -> In x l)
  /\ (forall x y, In x (limit n (order_by before l)) -> In y l ->
        ~ In y (limit n (order_by before l)) -> before x y = true).
Proof.
  split; [ | split; [ | split]].
  - unfold limit. destruct (n <? 0) eqn:Hn.
    + rewrite order_by_length. reflexivity.
    + apply Z.ltb_ge in Hn. rewrite length_firstn, order_by_length. lia.
  - apply sorted_limit. apply order_by_sorted; assumption.
  - intros x Hx. apply limit_In in Hx. apply order_by_In in Hx. exact Hx.
  - unfold limit. destruct (n <? 0).
    + intros x y _ Hy Hnot. contradiction Hnot. apply order_by_In. exact Hy.
    + intros x y Hx Hy Hnot.
      apply (sorted_firstn_skipn (Z.to_nat n) (order_by before l)).
      * apply order_by_sorted; assumption.
      * exact Hx.
      * apply (order_by_In before) in Hy.
        rewrite <- (firstn_skipn (Z.to_nat n) (order_by before l)) in Hy.
        apply in_app_or in Hy. tauto.
Qed.

End TopRows.

Lemma bind_int_overflow (n : Z) :
  n < - 2 ^ 63 \/ 2 ^ 63 <= n -> bind_int n = raise OverflowError.
Proof.
  intro H. unfold bind_int. destruct H as [H | H].
  - replace (- 2 ^ 63 <=? n) with false by (symmetry; apply Z.leb_gt; lia).
    reflexivity.
  - replace (n <? 2 ^ 63) with false by (symmetry; apply Z.ltb_ge; lia).
    rewrite andb_false_r. reflexivity.
Qed.

(** X8: for a limit n that fits 64 bits, [get_recent_logs] returns
    min(n, number of logs) records (all of them when n is negative), each a
    stored log, ordered by creation time from newest to oldest; no log left
    out was created later than one returned.  A limit that does not fit 64
    bits cannot be bound: the call raises OverflowError. *)
Theorem recent_logs_newest_first (db : database) (n : Z) :
  - 2 ^ 63 <= n < 2 ^ 63 ->
  (exists rows,
     get_recent_logs db n = ok (map log_dict rows)
     /\ Z.of_nat (List.length rows)
        = (if n <? 0 then Z.of_nat (List.length (trading_logs db))
           else Z.min n (Z.of_nat (List.length (trading_logs db))))
     /\ sorted_by (desc l_created_at) rows
     /\ (forall r, In r rows -> In r (trading_logs db))
     /\ (forall r r', In r rows -> In r' (trading_logs db) -> ~ In r' rows ->
           String.leb (l_created_at r') (l_created_at r) = true))
  /\ (forall m, m < - 2 ^ 63 \/ 2 ^ 63 <= m ->
        get_recent_logs db m = raise OverflowError).
Proof.
  intro Hn. split.
  - exists (limit n (order_by (desc l_created_at) (trading_logs db))).
    split.
    { unfold get_recent_logs. rewrite (bind_int_fits n Hn). reflexivity. }
    apply (top_rows (desc l_created_at) (desc_total l_created_at)
             (desc_trans l_created_at) n (trading_logs db)).
  - intros m Hm. unfold get_recent_logs.
    rewrite (bind_int_overflow m Hm). reflexivity.
Qed.

Lemma recent_logs_newest_first_witness :
  (exists rows,
     get_recent_logs log_db2 1 = ok (map log_dict rows)
     /\ Z.of_nat (List.length rows)
        = (if 1 <? 0 then Z.of_nat (List.length (trading_logs log_db2))
           else Z.min 1 (Z.of_nat (List.length (trading_logs log_db2))))
     /\ sorted_by (desc l_created_at) rows
     /\ (forall r, In r rows -> In r (trading_logs log_db2))
     /\ (forall r r', In r rows -> In r' (trading_logs log_db2) -> ~ In r' rows ->
           String.leb (l_created_at r') (l_created_at r) = true))
  /\ (forall m, m < - 2 ^ 63 \/ 2 ^ 63 <= m ->
        get_recent_logs log_db2 m = raise OverflowError).
Proof.
  apply (recent_logs_newest_first log_db2 1). lia.
Defined.

(** ** Snapshots over time *)

Lemma leb_not_eq_flip (a b : string) :
  String.leb a b = true -> a <> b -> String.leb b a = false.
Proof.
  intros H Hne. destruct (String.leb b a) eqn:E; [ | reflexivity].
  exfalso. apply Hne. apply String.leb_antisym; assumption.
Qed.

(** X9: for a limit n that fits 64 bits [get_portfolio_history] returns
    min(n, number of snapshots) records (all of them when n is negative),
    stored snapshots in descending order of date.  A snapshot whose
    balances and total value are numbers is accepted, and right after it is
    saved for a date that no stored snapshot is later than,
    [get_portfolio_history(1)] is exactly that snapshot, its values as the
    REAL columns return them. *)
Theorem portfolio_history_latest (db : database) (utc : datetime) (date : string)
    (krw btc avg total pl plp : float) (n : Z) :
  - 2 ^ 63 <= n < 2 ^ 63 ->
  PrimFloat.is_nan krw = false ->
  PrimFloat.is_nan btc = false ->
  PrimFloat.is_nan total = false ->
  (forall r, In r (portfolio_snapshots db) -> String.leb (s_date r) date = true) ->
  (exists rows,
     get_portfolio_history db n = ok (map snapshot_dict rows)
     /\ Z.of_nat (List.length rows)
        = (if n <? 0 then Z.of_nat (List.length (portfolio_snapshots db))
           else Z.min n (Z.of_nat (List.length (portfolio_snapshots db))))
     /\ sorted_by (desc s_date) rows
     /\ (forall r, In r rows -> In r (portfolio_snapshots db)))
  /\ exists db',
       save_portfolio_snapshot db utc date krw btc avg total pl plp = ok db'
       /\ get_portfolio_history db' 1
          = ok [ snapshot_dict
                   (mk_snapshot (portfolio_snapshots_seq db + 1) date
                      (real_column krw) (real_column btc) (stored_real avg)
                      (real_column total) (stored_real pl) (stored_real plp)
                      (current_timestamp utc)) ].
Proof.
  intros Hn Hk Hb Ht Hlatest. split.
  - exists (limit n (order_by (desc s_date) (portfolio_snapshots db))).
    split.
    { unfold get_portfolio_history. rewrite (bind_int_fits n Hn). reflexivity. }
    destruct (top_rows (desc s_date) (desc_total s_date) (desc_trans s_date)
                n (portfolio_snapshots db)) as (H1 & H2 & H3 & _).
    split; [exact H1 | ]. split; [exact H2 | exact H3].
  - destruct (save_portfolio_snapshot_returns db utc date krw btc avg total
                pl plp Hk Hb Ht) as [db' Hsave].
    exists db'. split; [exact Hsave | ].
    apply save_portfolio_snapshot_inv in Hsave.
    destruct Hsave as (_ & _ & _ & ->).
    unfold get_portfolio_history. rewrite bind_int_one. cbn [bind ok].
    cbn [portfolio_snapshots].
    match goal with
    | |- context [order_by ?b (?kept ++ [?row])] =>
        destruct (order_by_newest b kept row) as [rest E]
    end.
    { intros y Hy. apply filter_In in Hy. destruct Hy as [Hy Hkeep].
      unfold desc. cbn [s_date]. apply leb_not_eq_flip.
      - apply Hlatest. exact Hy.
      - apply negb_true_iff in Hkeep. apply String.eqb_neq. exact Hkeep. }
    rewrite E. reflexivity.
Qed.

Lemma portfolio_history_latest_witness :
  (exists rows,
     get_portfolio_history march5_snapshot 5 = ok (map snapshot_dict rows)
     /\ Z.of_nat (List.length rows)
        = (if 5 <? 0
           then Z.of_nat (List.length (portfolio_snapshots march5_snapshot))
           else Z.min 5 (Z.of_nat
                           (List.length (portfolio_snapshots march5_snapshot))))
     /\ sorted_by (desc s_date) rows
     /\ (forall r, In r rows -> In r (portfolio_snapshots march5_snapshot)))
  /\ exists db',
       save_portfolio_snapshot march5_snapshot (noon 6) "2024-03-06"
         6 5 PrimFloat.nan 3 2 (- 0)%float = ok db'
       /\ get_portfolio_history db' 1
          = ok [ snapshot_dict
                   (mk_snapshot (portfolio_snapshots_seq march5_snapshot + 1)
                      "2024-03-06"
                      (real_column 6) (real_column 5) (stored_real PrimFloat.nan)
                      (real_column 3) (stored_real 2) (stored_real (- 0)%float)
                      (current_timestamp (noon 6))) ].
Proof.
  apply (portfolio_history_latest march5_snapshot (noon 6) "2024-03-06"
           6 5 PrimFloat.nan 3 2 (- 0)%float 5).
  - lia.
  - reflexivity.
  - reflexivity.
  - reflexivity.
  - intros r Hin. simpl in Hin. destruct Hin as [<- | []]. reflexivity.
Defined.

(** X10: a snapshot whose balances and total value are numbers, saved for
    a date that is not in the table, is added as one new row, and every
    stored row is kept as it is. *)
Theorem snapshot_insert_new_date (db : database) (utc : datetime) (date : string)
    (krw btc avg total pl plp : float) :
  PrimFloat.is_nan krw = false ->
  PrimFloat.is_nan btc = false ->
  PrimFloat.is_nan total = false ->
  ~ In date (map s_date (portfolio_snapshots db)) ->
  exists db',
    save_portfolio_snapshot db utc date krw btc avg total pl plp = ok db'
    /\ portfolio_snapshots db'
       = (portfolio_snapshots db
          ++ [ mk_snapshot (portfolio_snapshots_seq db + 1) date
                 (real_column krw) (real_column btc) (stored_real avg)
                 (real_column total) (stored_real pl) (stored_real plp)
                 (current_timestamp utc) ])%list
    /\ portfolio_snapshots_seq db' = portfolio_snapshots_seq db + 1
    /\ trading_logs db' = trading_logs db
    /\ actual_trades db' = actual_trades db.
Proof.
  intros Hk Hb Ht Hnew.
  destruct (save_portfolio_snapshot_returns db utc date krw btc avg total
              pl plp Hk Hb Ht) as [db' Hsave].
  exists db'. split; [exact Hsave | ].
  apply save_portfolio_snapshot_inv in Hsave.
  destruct Hsave as (_ & _ & _ & ->).
  cbn [portfolio_snapshots portfolio_snapshots_seq trading_logs actual_trades].
  split; [ | repeat split].
  f_equal.
  induction (portfolio_snapshots db) as [ | r rows IH]; simpl.
  - reflexivity.
  - simpl in Hnew.
    destruct (String.eqb_spec (s_date r) date) as [E | E].
    + exfalso. apply Hnew. left. exact E.
    + simpl. f_equal. apply IH. intro H. apply Hnew. right. exact H.
Qed.

Lemma snapshot_insert_new_date_witness :
  exists db',
    save_portfolio_snapshot init_database (noon 5) "2024-03-05" 1 2 3 4 5 6
    = ok db'
    /\ portfolio_snapshots db'
       = (portfolio_snapshots init_database
          ++ [ mk_snapshot (portfolio_snapshots_seq init_database + 1)
                 "2024-03-05"
                 (real_column 1) (real_column 2) (stored_real 3)
                 (real_column 4) (stored_real 5) (stored_real 6)
                 (current_timestamp (noon 5)) ])%list
    /\ portfolio_snapshots_seq db' = portfolio_snapshots_seq init_database + 1
    /\ trading_logs db' = trading_logs init_database
    /\ actual_trades db' = actual_trades init_database.
Proof.
  apply (snapshot_insert_new_date init_database (noon 5) "2024-03-05" 1 2 3 4 5 6).
  - reflexivity.
  - reflexivity.
  - reflexivity.
  - simpl. intros [].
Defined.

(** ** Queries by date *)

Lemma substring_prefix (p rest : string) :
  substring 0 (String.length p) (p ++ rest) = p.
Proof.
  induction p as [ | c p IH]; simpl.
  - destruct rest; reflexivity.
  - rewrite IH. reflexivity.
Qed.

Lemma sql_date_created (utc : datetime) :
  sql_date (current_timestamp utc) = strftime_ymd utc.
Proof.
  unfold sql_date, current_timestamp.
  rewrite <- (strftime_ymd_length utc) at 1. apply substring_prefix.
Qed.

(** X11: [get_trades_by_date] returns the trades, failed ones included,
    whose creation date equals the given date when no end date (or an empty
    one) is given, and lies between the two dates, both included, otherwise;
    the records come newest first. *)
Theorem trades_by_calendar_date (db : database) (start_date : string)
    (end_date : option string) :
  exists rows,
    get_trades_by_date db start_date end_date = map trade_dict rows
    /\ sorted_by (desc t_created_at) rows
    /\ forall r,
         In r rows <->
         In r (actual_trades db)
         /\ match end_date with
            | Some e =>
                if nonempty e then
                  String.leb start_date (sql_date (t_created_at r)) = true
                  /\ String.leb (sql_date (t_created_at r)) e = true
                else sql_date (t_created_at r) = start_date
            | None => sql_date (t_created_at r) = start_date
            end.
Proof.
  exists (order_by (desc t_created_at) (trades_by_date db start_date end_date)).
  split; [reflexivity | ]. split.
  - apply order_by_sorted; [apply desc_total | apply desc_trans].
  - intro r. rewrite order_by_In. unfold trades_by_date.
    destruct end_date as [e | ]; [destruct (nonempty e) | ];
      rewrite filter_In; unfold between;
      rewrite ?andb_true_iff, ?String.eqb_eq; tauto.
Qed.

(** X12: a trade whose price, amount and total value are numbers is
    accepted, successful or failed, and is then listed by
    [get_trades_by_date] under the calendar date of the UTC reading [utc] at
    which it was saved, with the id [save_trade] returned, its type and its
    success flag; the listing of that day grows by this one record. *)
Theorem saved_trade_listed_on_its_day (db : database) (now utc : datetime)
    (trade_type : string) (price amount total_value fee : float)
    (order_id : option string) (success : bool)
    (error_message trade_time : option string) :
  PrimFloat.is_nan price = false ->
  PrimFloat.is_nan amount = false ->
  PrimFloat.is_nan total_value = false ->
  exists db' trade_id,
    save_trade db now utc trade_type price amount total_value fee order_id
      success error_message trade_time = ok (db', trade_id)
    /\ (exists d,
          In d (get_trades_by_date db' (strftime_ymd utc) None)
          /\ lookup "id" d = Some (VInt trade_id)
          /\ lookup "success" d = Some (VInt (if success then 1 else 0))
          /\ lookup "trade_type" d = Some (VStr trade_type))
    /\ List.length (get_trades_by_date db' (strftime_ymd utc) None)
       = S (List.length (get_trades_by_date db (strftime_ymd utc) None)).
Proof.
  intros Hp Ha Ht.
  destruct (save_trade_returns db now utc trade_type price amount total_value
              fee order_id success error_message trade_time Hp Ha Ht)
    as [db' Hsave].
  exists db', (actual_trades_seq db + 1). split; [exact Hsave | ].
  destruct (save_trade_inv _ _ _ _ _ _ _ _ _ _ _ _ _ _ Hsave)
    as (_ & _ & _ & _ & timestamp & ->).
  set (row := mk_trade _ _ _ _ _ _ _ _ _ _ _).
  assert (Hday : String.eqb (sql_date (t_created_at row)) (strftime_ymd utc) = true).
  { unfold row. cbn [t_created_at]. rewrite sql_date_created.
    apply String.eqb_refl. }
  split.
  - exists (trade_dict row). split.
    + unfold get_trades_by_date. apply in_map. apply order_by_In.
      unfold trades_by_date. cbn [actual_trades].
      apply filter_In. split; [ | exact Hday].
      apply in_or_app. right. left. reflexivity.
    + repeat split; reflexivity.
  - unfold get_trades_by_date. rewrite !length_map, !order_by_length.
    unfold trades_by_date. cbn [actual_trades].
    rewrite filter_app, length_app. cbn [filter]. rewrite Hday.
    cbn [List.length]. lia.
Qed.

Lemma saved_trade_listed_on_its_day_witness :
  exists db' trade_id,
    save_trade one_buy (noon 6) (noon 6) "sell" 1200000 0.5 600000 0 None
      false (Some "rejected") None = ok (db', trade_id)
    /\ (exists d,
          In d (get_trades_by_date db' (strftime_ymd (noon 6)) None)
          /\ lookup "id" d = Some (VInt trade_id)
          /\ lookup "success" d = Some (VInt (if false then 1 else 0))
          /\ lookup "trade_type" d = Some (VStr "sell"))
    /\ List.length (get_trades_by_date db' (strftime_ymd (noon 6)) None)
       = S (List.length (get_trades_by_date one_buy (strftime_ymd (noon 6)) None)).
Proof.
  apply (saved_trade_listed_on_its_day one_buy (noon 6) (noon 6) "sell"
           1200000 0.5 600000 0 None false (Some "rejected") None);
    reflexivity.
Defined.

Lemma compare_append_longer (p : string) (c : ascii) (x : string) :
  String.compare (p ++ String c x) p = Gt.
Proof.
  induction p as [ | a p IH]; simpl.
  - reflexivity.
  - rewrite ascii_compare_refl. exact IH.
Qed.

Lemma compare_append_lt_bare (p1 : string) :
  forall p2 a,
    String.length p1 = String.length p2 ->
    String.compare p1 p2 = Lt ->
    String.compare (p1 ++ a) p2 = Lt.
Proof.
  induction p1 as [ | c1 p1 IH]; intros [ | c2 p2] a Hlen Hlt; simpl in *;
    try discriminate.
  destruct (Ascii.compare c1 c2); try congruence.
  apply IH; [congruence | exact Hlt].
Qed.

Lemma log_dict_created (r r' : log_row) :
  log_dict r' = log_dict r -> l_created_at r' = l_created_at r.
Proof.
  intro H. apply (f_equal (lookup "created_at")) in H. simpl in H.
  congruence.
Qed.

(** ** Bounds that do not read as numbers *)

Lemma digit_is_digit (z : Z) : is_digit (digit z) = true.
Proof.
  unfold digit.
  assert (H : (Z.to_nat (z mod 10) < 10)%nat)
    by (pose proof (Z.mod_pos_bound z 10); lia).
  revert H. generalize (Z.to_nat (z mod 10)). intros n H.
  do 10 (destruct n as [ | n]; [reflexivity | ]). lia.
Qed.

Lemma digit_is_no_blank (c : ascii) :
  is_digit c = true -> is_blank c = false /\ is_sign c = false.
Proof.
  unfold is_digit, is_blank, is_sign. generalize (nat_of_ascii c). intros n H.
  apply andb_true_iff in H. destruct H as [H1 H2].
  apply Nat.leb_le in H1, H2.
  split.
  - destruct (Nat.leb_spec n 13); [lia | ]. rewrite andb_false_r.
    destruct (Nat.eqb_spec n 32); [lia | reflexivity].
  - destruct (Nat.eqb_spec n 43); [lia | ].
    destruct (Nat.eqb_spec n 45); [lia | reflexivity].
Qed.

(** Four digits and a hyphen do not begin a number. *)
Lemma year_and_hyphen_is_text (c1 c2 c3 c4 : ascii) (rest : string) :
  is_digit c1 = true -> is_digit c2 = true ->
  is_digit c3 = true -> is_digit c4 = true ->
  looks_numeric
    (String c1 (String c2 (String c3 (String c4 (String "-" rest))))) = false.
Proof.
  intros H1 H2 H3 H4.
  destruct (digit_is_no_blank c1 H1) as [B1 S1].
  unfold looks_numeric.
  cbn [skip]. rewrite B1.
  cbn [is_empty skip_sign]. rewrite S1.
  cbn [starts_with skip]. rewrite H1, H2, H3, H4.
  change (is_digit "-") with false. cbv iota.
  change (is_point "-") with false. cbv iota.
  change (is_exponent "-") with false. cbv iota.
  cbn [skip]. change (is_blank "-") with false. cbv iota.
  cbn [is_empty]. apply andb_false_r.
Qed.

Lemma pad_four (z : Z) :
  pad 4 z =
  String (digit (z / 10 / 10 / 10))
    (String (digit (z / 10 / 10)) (String (digit (z / 10))
       (String (digit z) EmptyString))).
Proof. reflexivity. Qed.

Lemma strftime_ymd_is_text (dt : datetime) :
  looks_numeric (strftime_ymd dt) = false.
Proof.
  unfold strftime_ymd. rewrite pad_four. cbn [append].
  apply year_and_hyphen_is_text; apply digit_is_digit.
Qed.

Lemma isoformat_is_text (dt : datetime) :
  looks_numeric (isoformat dt) = false.
Proof.
  unfold isoformat, strftime_ymd. rewrite pad_four. cbn [append].
  apply year_and_hyphen_is_text; apply digit_is_digit.
Qed.

Lemma numeric_end_bound (db : database) (start_date end_date : string) :
  looks_numeric end_date = true ->
  get_logs_by_date_range db start_date end_date = [].
Proof.
  intro He. unfold get_logs_by_date_range, column_le. rewrite He.
  replace (filter _ (trading_logs db)) with (@nil log_row); [reflexivity | ].
  symmetry. induction (trading_logs db) as [ | x rows IH]; simpl.
  - reflexivity.
  - rewrite andb_false_r. exact IH.
Qed.

(** X13: with calendar dates as bounds, [get_logs_by_date_range] is
    half-open: a log created on the day of the end bound is never returned,
    while a log created on the day of the start bound is (when the end
    bound is a later day).  The stored creation time is longer than a bare
    date and so sorts after it.  An end bound that reads as a number, a bare
    year for instance, is compared as a number and returns no log at all. *)
Theorem logs_range_excludes_end_day (db : database)
    (first_day last_day utc : datetime) (r : log_row) :
  In r (trading_logs db) ->
  l_created_at r = current_timestamp utc ->
  (strftime_ymd utc = strftime_ymd last_day ->
   ~ In (log_dict r)
        (get_logs_by_date_range db (strftime_ymd first_day) (strftime_ymd last_day)))
  /\ (strftime_ymd utc = strftime_ymd first_day ->
      String.ltb (strftime_ymd first_day) (strftime_ymd last_day) = true ->
      In (log_dict r)
         (get_logs_by_date_range db (strftime_ymd first_day) (strftime_ymd last_day)))
  /\ (forall start_date end_date,
        looks_numeric end_date = true ->
        get_logs_by_date_range db start_date end_date = []).
Proof.
  intros Hin Hcreated. unfold get_logs_by_date_range, column_ge, column_le.
  rewrite !strftime_ymd_is_text. split; [ | split].
  3: { intros start_date end_date He.
       pose proof (numeric_end_bound db start_date end_date He) as H.
       unfold get_logs_by_date_range, column_ge, column_le in H. exact H. }
  - intros Hday Hr. apply in_map_iff in Hr. destruct Hr as (r' & Hd & Hr').
    apply order_by_In in Hr'. apply filter_In in Hr'. destruct Hr' as [_ Hb].
    rewrite (log_dict_created _ _ Hd), Hcreated in Hb.
    apply andb_true_iff in Hb. destruct Hb as [_ Hhi].
    unfold String.leb, current_timestamp in Hhi. rewrite Hday in Hhi.
    change (" " ++ hms utc)%string with (String " " (hms utc)) in Hhi.
    rewrite compare_append_longer in Hhi. discriminate Hhi.
  - intros Hday Hlater. apply in_map. apply order_by_In. apply filter_In.
    split; [exact Hin | ]. rewrite Hcreated.
    unfold String.leb, current_timestamp. rewrite Hday.
    rewrite String.compare_antisym.
    change (" " ++ hms utc)%string with (String " " (hms utc)).
    rewrite compare_append_longer. cbn [CompOpp andb].
    rewrite compare_append_lt_bare; [reflexivity | | ].
    + rewrite !strftime_ymd_length. reflexivity.
    + unfold String.ltb in Hlater.
      destruct (String.compare (strftime_ymd first_day) (strftime_ymd last_day));
        [discriminate Hlater | reflexivity | discriminate Hlater].
Qed.

Lemma logs_range_excludes_end_day_witness :
  (strftime_ymd (noon 5) = strftime_ymd (noon 5) ->
   ~ In (log_dict (mk_log 1 "2024-03-05T12:00:00" (VFloat 0) (VFloat 0) (VFloat 0)
                     (VFloat 0) "{}" "buy" (Some "dip") (Some "")
                     (json_dumps (Runtime := example_runtime)
                        (VDict [("decision", VStr "buy"); ("reason", VStr "dip")]))
                     "{}" "enhanced" "2024-03-05 12:00:00"))
        (get_logs_by_date_range log_db1 (strftime_ymd (noon 1)) (strftime_ymd (noon 5))))
  /\ (strftime_ymd (noon 5) = strftime_ymd (noon 1) ->
      String.ltb (strftime_ymd (noon 1)) (strftime_ymd (noon 5)) = true ->
      In (log_dict (mk_log 1 "2024-03-05T12:00:00" (VFloat 0) (VFloat 0) (VFloat 0)
                      (VFloat 0) "{}" "buy" (Some "dip") (Some "")
                      (json_dumps (Runtime := example_runtime)
                         (VDict [("decision", VStr "buy"); ("reason", VStr "dip")]))
                      "{}" "enhanced" "2024-03-05 12:00:00"))
         (get_logs_by_date_range log_db1 (strftime_ymd (noon 1)) (strftime_ymd (noon 5))))
  /\ (forall start_date end_date,
        looks_numeric end_date = true ->
        get_logs_by_date_range log_db1 start_date end_date = []).
Proof.
  apply (logs_range_excludes_end_day log_db1 (noon 1) (noon 5) (noon 5)).
  - left. vm_compute. reflexivity.
  - reflexivity.
Defined.

(** ** Writing analysis logs *)

Section LogWrites.
Context {R : Runtime}.

(** X14: when market_data has neither investment_status nor current_price
    and ai_analysis has none of decision, reason and confidence, the write
    succeeds with the defaults: price and balances 0.0, the investment
    status serialized from the empty dict, and empty strings for decision,
    reason and confidence.  The id returned is the counter plus one, and the
    other tables stay as they are. *)
Theorem analysis_log_defaults (db : database) (utc : datetime)
    (market_data ai_analysis : dict) (timestamp analysis_type : string) :
  lookup "investment_status" market_data = None ->
  lookup "current_price" market_data = None ->
  lookup "decision" ai_analysis = None ->
  lookup "reason" ai_analysis = None ->
  lookup "confidence" ai_analysis = None ->
  save_analysis_log db utc (VDict market_data) (VDict ai_analysis)
    (VStr timestamp) analysis_type =
  ok (mk_db
        (trading_logs db ++
         [ mk_log (trading_logs_seq db + 1) timestamp
                  (VFloat 0) (VFloat 0) (VFloat 0) (VFloat 0)
                  (json_dumps (VDict [])) "" (Some "") (Some "")
                  (json_dumps (VDict ai_analysis))
                  (json_dumps (VDict market_data))
                  analysis_type (current_timestamp utc) ])%list
        (trading_logs_seq db + 1)
        (actual_trades db) (actual_trades_seq db)
        (portfolio_snapshots db) (portfolio_snapshots_seq db),
      trading_logs_seq db + 1).
Proof.
  intros Hstatus Hprice Hdec Hrea Hcon.
  unfold save_analysis_log, py_get.
  rewrite Hstatus, Hprice, Hdec, Hrea, Hcon.
  cbn -[float_of_Z Z.add]. rewrite float_of_Z_0. reflexivity.
Qed.

(** X15: the default for investment_status only covers a missing key.  When
    the key is present with a value that is not a dict (a JSON null, say),
    the write raises AttributeError and stores nothing. *)
Theorem non_dict_investment_status_raises (db : database) (utc : datetime)
    (market_data : dict) (v ai_analysis timestamp : pyval)
    (analysis_type : string) :
  lookup "investment_status" market_data = Some v ->
  (forall d, v <> VDict d) ->
  save_analysis_log db utc (VDict market_data) ai_analysis timestamp
    analysis_type = raise AttributeError.
Proof.
  intros Hstatus Hv. unfold save_analysis_log.
  unfold py_get at 1. rewrite Hstatus. cbn [bind ok].
  unfold py_get at 1. cbn [bind ok].
  destruct v; try reflexivity.
  exfalso. eapply Hv. reflexivity.
Qed.

(** X16: a decision that is present but null is not defaulted either: the
    NOT NULL constraint on ai_decision makes the write raise IntegrityError. *)
Theorem null_decision_raises (db : database) (utc : datetime)
    (market_data ai_analysis : dict) (timestamp analysis_type : string) :
  lookup "investment_status" market_data = None ->
  lookup "current_price" market_data = None ->
  lookup "decision" ai_analysis = Some VNone ->
  lookup "reason" ai_analysis = None ->
  lookup "confidence" ai_analysis = None ->
  save_analysis_log db utc (VDict market_data) (VDict ai_analysis)
    (VStr timestamp) analysis_type = raise IntegrityError.
Proof.
  intros Hstatus Hprice Hdec Hrea Hcon.
  unfold save_analysis_log, py_get.
  rewrite Hstatus, Hprice, Hdec, Hrea, Hcon.
  cbn -[float_of_Z Z.add]. reflexivity.
Qed.

(** ** What a migration leaves behind *)

Lemma import_line_appends (db : database) (now utc : datetime) (text : string)
    (db' : database) (log_id : Z) :
  import_line db now utc text = ok (db', log_id) ->
  exists row,
    trading_logs db' = (trading_logs db ++ [row])%list
    /\ l_id row = log_id
    /\ actual_trades db' = actual_trades db
    /\ portfolio_snapshots db' = portfolio_snapshots db.
Proof.
  intro H. unfold import_line in H. do 4 bind_inv H.
  destruct (save_analysis_log_inv _ _ _ _ _ _ _ _ H)
    as (s1 & s2 & s3 & s4 & s5 & s6 & s7 & row & Hrow).
  destruct (save_analysis_log_frame _ _ _ _ _ _ _ _ H)
    as (_ & _ & _ & _ & Etr & _ & Esn & _).
  exists row.
  repeat match goal with
         | G : _ /\ _ |- _ => destruct G
         end.
  repeat split; assumption.
Qed.

Lemma migrate_lines_appends (clock : nat -> datetime * datetime)
    (lines : list string) :
  forall (i : nat) (db db' : database) (out : list event) (r : option exn),
    migrate_lines clock i db lines = (db', out, r) ->
    exists added,
      trading_logs db' = (trading_logs db ++ added)%list
      /\ out = map LogSaved (map l_id added)
      /\ actual_trades db' = actual_trades db
      /\ portfolio_snapshots db' = portfolio_snapshots db.
Proof.
  induction lines as [ | line lines IH]; intros i db db' out r H; simpl in H.
  - injection H as <- <- <-. exists []. rewrite app_nil_r. auto.
  - destruct (nonempty (strip line)); [ | eapply IH; exact H].
    destruct (import_line db (fst (clock i)) (snd (clock i)) (strip line))
      as [e | [db1 log_id]] eqn:E.
    + injection H as <- <- <-. exists []. rewrite app_nil_r. auto.
    + destruct (migrate_lines clock (S i) db1 lines) as [[db2 out2] r2] eqn:E2.
      injection H as <- <- <-.
      destruct (import_line_appends _ _ _ _ _ _ E) as (row & Hl & Hid & Ht & Hs).
      destruct (IH _ _ _ _ _ E2) as (added & Hl2 & Hout & Ht2 & Hs2).
      exists (row :: added). rewrite Hl2, Hl, <- app_assoc. simpl.
      rewrite Hid, Hout, Ht2, Ht, Hs2, Hs. auto.
Qed.

(** X17: [migrate_from_json] only ever appends logs.  Whatever the file
    holds, the logs stored before are kept, in order, in front of the added
    ones; what is printed is the id of each added log, in order, followed by
    one closing message; trades and snapshots are untouched. *)
Theorem migrate_only_appends (db : database) (path : string)
    (file : result (list string)) (clock : nat -> datetime * datetime) :
  exists added last,
    trading_logs (fst (migrate_from_json db path file clock))
      = (trading_logs db ++ added)%list
    /\ snd (migrate_from_json db path file clock)
       = (map LogSaved (map l_id added) ++ [last])%list
    /\ (last = Migrated path \/ last = FileNotFound path
        \/ exists e, last = MigrationError e)
    /\ actual_trades (fst (migrate_from_json db path file clock))
       = actual_trades db
    /\ portfolio_snapshots (fst (migrate_from_json db path file clock))
       = portfolio_snapshots db.
Proof.
  unfold migrate_from_json. destruct file as [e | lines].
  - exists [], (migration_handler path e). cbn [fst snd map].
    rewrite app_nil_r. repeat split; try reflexivity.
    destruct e; simpl; eauto.
  - destruct (migrate_lines clock 0 db lines) as [[db' out] r] eqn:E.
    destruct (migrate_lines_appends _ _ _ _ _ _ _ E)
      as (added & Hl & Hout & Ht & Hs).
    destruct r as [e | ].
    + exists added, (migration_handler path e). cbn [fst snd].
      rewrite Hout. repeat split; try assumption.
      destruct e; simpl; eauto.
    + exists added, (Migrated path). cbn [fst snd].
      rewrite Hout. repeat split; try assumption. left. reflexivity.
Qed.

End LogWrites.

Lemma analysis_log_defaults_witness :
  save_analysis_log (R := example_runtime) init_database (noon 5)
    (VDict [("volume", VInt 3)]) (VDict []) (VStr "2024-03-05T21:00:00")
    "enhanced" =
  ok (mk_db
        (trading_logs init_database ++
         [ mk_log (trading_logs_seq init_database + 1) "2024-03-05T21:00:00"
                  (VFloat 0) (VFloat 0) (VFloat 0) (VFloat 0)
                  (json_dumps (Runtime := example_runtime) (VDict [])) ""
                  (Some "") (Some "")
                  (json_dumps (Runtime := example_runtime) (VDict []))
                  (json_dumps (Runtime := example_runtime)
                     (VDict [("volume", VInt 3)]))
                  "enhanced" (current_timestamp (noon 5)) ])%list
        (trading_logs_seq init_database + 1)
        (actual_trades init_database) (actual_trades_seq init_database)
        (portfolio_snapshots init_database)
        (portfolio_snapshots_seq init_database),
      trading_logs_seq init_database + 1).
Proof.
  apply (analysis_log_defaults (R := example_runtime) init_database (noon 5)
           [("volume", VInt 3)] [] "2024-03-05T21:00:00" "enhanced");
    reflexivity.
Defined.

Lemma non_dict_investment_status_raises_witness :
  save_analysis_log (R := example_runtime) init_database (noon 5)
    (VDict [("investment_status", VNone)]) (VDict [])
    (VStr "2024-03-05T21:00:00") "enhanced" = raise AttributeError.
Proof.
  apply (non_dict_investment_status_raises (R := example_runtime) init_database
           (noon 5) [("investment_status", VNone)] VNone).
  - reflexivity.
  - intros d H. discriminate H.
Defined.

Lemma null_decision_raises_witness :
  save_analysis_log (R := example_runtime) init_database (noon 5)
    (VDict []) (VDict [("decision", VNone)]) (VStr "2024-03-05T21:00:00")
    "enhanced" = raise IntegrityError.
Proof.
  apply (null_decision_raises (R := example_runtime) init_database (noon 5)
           [] [("decision", VNone)] "2024-03-05T21:00:00" "enhanced");
    reflexivity.
Defined.

(** ** Reading the market context of a written log *)

Section ContextAfterSave.
Context {R : Runtime}.

Lemma string_leb_refl (s : string) : String.leb s s = true.
Proof. destruct (String.leb_total s s); assumption. Qed.

Lemma save_analysis_log_row (db : database) (utc : datetime)
    (market_data ai_analysis : pyval) (timestamp analysis_type : string)
    (db' : database) (log_id : Z) :
  save_analysis_log db utc market_data ai_analysis (VStr timestamp) analysis_type
  = ok (db', log_id) ->
  exists row a b,
    trading_logs db' = (trading_logs db ++ [row])%list
    /\ l_timestamp row = timestamp
    /\ l_market_data_json row = json_dumps market_data
    /\ py_get market_data "current_price" (VInt 0) = ok a
    /\ sqlite_bind a = ok b
    /\ l_current_price row = real_affinity b.
Proof.
  intro H. unfold save_analysis_log in H.
  do 19 (cbv beta zeta in H; bind_inv H).
  cbv beta zeta in H. injection H as <- <-.
  match goal with
  | B : sqlite_bind (VStr timestamp) = ok ?b,
    N : not_null (text_affinity ?b) = ok ?c |- _ =>
      simpl in B; injection B as <-; simpl in N; injection N as <-
  end.
  match goal with
  | G : py_get market_data "current_price" _ = ok ?a,
    B : sqlite_bind ?a = ok ?b,
    P : (if is_none ?b then _ else _) = ok ?c |- _ =>
      destruct (is_none b); [discriminate P | injection P as <-];
      eexists; exists a, b
  end.
  cbn [trading_logs l_timestamp l_market_data_json l_current_price].
  repeat split; try assumption; reflexivity.
Qed.

(** X18: after a log is written with a timestamp later than that of every
    stored log, [get_market_context] at that timestamp reads this log back:
    when the serialized market data decodes to the mapping that was written,
    the context holds the stored price, the mapping's technical_indicators
    and fear_greed_index (an empty dict and an empty list when missing) and
    the timestamp. *)
Theorem market_context_after_save (db : database) (utc : datetime)
    (market_data : dict) (ai_analysis : pyval) (timestamp analysis_type : string)
    (db' : database) (log_id : Z) :
  save_analysis_log db utc (VDict market_data) ai_analysis (VStr timestamp)
    analysis_type = ok (db', log_id) ->
  (forall r, In r (trading_logs db) ->
     String.ltb (l_timestamp r) timestamp = true) ->
  json_loads (json_dumps (VDict market_data)) = Some (VDict market_data) ->
  exists a b,
    py_get (VDict market_data) "current_price" (VInt 0) = ok a
    /\ sqlite_bind a = ok b
    /\ get_market_context db' timestamp =
       [ ("price", real_affinity b);
         ("technical_indicators",
          dict_get market_data "technical_indicators" (VDict []));
         ("fear_greed", dict_get market_data "fear_greed_index" (VList []));
         ("timestamp", VStr timestamp) ].
Proof.
  intros Hsave Hearlier Hcodec.
  destruct (save_analysis_log_row _ _ _ _ _ _ _ _ Hsave)
    as (row & a & b & Hlogs & Hts & Hjson & Ha & Hb & Hprice).
  exists a, b. split; [exact Ha | ]. split; [exact Hb | ].
  unfold get_market_context, logs_up_to. rewrite limit_one, Hlogs, filter_app.
  cbn [filter]. rewrite Hts, string_leb_refl.
  match goal with
  | |- context [order_by ?before (?kept ++ [row])] =>
      destruct (order_by_newest before kept row) as [rest E]
  end.
  { intros y Hy. apply filter_In in Hy. destruct Hy as [Hy _].
    unfold desc. rewrite Hts. apply string_ltb_not_leb.
    apply Hearlier. exact Hy. }
  rewrite E, context_of_row. unfold context_of.
  rewrite Hjson, Hcodec, Hprice, Hts. reflexivity.
Qed.

End ContextAfterSave.

Lemma market_context_after_save_witness :
  exists a b,
    py_get (VDict []) "current_price" (VInt 0) = ok a
    /\ sqlite_bind a = ok b
    /\ get_market_context (R := example_runtime) log_db2 "2024-03-06T12:00:00" =
       [ ("price", real_affinity (R := example_runtime) b);
         ("technical_indicators", dict_get [] "technical_indicators" (VDict []));
         ("fear_greed", dict_get [] "fear_greed_index" (VList []));
         ("timestamp", VStr "2024-03-06T12:00:00") ].
Proof.
  apply (market_context_after_save (R := example_runtime) log_db1 (noon 6) []
           (VDict [("decision", VStr "sell")]) "2024-03-06T12:00:00" "enhanced"
           log_db2 2).
  - vm_compute. reflexivity.
  - intros r Hin. simpl in Hin. destruct Hin as [<- | []].
    vm_compute. reflexivity.
  - reflexivity.
Defined.

(** ** Reflections *)

Lemma not_null_ok {A : Type} (o : option A) (a : A) :
  not_null o = ok a -> o = Some a.
Proof.
  destruct o; simpl; intro H; [ | discriminate H].
  injection H as ->. reflexivity.
Qed.

Section ReflectionFacts.
Context {R : Runtime} {N : IntegerText}.

(** X19: every field of a reflection is optional.  A mapping that has none
    of the fifteen keys is stored with the current local time as reflection
    date, empty strings for the texts, the integer 0 for the three counts
    and 0.0 for the three real columns; the id returned is the counter plus
    one. *)
Theorem reflection_defaults (tbl : reflections) (now utc : datetime) (d : dict) :
  (forall k, In k reflection_keys -> lookup k d = None) ->
  save_reflection tbl now utc (VDict d) =
  ok (mk_reflections
        (self_reflections tbl ++
         [ mk_reflection (self_reflections_seq tbl + 1) (isoformat now) "" ""
             (VInt 0) (VInt 0) (VInt 0) (VFloat 0) (VFloat 0)
             (Some "") (Some "") "" (Some "") (Some "") (VFloat 0) (Some "")
             (current_timestamp utc) ])%list
        (self_reflections_seq tbl + 1),
      self_reflections_seq tbl + 1).
Proof.
  intro Hnone. unfold save_reflection, py_get.
  repeat match goal with
         | |- context [lookup ?k d] =>
             rewrite (Hnone k) by (unfold reflection_keys; simpl; tauto)
         end.
  cbn -[float_of_Z Z.add isoformat]. rewrite float_of_Z_0. reflexivity.
Qed.

Lemma save_reflection_inv (tbl : reflections) (now utc : datetime)
    (data : pyval) (tbl' : reflections) (reflection_id : Z) :
  save_reflection tbl now utc data = ok (tbl', reflection_id) ->
  exists row,
    self_reflections tbl' = (self_reflections tbl ++ [row])%list
    /\ r_id row = reflection_id
    /\ reflection_id = self_reflections_seq tbl + 1
    /\ self_reflections_seq tbl' = reflection_id
    /\ r_created_at row = current_timestamp utc
    /\ (exists a b,
          py_get data "reflection_content" (VStr "") = ok a
          /\ sqlite_bind a = ok b
          /\ text_affinity b = Some (r_reflection_content row))
    /\ (exists a b,
          py_get data "lessons_learned" (VStr "") = ok a
          /\ sqlite_bind a = ok b
          /\ r_lessons_learned row = text_affinity b)
    /\ (exists a b,
          py_get data "total_trades_analyzed" (VInt 0) = ok a
          /\ sqlite_bind a = ok b
          /\ r_total_trades_analyzed row = integer_affinity b)
    /\ (exists a b,
          py_get data "win_rate" (VInt 0) = ok a
          /\ sqlite_bind a = ok b
          /\ r_win_rate row = real_affinity b).
Proof.
  intro H. unfold save_reflection in H.
  do 34 (cbv beta zeta in H; bind_inv H).
  cbv beta zeta in H. injection H as <- <-.
  repeat match goal with
         | G : not_null _ = ok _ |- _ => apply not_null_ok in G
         end.
  eexists. split; [reflexivity | ].
  cbn [r_id r_created_at r_reflection_content r_lessons_learned
       r_total_trades_analyzed r_win_rate self_reflections_seq].
  do 4 (split; [reflexivity | ]).
  repeat split; do 2 eexists;
    (split; [eassumption | split; [eassumption | first [eassumption | reflexivity]]]).
Qed.

(** X20: when [save_reflection] returns and its creation second is later
    than that of every stored reflection, [get_recent_reflections(1)] is the
    written record: it has the returned id; its reflection_content and
    lessons_learned are the input's when these are strings; an integer
    total_trades_analyzed comes back as given; a float win_rate comes back
    as the REAL column returns it (the number itself, a zero unsigned, and
    None for a NaN), and an integer win_rate as the float of that integer. *)
Theorem reflection_round_trip (tbl : reflections) (now utc : datetime)
    (data : pyval) (tbl' : reflections) (reflection_id : Z) :
  save_reflection tbl now utc data = ok (tbl', reflection_id) ->
  (forall r, In r (self_reflections tbl) ->
     String.ltb (r_created_at r) (current_timestamp utc) = true) ->
  exists record,
    get_recent_reflections tbl' 1 = ok [record]
    /\ lookup "id" record = Some (VInt reflection_id)
    /\ (forall s, py_get data "reflection_content" (VStr "") = ok (VStr s) ->
          lookup "reflection_content" record = Some (VStr s))
    /\ (forall s, py_get data "lessons_learned" (VStr "") = ok (VStr s) ->
          lookup "lessons_learned" record = Some (VStr s))
    /\ (forall z, py_get data "total_trades_analyzed" (VInt 0) = ok (VInt z) ->
          lookup "total_trades_analyzed" record = Some (VInt z))
    /\ (forall f, py_get data "win_rate" (VInt 0) = ok (VFloat f) ->
          lookup "win_rate" record = Some (opt_real (stored_real f)))
    /\ (forall z, py_get data "win_rate" (VInt 0) = ok (VInt z) ->
          lookup "win_rate" record = Some (VFloat (float_of_Z z))).
Proof.
  intros Hsave Hfresh.
  destruct (save_reflection_inv _ _ _ _ _ _ Hsave)
    as (row & Hrows & Hid & _ & _ & Hcreated
        & (a1 & b1 & G1 & B1 & T1) & (a2 & b2 & G2 & B2 & T2)
        & (a3 & b3 & G3 & B3 & T3) & (a4 & b4 & G4 & B4 & T4)).
  destruct (order_by_newest (desc r_created_at) (self_reflections tbl) row)
    as [rest Hfirst].
  { intros y Hy. unfold desc. apply string_ltb_not_leb.
    rewrite Hcreated. apply Hfresh. exact Hy. }
  exists (reflection_dict row). split.
  { unfold get_recent_reflections. rewrite bind_int_one, Hrows. cbn [bind ok].
    rewrite Hfirst. reflexivity. }
  cbn [reflection_dict lookup String.eqb Ascii.eqb Bool.eqb].
  rewrite Hid. split; [reflexivity | ].
  split; [ | split; [ | split; [ | split]]].
  - intros s Hs. rewrite Hs in G1. injection G1 as <-.
    rewrite (stored_text _ _ B1) in T1. injection T1 as <-. reflexivity.
  - intros s Hs. rewrite Hs in G2. injection G2 as <-.
    rewrite T2, (stored_text _ _ B2). reflexivity.
  - intros z Hz. rewrite Hz in G3. injection G3 as <-.
    rewrite T3. unfold sqlite_bind in B3.
    destruct ((- 2 ^ 63 <=? z) && (z <? 2 ^ 63)); [ | discriminate B3].
    injection B3 as <-. reflexivity.
  - intros f Hf. rewrite Hf in G4. injection G4 as <-.
    rewrite T4. simpl in B4. injection B4 as <-.
    unfold stored_real. destruct (bind_float f); reflexivity.
  - intros z Hz. rewrite Hz in G4. injection G4 as <-.
    rewrite T4. unfold sqlite_bind in B4.
    destruct ((- 2 ^ 63 <=? z) && (z <? 2 ^ 63)); [ | discriminate B4].
    injection B4 as <-. reflexivity.
Qed.

End ReflectionFacts.

Lemma reflection_defaults_witness :
  save_reflection (R := example_runtime) (N := example_integer_text)
    no_reflections (noon 9) (noon 9) (VDict [("mood", VStr "calm")]) =
  ok (mk_reflections
        (self_reflections no_reflections ++
         [ mk_reflection (self_reflections_seq no_reflections + 1)
             (isoformat (noon 9)) "" ""
             (VInt 0) (VInt 0) (VInt 0) (VFloat 0) (VFloat 0)
             (Some "") (Some "") "" (Some "") (Some "") (VFloat 0) (Some "")
             (current_timestamp (noon 9)) ])%list
        (self_reflections_seq no_reflections + 1),
      self_reflections_seq no_reflections + 1).
Proof.
  apply (reflection_defaults (R := example_runtime) (N := example_integer_text)
           no_reflections (noon 9) (noon 9) [("mood", VStr "calm")]).
  intros k Hk. unfold reflection_keys in Hk. simpl in Hk.
  repeat (destruct Hk as [<- | Hk]; [reflexivity | ]). destruct Hk.
Defined.

Lemma reflection_round_trip_witness :
  exists record,
    get_recent_reflections reflections2 1 = ok [record]
    /\ lookup "id" record = Some (VInt 2)
    /\ (forall s, py_get (VDict [("reflection_content", VStr "held");
                                 ("win_rate", VInt 50);
                                 ("total_trades_analyzed", VInt 2)])
                    "reflection_content" (VStr "") = ok (VStr s) ->
          lookup "reflection_content" record = Some (VStr s))
    /\ (forall s, py_get (VDict [("reflection_content", VStr "held");
                                 ("win_rate", VInt 50);
                                 ("total_trades_analyzed", VInt 2)])
                    "lessons_learned" (VStr "") = ok (VStr s) ->
          lookup "lessons_learned" record = Some (VStr s))
    /\ (forall z, py_get (VDict [("reflection_content", VStr "held");
                                 ("win_rate", VInt 50);
                                 ("total_trades_analyzed", VInt 2)])
                    "total_trades_analyzed" (VInt 0) = ok (VInt z) ->
          lookup "total_trades_analyzed" record = Some (VInt z))
    /\ (forall f, py_get (VDict [("reflection_content", VStr "held");
                                 ("win_rate", VInt 50);
                                 ("total_trades_analyzed", VInt 2)])
                    "win_rate" (VInt 0) = ok (VFloat f) ->
          lookup "win_rate" record = Some (opt_real (stored_real f)))
    /\ (forall z, py_get (VDict [("reflection_content", VStr "held");
                                 ("win_rate", VInt 50);
                                 ("total_trades_analyzed", VInt 2)])
                    "win_rate" (VInt 0) = ok (VInt z) ->
          lookup "win_rate" record = Some (VFloat (float_of_Z z))).
Proof.
  apply (reflection_round_trip (R := example_runtime)
           (N := example_integer_text) reflections1 (noon 10) (noon 10)
           (VDict [("reflection_content", VStr "held"); ("win_rate", VInt 50);
                   ("total_trades_analyzed", VInt 2)])
           reflections2 2).
  - vm_compute. reflexivity.
  - intros r Hin. simpl in Hin. destruct Hin as [<- | []].
    vm_compute. reflexivity.
Defined.

(** ** Statistics after a trade *)









(** X22: the analysis never reports more trades than the statistics: over
    any window that holds trades, its total_trades is at most the
    total_trades of [get_trading_stats]. *)
Theorem analysis_total_within_stats (db : database) (now : datetime)
    (days_back : Z) (d : dict) :
  analyze_trading_performance db now days_back = ok d ->
  exists analysed total,
    lookup "total_trades" d = Some (VInt analysed)
    /\ lookup "total_trades" (get_trading_stats db) = Some (VInt total)
    /\ 0 <= analysed <= total.
Proof.
  intro H. unfold analyze_trading_performance in H.
  bind_inv H. rename a into start_date.
  destruct (trades_in_window db start_date now) as [ | r rest] eqn:E.
  - rewrite (analyze_empty _ _ _ E) in H. injection H as <-.
    eexists. eexists. split; [reflexivity | ]. split; [reflexivity | ]. lia.
  - assert (Hne : trades_in_window db start_date now <> []) by congruence.
    destruct (analyze_traded _ _ _ _ Hne H) as (st & q & _ & _ & ->).
    eexists. eexists. split; [reflexivity | ]. split; [reflexivity | ].
    split; [lia | ].
    rewrite trades_in_window_filter, order_by_length.
    apply inj_le. unfold successful.
    induction (actual_trades db) as [ | x rows IH]; simpl.
    + lia.
    + unfold in_window at 1.
      destruct (t_success x); simpl.
      * destruct (between _ _ _); simpl; lia.
      * rewrite andb_false_r. exact IH.
Qed.

Lemma analysis_total_within_stats_witness :
  exists analysed total,
    lookup "total_trades" buy_then_sell_report = Some (VInt analysed)
    /\ lookup "total_trades" (get_trading_stats buy_then_sell) = Some (VInt total)
    /\ 0 <= analysed <= total.
Proof.
  apply (analysis_total_within_stats buy_then_sell (noon 8) 7 buy_then_sell_report).
  vm_compute. reflexivity.
Defined.
